(** * hikyuu: the timer scheduler and the per-bar trading system

    A shallow embedding of two components of the repository:

    - [TimerMgr]: the class [TimerManager] (timer registration, id
      allocation, the initial scheduling done by [start] and one turn of
      the loop of [detectThread]);
    - [Sys]: the class [System] of [System.cpp] (the per-bar procedure
      [runMoment] and the delayed-order protocol);
    - [TimerOps]: sequences of calls on a [TimerManager] and of turns of its
      detector;
    - [SysOps]: [_sellForce], [readyForRun], [setTO] and [run] of [System],
      and sequences of calls on a system.

    Every operation is a function on an explicit state record.  A C++
    exception is a constructor of the result type that carries the state at
    the point of the throw.  [Datetime::now()] is an argument. *)

From Stdlib Require Import ZArith Lia Bool List Sorted.
From Stdlib Require Import PrimFloat.
From stdpp Require Import gmap.

Import ListNotations.
Local Open Scope Z_scope.

(** ** Shared value types *)

(** [TimeDelta]: a signed duration counted in ticks of one microsecond. *)
Definition TimeDelta := Z.

(** Modelled from the spec: the constructor of [TimeDelta] (the header
    [TimeDelta.h] is not among the sources).  The spec gives the unit (ticks
    of a microsecond) and the bound of a time of day (24 h); the source
    writes that bound, less one tick, as [TimeDelta(0, 23, 59, 59, 999, 999)]
    and the 100 ms of [addFuncAtPoint] as [TimeDelta(0, 0, 0, 0, 100)], which
    fixes the order of the arguments: days, hours, minutes, seconds,
    milliseconds, microseconds, the trailing ones defaulting to zero. *)
Definition TimeDelta_mk (days hours minutes seconds milliseconds microseconds : Z)
  : TimeDelta :=
  ((((days * 24 + hours) * 60 + minutes) * 60 + seconds) * 1000 + milliseconds) * 1000
  + microseconds.

(** [TimeDelta()] and [TimeDelta(0)]. *)
Definition TimeDelta_zero : TimeDelta := TimeDelta_mk 0 0 0 0 0 0.
(** [TimeDelta(1)]: only the first argument, the days, is given. *)
Definition TimeDelta_1 : TimeDelta := TimeDelta_mk 1 0 0 0 0 0.
(** [TimeDelta(0, 23, 59, 59, 999, 999)]. *)
Definition TimeDelta_day_last : TimeDelta := TimeDelta_mk 0 23 59 59 999 999.

Definition ticks_per_day : Z := 86400000000.
Definition one_microsecond : TimeDelta := 1.

(** [Datetime]: an instant at microsecond resolution, counted in ticks from
    a midnight, or the null value ([isNull()] is the test for [Null]). *)
Inductive Datetime : Type :=
| Null
| At (ticks : Z).

(** [Datetime::startOfDay] on the ticks of a non-null instant. *)
Definition startOfDay (t : Z) : Z := t - t mod ticks_per_day.

(** The time of day of an instant: [t - t.startOfDay()]. *)
Definition time_of_day (t : Z) : TimeDelta := t - startOfDay t.

(** ** The timer scheduler *)

Module TimerMgr.

(** What [HKU_CHECK] and [HKU_THROW] raise, one constructor per call site. *)
Inductive Exn : Type :=
| Invalid_start_date
| Invalid_end_date
| End_date_not_after_start_date
| Invalid_start_time
| Invalid_end_time
| End_time_before_start_time
| Invalid_repeat_num
| Invalid_duration
| Invalid_delay
| Invalid_time_point
| Failed_to_get_new_id.

Section Scheduler.

(** [std::numeric_limits<int>::max()]; 2147483647 where [int] has 32 bits. *)
Variable max_int : Z.
(** The ticks of [Datetime::min()] and [Datetime::max()] ([Datetime.h] is not
    among the sources). *)
Variables Datetime_min Datetime_max : Z.
(** The bound callbacks, [std::function<void()>]. *)
Variable Func : Type.

Record Timer : Type := mkTimer {
  m_start_date : Z;
  m_end_date : Z;
  m_start_time : TimeDelta;
  m_end_time : TimeDelta;
  m_duration : TimeDelta;
  m_repeat_num : Z;
  m_func : Func
}.

Definition set_repeat_num (n : Z) (t : Timer) : Timer :=
  mkTimer (m_start_date t) (m_end_date t) (m_start_time t) (m_end_time t)
          (m_duration t) n (m_func t).

Record IntervalS : Type := mkIntervalS {
  m_time_point : Z;
  m_timer_id : Z
}.

(** One call of [m_tg->submit]: the instant of the call, the timer and its
    callback. *)
Record Dispatch : Type := mkDispatch {
  d_instant : Z;
  d_timer_id : Z;
  d_func : Func
}.

(** [m_queue] is a [std::priority_queue] whose order is reversed by
    [IntervalS::operator<], so [top()] is an entry of least time point.  It is
    kept as a list ordered by time point with [top()] at the head; among equal
    time points the order is that of insertion (the heap leaves it open).
    [m_submitted] lists what the thread pool [m_tg] was given, latest first.
    The mutex is not modelled: every operation below runs as one step. *)
Record TimerManager : Type := mkTimerManager {
  m_queue : list IntervalS;
  m_stop : bool;
  m_timers : gmap Z Timer;
  m_current_timer_id : Z;
  m_submitted : list Dispatch
}.

Definition set_queue (q : list IntervalS) (tm : TimerManager) : TimerManager :=
  mkTimerManager q (m_stop tm) (m_timers tm) (m_current_timer_id tm) (m_submitted tm).
Definition set_stop (b : bool) (tm : TimerManager) : TimerManager :=
  mkTimerManager (m_queue tm) b (m_timers tm) (m_current_timer_id tm) (m_submitted tm).
Definition set_timers (m : gmap Z Timer) (tm : TimerManager) : TimerManager :=
  mkTimerManager (m_queue tm) (m_stop tm) m (m_current_timer_id tm) (m_submitted tm).
Definition set_current_timer_id (i : Z) (tm : TimerManager) : TimerManager :=
  mkTimerManager (m_queue tm) (m_stop tm) (m_timers tm) i (m_submitted tm).
Definition submit (d : Dispatch) (tm : TimerManager) : TimerManager :=
  mkTimerManager (m_queue tm) (m_stop tm) (m_timers tm) (m_current_timer_id tm)
                 (d :: m_submitted tm).

(** The constructor: [m_current_timer_id(-1), m_stop(true)]. *)
Definition TimerManager_new : TimerManager :=
  mkTimerManager [] true ∅ (-1) [].

Fixpoint queue_push (s : IntervalS) (q : list IntervalS) : list IntervalS :=
  match q with
  | [] => [s]
  | x :: q' =>
      if m_time_point s <? m_time_point x then s :: q else x :: queue_push s q'
  end.

Definition removeTimer (id : Z) (tm : TimerManager) : TimerManager :=
  set_timers (delete id (m_timers tm)) tm.

(** What an operation that may throw yields.  [Hangs] stands for a loop that
    does not end. *)
Inductive Outcome : Type :=
| Done (tm : TimerManager)
| Throws (e : Exn) (tm : TimerManager)
| Hangs.

(** *** [getNewTimerId] *)

Definition next_id (id : Z) : Z := if id >=? max_int then 0 else id + 1.

(** The loop [while (true)] of [getNewTimerId], with the number of turns
    bounded by [fuel]: [None] when the bound is reached. *)
Fixpoint probe (fuel : nat) (m : gmap Z Timer) (id : Z) : option Z :=
  match fuel with
  | O => None
  | S fuel' =>
      match m !! id with
      | Some _ => probe fuel' m (next_id id)
      | None => Some id
      end
  end.

(** [getNewTimerId]: the id and the state, or [None] when the loop does not
    end within [size + 1] turns ([getNewTimerId_total] shows it does). *)
Definition getNewTimerId (tm : TimerManager) : option (Z * TimerManager) :=
  if Z.of_nat (size (m_timers tm)) >=? max_int then Some (-1, tm)
  else
    match probe (S (size (m_timers tm))) (m_timers tm) (next_id (m_current_timer_id tm)) with
    | Some id => Some (id, set_current_timer_id id tm)
    | None => None
    end.

(** *** [_addFunc] and the public submission paths *)

Definition _addFunc (now : Z) (start_date end_date : Z) (start_time end_time : TimeDelta)
    (repeat_num : Z) (duration : TimeDelta) (f : Func) (tm : TimerManager) : Outcome :=
  let t := mkTimer start_date end_date start_time end_time duration repeat_num f in
  let point := now + duration in
  match getNewTimerId tm with
  | None => Hangs
  | Some (id, tm1) =>
      if id <? 0 then Throws Failed_to_get_new_id tm1
      else
        Done (set_queue (queue_push (mkIntervalS point id) (m_queue tm1))
                (set_timers (<[id := t]> (m_timers tm1)) tm1))
  end.

Definition addFunc (now : Z) (start_date end_date : Datetime) (start_time end_time : TimeDelta)
    (repeat_num : Z) (duration : TimeDelta) (f : Func) (tm : TimerManager) : Outcome :=
  match start_date, end_date with
  | Null, _ => Throws Invalid_start_date tm
  | At _, Null => Throws Invalid_end_date tm
  | At sd, At ed =>
      if negb (ed >? sd) then Throws End_date_not_after_start_date tm
      else if negb ((start_time >? TimeDelta_mk 0 0 0 0 0 0) && (start_time <=? TimeDelta_day_last))
      then Throws Invalid_start_time tm
      else if negb ((end_time >? TimeDelta_mk 0 0 0 0 0 0) && (end_time <=? TimeDelta_day_last))
      then Throws Invalid_end_time tm
      else if negb (end_time >=? start_time) then Throws End_time_before_start_time tm
      else if negb (repeat_num >? 0) then Throws Invalid_repeat_num tm
      else if negb (duration >? TimeDelta_mk 0 0 0 0 0 0) then Throws Invalid_duration tm
      else _addFunc now sd ed start_time end_time repeat_num duration f tm
  end.

Definition addDurationFunc (now : Z) (repeat_num : Z) (duration : TimeDelta) (f : Func)
    (tm : TimerManager) : Outcome :=
  if negb (repeat_num >? 0) then Throws Invalid_repeat_num tm
  else if negb (duration >? TimeDelta_zero) then Throws Invalid_duration tm
  else _addFunc now Datetime_min Datetime_max TimeDelta_zero TimeDelta_zero
                repeat_num duration f tm.

Definition addDelayFunc (now : Z) (delay : TimeDelta) (f : Func) (tm : TimerManager) : Outcome :=
  if negb (delay >? TimeDelta_zero) then Throws Invalid_delay tm
  else _addFunc now Datetime_min Datetime_max TimeDelta_zero TimeDelta_zero 1 delay f tm.

Definition addFuncAtPoint (now : Z) (time_point : Datetime) (f : Func) (tm : TimerManager)
  : Outcome :=
  match time_point with
  | Null => Throws Invalid_time_point tm
  | At tp =>
      let delay := TimeDelta_mk 0 0 0 0 100 0 in
      let run_point := tp - delay in
      let date := startOfDay run_point in
      let time := run_point - date in
      _addFunc now date Datetime_max time TimeDelta_day_last 1 delay f tm
  end.

(** *** [start] and [stop] *)

(** [int(q)] for the quotient [q] of two durations (line 80).  The conversion
    of a [double] that no [int] holds is undefined in C++; the model takes
    what the conversion instruction of x86-64 yields there, [INT_MIN]. *)
Definition int_of_quotient (q : Z) : Z :=
  if (- max_int - 1 <=? q) && (q <=? max_int) then q else - max_int - 1.

(** [i + 1] in an [int], with the wrap-around of two's complement. *)
Definition int_succ (i : Z) : Z := if i >=? max_int then - max_int - 1 else i + 1.

(** The first time point [start] gives a timer: [now + duration], moved into
    the daily window when the timer has one.  [gap / duration] is the quotient
    of the two tick counts as a [double], which [int(...)] truncates, and
    [duration * double(x)] the product of the tick count by [x] (the
    operators of [TimeDelta] are in a header that is not among the sources):
    for a [gap] inside one day and a duration below 2^53 ticks the [double]s
    hold both without rounding. *)
Definition initial_time_point (now : Z) (timer : Timer) : Z :=
  let p := now + m_duration timer in
  if negb (m_start_time timer =? m_end_time timer) then
    let point_date := startOfDay p in
    let point := p - point_date in
    if point <? m_start_time timer then point_date + m_start_time timer
    else if point >? m_end_time timer then point_date + m_start_time timer + TimeDelta_1
    else
      let gap := point - m_start_time timer in
      if negb (Z.rem gap (m_duration timer) =? 0) then
        let x := int_succ (int_of_quotient (Z.quot gap (m_duration timer))) in
        point_date + m_start_time timer + m_duration timer * x
      else p
  else p.

Definition timer_expired (now : Z) (timer : Timer) : bool :=
  (m_repeat_num timer <=? 0)
  || (negb (m_end_date timer =? Datetime_max)
      && (m_end_date timer + m_end_time timer <=? now)).

(** The body of the loop of [start] over [m_timers]: the queue and the list
    [invalid_timers]. *)
Definition start_visit (now : Z) (acc : list IntervalS * list Z) (kv : Z * Timer)
  : list IntervalS * list Z :=
  let (id, timer) := kv in
  if timer_expired now timer then (fst acc, id :: snd acc)
  else (queue_push (mkIntervalS (initial_time_point now timer) id) (fst acc), snd acc).

(** [start]: a single reading of the clock stands for the readings of the
    loop; the detached thread is [detect_step] below. *)
Definition start (now : Z) (tm : TimerManager) : TimerManager :=
  if m_stop tm then
    let tm1 := set_stop false tm in
    let '(q, invalid_timers) :=
      fold_left (start_visit now) (map_to_list (m_timers tm1)) (m_queue tm1, []) in
    fold_left (fun t id => removeTimer id t) invalid_timers (set_queue q tm1)
  else tm.

Definition stop (tm : TimerManager) : TimerManager :=
  if negb (m_stop tm) then set_queue [] (set_stop true tm) else tm.

(** *** One turn of the loop of [detectThread] *)

Inductive DetectEvent : Type :=
| Exited                      (* [m_stop] is set: the loop ends *)
| WaitSignal                  (* empty queue: [m_cond.wait] *)
| WaitFor (diff : TimeDelta)  (* the top is in the future: [m_cond.wait_for] *)
| Stale (id : Z)              (* the timer of the popped entry is gone *)
| Finished (id : Z)           (* dispatched, then removed *)
| Rescheduled (id : Z) (point : Z).  (* dispatched, then pushed back *)

(** The time point pushed back after a dispatch: [fired + duration], replaced
    when the timer has a daily window and that instant is past [end_time] of
    the day of [now]. *)
Definition next_time_point (now : Z) (timer : Timer) (fired : Z) : Z :=
  let p := fired + m_duration timer in
  let today := startOfDay now in
  if negb (m_start_time timer =? m_end_time timer) && (p >? today + m_end_time timer)
  then today + m_start_time timer + TimeDelta_1
  else p.

(** [m_repeat_num--], unless the count is the one that stands for ever. *)
Definition count_down (timer : Timer) : Timer :=
  if negb (m_repeat_num timer =? max_int)
  then set_repeat_num (m_repeat_num timer - 1) timer else timer.

(** [fired + duration] is past the last instant of the timer. *)
Definition past_end (timer : Timer) (p : Z) : bool :=
  negb (m_end_date timer =? Datetime_max) && (p >? m_end_date timer + m_end_time timer).

Definition detect_step (now : Z) (tm : TimerManager) : TimerManager * DetectEvent :=
  if m_stop tm then (tm, Exited)
  else
    match m_queue tm with
    | [] => (tm, WaitSignal)
    | s :: q =>
        let diff := m_time_point s - now in
        if diff >? TimeDelta_zero then (tm, WaitFor diff)
        else
          let tm1 := set_queue q tm in
          match m_timers tm1 !! m_timer_id s with
          | None => (tm1, Stale (m_timer_id s))
          | Some timer =>
              let tm2 := submit (mkDispatch now (m_timer_id s) (m_func timer)) tm1 in
              let timer' := count_down timer in
              let tm3 := set_timers (<[m_timer_id s := timer']> (m_timers tm2)) tm2 in
              if m_repeat_num timer' <=? 0 then
                (removeTimer (m_timer_id s) tm3, Finished (m_timer_id s))
              else
                let p := m_time_point s + m_duration timer' in
                if past_end timer' p then (removeTimer (m_timer_id s) tm3, Finished (m_timer_id s))
                else
                  let p' := next_time_point now timer' (m_time_point s) in
                  (set_queue (queue_push (mkIntervalS p' (m_timer_id s)) (m_queue tm3)) tm3,
                   Rescheduled (m_timer_id s) p')
          end
    end.

End Scheduler.

Arguments mkTimer {Func}.
Arguments m_start_date {Func}.
Arguments m_end_date {Func}.
Arguments m_start_time {Func}.
Arguments m_end_time {Func}.
Arguments m_duration {Func}.
Arguments m_repeat_num {Func}.
Arguments m_func {Func}.
Arguments set_repeat_num {Func}.
Arguments mkDispatch {Func}.
Arguments d_instant {Func}.
Arguments d_timer_id {Func}.
Arguments d_func {Func}.
Arguments mkTimerManager {Func}.
Arguments m_queue {Func}.
Arguments m_stop {Func}.
Arguments m_timers {Func}.
Arguments m_current_timer_id {Func}.
Arguments m_submitted {Func}.
Arguments set_queue {Func}.
Arguments set_stop {Func}.
Arguments set_timers {Func}.
Arguments set_current_timer_id {Func}.
Arguments submit {Func}.
Arguments TimerManager_new {Func}.
Arguments removeTimer {Func}.
Arguments Done {Func}.
Arguments Throws {Func}.
Arguments Hangs {Func}.
Arguments probe max_int {Func}.
Arguments getNewTimerId max_int {Func}.
Arguments _addFunc max_int {Func}.
Arguments addFunc max_int {Func}.
Arguments addDurationFunc max_int Datetime_min Datetime_max {Func}.
Arguments addDelayFunc max_int Datetime_min Datetime_max {Func}.
Arguments addFuncAtPoint max_int Datetime_max {Func}.
Arguments initial_time_point max_int {Func}.
Arguments timer_expired Datetime_max {Func}.
Arguments start_visit max_int Datetime_max {Func}.
Arguments start max_int Datetime_max {Func}.
Arguments stop {Func}.
Arguments next_time_point {Func}.
Arguments count_down max_int {Func}.
Arguments past_end Datetime_max {Func}.
Arguments detect_step max_int Datetime_max {Func}.

(** *** Vocabulary of the properties *)

(** The validation rules of a timer specification, in the words of the
    spec: dates non-null, [end_date > start_date], both times inside
    (0, 24 h), [end_time >= start_time], [repeat_num >= 1], [duration > 0]. *)
Definition valid_submission (start_date end_date : Datetime) (start_time end_time : TimeDelta)
    (repeat_num : Z) (duration : TimeDelta) : Prop :=
  match start_date, end_date with
  | At sd, At ed =>
      ed > sd /\ 0 < start_time < ticks_per_day /\ 0 < end_time < ticks_per_day
      /\ end_time >= start_time /\ repeat_num >= 1 /\ duration > 0
  | _, _ => False
  end.

(** A registered timer obeys the rules. *)
Definition valid_timer {Func : Type} (t : Timer Func) : Prop :=
  valid_submission (At (m_start_date t)) (At (m_end_date t)) (m_start_time t) (m_end_time t)
    (m_repeat_num t) (m_duration t).

(** The instant lies in the daily window of the timer. *)
Definition in_window {Func : Type} (t : Timer Func) (instant : Z) : Prop :=
  m_start_time t <= time_of_day instant <= m_end_time t.

End TimerMgr.

(** ** The trading system *)

Module Sys.

(** [price_t] is [double]; so are the quantities ([number]). *)
Definition price_t := float.

(** Modelled from the spec: the business kinds of a trade ([TradeRecord.h] is
    not among the sources); [BUSINESS_NONE] means that there is no trade. *)
Inductive BUSINESS : Type :=
| BUSINESS_INIT
| BUSINESS_BUY
| BUSINESS_SELL
| BUSINESS_BUY_SHORT
| BUSINESS_SELL_SHORT
| BUSINESS_NONE.

#[export] Instance BUSINESS_eq_dec : EqDecision BUSINESS.
Proof. solve_decision. Defined.

(** The origin tag of a decision; [PART_INVALID] is the tag of a cleared
    request. *)
Inductive Part : Type :=
| PART_ENVIRONMENT
| PART_CONDITION
| PART_SIGNAL
| PART_STOPLOSS
| PART_TAKEPROFIT
| PART_MONEYMANAGER
| PART_PROFITGOAL
| PART_SLIPPAGE
| PART_ALLOCATEFUNDS
| PART_PORTFOLIO
| PART_INVALID.

#[export] Instance Part_eq_dec : EqDecision Part.
Proof. solve_decision. Defined.

Module KRecord.
Record t : Type := mk {
  datetime : Datetime;
  openPrice : price_t;
  highPrice : price_t;
  lowPrice : price_t;
  closePrice : price_t;
  transAmount : price_t;
  transCount : price_t
}.
(** Modelled from the spec: [KRecord(datetime)], a bar of which only the
    datetime is given ([KRecord.h] is not among the sources): the prices and
    volumes are zero. *)
Definition of_datetime (d : Datetime) : t := mk d 0%float 0%float 0%float 0%float 0%float 0%float.
End KRecord.

Module TradeRecord.
Record t : Type := mk {
  datetime : Datetime;
  business : BUSINESS;
  planPrice : price_t;
  realPrice : price_t;
  goalPrice : price_t;
  number : float;
  stoploss : price_t;
  from : Part
}.
(** Modelled from the spec: [TradeRecord()], the record of no trade, and
    [isNull] ([TradeRecord.h] is not among the sources). *)
Definition null : t :=
  mk Null BUSINESS_NONE 0%float 0%float 0%float 0%float 0%float PART_INVALID.
Definition isNull (r : t) : bool := bool_decide (business r = BUSINESS_NONE).
End TradeRecord.

Module PositionRecord.
Record t : Type := mk {
  number : float;
  stoploss : price_t;
  goalPrice : price_t
}.
End PositionRecord.

(** The buffer of a delayed order (the spec's [OrderRequest]). *)
Module TradeRequest.
Record t : Type := mk {
  valid : bool;
  business : BUSINESS;
  datetime : Datetime;
  stoploss : price_t;
  goal : price_t;
  number : float;
  from : Part;
  count : Z
}.
(** Modelled from the spec: a cleared request is not valid and counts no
    retry (the struct and its [clear()] are not among the sources). *)
Definition cleared : t := mk false BUSINESS_NONE Null 0%float 0%float 0%float PART_INVALID 0.
End TradeRequest.

(** The parameters that [initParam] declares, read by [getParam]. *)
Record Params : Type := mkParams {
  max_delay_count : Z;
  delay : bool;
  delay_use_current_price : bool;
  tp_monotonic : bool;
  tp_delay_n : Z;
  ignore_sell_sg : bool;
  can_trade_when_high_eq_low : bool;
  ev_open_position : bool;
  cn_open_position : bool;
  support_borrow_cash : bool;
  support_borrow_stock : bool
}.

Definition initParam : Params :=
  mkParams 3 true true true 3 false false false false false false.

(** The collaborators of a system: the stock, the trade manager and the
    plug-ins it points to.  [W] is their joint state.  The queries are the
    helpers that [System.h] forwards to the plug-ins; the operations of the
    trade manager return the changed state with their record. *)
Class Collaborators (W : Type) : Type := {
  minTradeNumber : W -> float;
  maxTradeNumber : W -> float;
  tm_have : W -> bool;
  tm_getPosition : W -> PositionRecord.t;
  tm_getShortPosition : W -> PositionRecord.t;
  tm_getHoldNumber : W -> Datetime -> float;
  tm_started : W -> Datetime -> bool;   (* [datetime >= m_tm->initDatetime()] *)
  tm_buy : W -> Datetime -> price_t -> float -> price_t -> price_t -> price_t -> Part
           -> W * TradeRecord.t;
  tm_sell : W -> Datetime -> price_t -> float -> price_t -> price_t -> price_t -> Part
            -> W * TradeRecord.t;
  tm_buyShort : W -> Datetime -> price_t -> float -> price_t -> price_t -> price_t -> Part
                -> W * TradeRecord.t;
  _environmentIsValid : W -> Datetime -> bool;
  _conditionIsValid : W -> Datetime -> bool;
  sg_shouldBuy : W -> Datetime -> bool;
  sg_shouldSell : W -> Datetime -> bool;
  _getStoplossPrice : W -> Datetime -> price_t -> price_t;
  _getShortStoplossPrice : W -> Datetime -> price_t -> price_t;
  _getTakeProfitPrice : W -> Datetime -> price_t;
  _getGoalPrice : W -> Datetime -> price_t -> price_t;
  _getShortGoalPrice : W -> Datetime -> price_t -> price_t;
  _getRealBuyPrice : W -> Datetime -> price_t -> price_t;
  _getRealSellPrice : W -> Datetime -> price_t -> price_t;
  _getBuyNumber : W -> Datetime -> price_t -> price_t -> Part -> float;
  _getSellNumber : W -> Datetime -> price_t -> price_t -> Part -> float;
  _getBuyShortNumber : W -> Datetime -> price_t -> price_t -> Part -> float;
  _getSellShortNumber : W -> Datetime -> price_t -> price_t -> Part -> float;
  has_mm : W -> bool;                   (* [m_mm] is set *)
  has_pg : W -> bool;                   (* [m_pg] is set *)
  mm_buyNotify : W -> TradeRecord.t -> W;
  pg_buyNotify : W -> TradeRecord.t -> W;
  mm_sellNotify : W -> TradeRecord.t -> W;
  pg_sellNotify : W -> TradeRecord.t -> W;
  plugins_reset : bool -> bool -> W -> W  (* the calls of [reset()] on the parts *)
}.

(** The four directions of a delayed order, in the priority order of the
    spec: long-buy, long-sell, short-sell, short-buy. *)
Inductive Direction : Type := LongBuy | LongSell | ShortSell | ShortBuy.

Definition priority : list Direction := [LongBuy; LongSell; ShortSell; ShortBuy].

Section System.

Context {W : Type} `{Collaborators W}.

Record System : Type := mkSystem {
  m_world : W;
  m_params : Params;
  m_pre_ev_valid : bool;
  m_pre_cn_valid : bool;
  m_buy_days : Z;
  m_sell_short_days : Z;
  m_trade_list : list TradeRecord.t;
  m_lastTakeProfit : price_t;
  m_lastShortTakeProfit : price_t;
  m_buyRequest : TradeRequest.t;
  m_sellRequest : TradeRequest.t;
  m_sellShortRequest : TradeRequest.t;
  m_buyShortRequest : TradeRequest.t
}.

Definition set_world (w : W) (s : System) : System :=
  mkSystem w (m_params s) (m_pre_ev_valid s) (m_pre_cn_valid s) (m_buy_days s)
    (m_sell_short_days s) (m_trade_list s) (m_lastTakeProfit s) (m_lastShortTakeProfit s)
    (m_buyRequest s) (m_sellRequest s) (m_sellShortRequest s) (m_buyShortRequest s).
Definition setParams (p : Params) (s : System) : System :=
  mkSystem (m_world s) p (m_pre_ev_valid s) (m_pre_cn_valid s) (m_buy_days s)
    (m_sell_short_days s) (m_trade_list s) (m_lastTakeProfit s) (m_lastShortTakeProfit s)
    (m_buyRequest s) (m_sellRequest s) (m_sellShortRequest s) (m_buyShortRequest s).
Definition set_pre_ev_valid (b : bool) (s : System) : System :=
  mkSystem (m_world s) (m_params s) b (m_pre_cn_valid s) (m_buy_days s)
    (m_sell_short_days s) (m_trade_list s) (m_lastTakeProfit s) (m_lastShortTakeProfit s)
    (m_buyRequest s) (m_sellRequest s) (m_sellShortRequest s) (m_buyShortRequest s).
Definition set_pre_cn_valid (b : bool) (s : System) : System :=
  mkSystem (m_world s) (m_params s) (m_pre_ev_valid s) b (m_buy_days s)
    (m_sell_short_days s) (m_trade_list s) (m_lastTakeProfit s) (m_lastShortTakeProfit s)
    (m_buyRequest s) (m_sellRequest s) (m_sellShortRequest s) (m_buyShortRequest s).
Definition set_buy_days (n : Z) (s : System) : System :=
  mkSystem (m_world s) (m_params s) (m_pre_ev_valid s) (m_pre_cn_valid s) n
    (m_sell_short_days s) (m_trade_list s) (m_lastTakeProfit s) (m_lastShortTakeProfit s)
    (m_buyRequest s) (m_sellRequest s) (m_sellShortRequest s) (m_buyShortRequest s).
Definition set_sell_short_days (n : Z) (s : System) : System :=
  mkSystem (m_world s) (m_params s) (m_pre_ev_valid s) (m_pre_cn_valid s) (m_buy_days s)
    n (m_trade_list s) (m_lastTakeProfit s) (m_lastShortTakeProfit s)
    (m_buyRequest s) (m_sellRequest s) (m_sellShortRequest s) (m_buyShortRequest s).
Definition set_trade_list (l : list TradeRecord.t) (s : System) : System :=
  mkSystem (m_world s) (m_params s) (m_pre_ev_valid s) (m_pre_cn_valid s) (m_buy_days s)
    (m_sell_short_days s) l (m_lastTakeProfit s) (m_lastShortTakeProfit s)
    (m_buyRequest s) (m_sellRequest s) (m_sellShortRequest s) (m_buyShortRequest s).
Definition set_lastTakeProfit (p : price_t) (s : System) : System :=
  mkSystem (m_world s) (m_params s) (m_pre_ev_valid s) (m_pre_cn_valid s) (m_buy_days s)
    (m_sell_short_days s) (m_trade_list s) p (m_lastShortTakeProfit s)
    (m_buyRequest s) (m_sellRequest s) (m_sellShortRequest s) (m_buyShortRequest s).
Definition set_lastShortTakeProfit (p : price_t) (s : System) : System :=
  mkSystem (m_world s) (m_params s) (m_pre_ev_valid s) (m_pre_cn_valid s) (m_buy_days s)
    (m_sell_short_days s) (m_trade_list s) (m_lastTakeProfit s) p
    (m_buyRequest s) (m_sellRequest s) (m_sellShortRequest s) (m_buyShortRequest s).
Definition set_buyRequest (r : TradeRequest.t) (s : System) : System :=
  mkSystem (m_world s) (m_params s) (m_pre_ev_valid s) (m_pre_cn_valid s) (m_buy_days s)
    (m_sell_short_days s) (m_trade_list s) (m_lastTakeProfit s) (m_lastShortTakeProfit s)
    r (m_sellRequest s) (m_sellShortRequest s) (m_buyShortRequest s).
Definition set_sellRequest (r : TradeRequest.t) (s : System) : System :=
  mkSystem (m_world s) (m_params s) (m_pre_ev_valid s) (m_pre_cn_valid s) (m_buy_days s)
    (m_sell_short_days s) (m_trade_list s) (m_lastTakeProfit s) (m_lastShortTakeProfit s)
    (m_buyRequest s) r (m_sellShortRequest s) (m_buyShortRequest s).
Definition set_sellShortRequest (r : TradeRequest.t) (s : System) : System :=
  mkSystem (m_world s) (m_params s) (m_pre_ev_valid s) (m_pre_cn_valid s) (m_buy_days s)
    (m_sell_short_days s) (m_trade_list s) (m_lastTakeProfit s) (m_lastShortTakeProfit s)
    (m_buyRequest s) (m_sellRequest s) r (m_buyShortRequest s).
Definition set_buyShortRequest (r : TradeRequest.t) (s : System) : System :=
  mkSystem (m_world s) (m_params s) (m_pre_ev_valid s) (m_pre_cn_valid s) (m_buy_days s)
    (m_sell_short_days s) (m_trade_list s) (m_lastTakeProfit s) (m_lastShortTakeProfit s)
    (m_buyRequest s) (m_sellRequest s) (m_sellShortRequest s) r.

(** The constructors of [System]: [m_pre_ev_valid] and [m_pre_cn_valid] are
    true, the counters and prices zero, the requests cleared. *)
Definition System_new (w : W) : System :=
  mkSystem w initParam true true 0 0 [] 0%float 0%float
    TradeRequest.cleared TradeRequest.cleared TradeRequest.cleared TradeRequest.cleared.

Definition reset (with_tm with_ev : bool) (s : System) : System :=
  mkSystem (plugins_reset with_tm with_ev (m_world s)) (m_params s) false false 0 0 [] 0%float 0%float
    TradeRequest.cleared TradeRequest.cleared TradeRequest.cleared TradeRequest.cleared.

Definition clearDelayRequest (s : System) : System :=
  set_buyShortRequest TradeRequest.cleared
    (set_sellShortRequest TradeRequest.cleared
       (set_sellRequest TradeRequest.cleared
          (set_buyRequest TradeRequest.cleared s))).

Definition haveDelayRequest (s : System) : bool :=
  TradeRequest.valid (m_buyRequest s) || TradeRequest.valid (m_sellRequest s)
  || TradeRequest.valid (m_sellShortRequest s) || TradeRequest.valid (m_buyShortRequest s).

Definition _buyNotifyAll (record : TradeRecord.t) (s : System) : System :=
  let w := m_world s in
  let w1 := if has_mm w then mm_buyNotify w record else w in
  let w2 := if has_pg w1 then pg_buyNotify w1 record else w1 in
  set_world w2 s.

Definition _sellNotifyAll (record : TradeRecord.t) (s : System) : System :=
  let w := m_world s in
  let w1 := if has_mm w then mm_sellNotify w record else w in
  let w2 := if has_pg w1 then pg_sellNotify w1 record else w1 in
  set_world w2 s.

(** [number / min_num * min_num] when [min_num > 1], in [double]. *)
Definition round_to_lot (min_num number : float) : float :=
  if (1 <? min_num)%float then (number / min_num * min_num)%float else number.

(** *** Long entry *)

Definition _submitBuyRequest (today : KRecord.t) (from : Part) (s : System) : System :=
  let w := m_world s in
  let r := m_buyRequest s in
  let dt := KRecord.datetime today in
  let close := KRecord.closePrice today in
  if TradeRequest.valid r then
    if TradeRequest.count r >? max_delay_count (m_params s) then
      set_buyRequest TradeRequest.cleared s
    else
      let stoploss := _getStoplossPrice w dt close in
      set_buyRequest
        (TradeRequest.mk (TradeRequest.valid r) (TradeRequest.business r) dt stoploss
           (_getGoalPrice w dt close)
           (_getBuyNumber w dt close (close - stoploss)%float (TradeRequest.from r))
           (TradeRequest.from r) (TradeRequest.count r + 1)) s
  else
    let stoploss := _getStoplossPrice w dt close in
    set_buyRequest
      (TradeRequest.mk true BUSINESS_BUY dt stoploss (_getGoalPrice w dt close)
         (_getBuyNumber w dt close (close - stoploss)%float from) from 1) s.

Definition _buyNow (today : KRecord.t) (from : Part) (s : System) : System * TradeRecord.t :=
  let result := TradeRecord.null in
  let w := m_world s in
  let dt := KRecord.datetime today in
  let planPrice := KRecord.closePrice today in
  let stoploss := _getStoplossPrice w dt planPrice in
  if (planPrice <=? stoploss)%float then (s, result)
  else
    let number := _getBuyNumber w dt planPrice (planPrice - stoploss)%float from in
    if (number =? 0)%float || (maxTradeNumber w <? number)%float then (s, result)
    else
      let number := round_to_lot (minTradeNumber w) number in
      let realPrice := _getRealBuyPrice w dt planPrice in
      let goalPrice := _getGoalPrice w dt planPrice in
      let '(w', record) := tm_buy w dt realPrice number stoploss goalPrice planPrice from in
      let s1 := set_world w' s in
      if negb (bool_decide (BUSINESS_BUY = TradeRecord.business record)) then (s1, result)
      else
        let s2 :=
          set_lastTakeProfit (_getTakeProfitPrice w' (TradeRecord.datetime record)) s1 in
        let s3 := set_trade_list (m_trade_list s2 ++ [record]) s2 in
        (_buyNotifyAll record s3, record).

Definition _buy (today : KRecord.t) (from : Part) (s : System) : System * TradeRecord.t :=
  if delay (m_params s) then (_submitBuyRequest today from s, TradeRecord.null)
  else _buyNow today from s.

Definition _buyDelay (today : KRecord.t) (s : System) : System * TradeRecord.t :=
  let result := TradeRecord.null in
  let w := m_world s in
  let r := m_buyRequest s in
  let dt := KRecord.datetime today in
  if (KRecord.highPrice today =? KRecord.lowPrice today)%float
     && negb (can_trade_when_high_eq_low (m_params s)) then
    (_submitBuyRequest (KRecord.of_datetime (TradeRequest.datetime r)) (TradeRequest.from r) s,
     result)
  else
    let planPrice := KRecord.openPrice today in
    let '(stoploss, number, goalPrice) :=
      if delay_use_current_price (m_params s) then
        let stoploss := _getStoplossPrice w dt planPrice in
        (stoploss,
         _getBuyNumber w dt planPrice (planPrice - stoploss)%float (TradeRequest.from r),
         _getGoalPrice w dt planPrice)
      else (TradeRequest.stoploss r, TradeRequest.number r, TradeRequest.goal r) in
    if (planPrice <=? stoploss)%float || (number =? 0)%float then
      (set_buyRequest TradeRequest.cleared s, result)
    else
      let number := round_to_lot (minTradeNumber w) number in
      let realPrice := _getRealBuyPrice w dt planPrice in
      let '(w', record) :=
        tm_buy w dt realPrice number stoploss goalPrice planPrice (TradeRequest.from r) in
      let s1 := set_world w' s in
      if negb (bool_decide (BUSINESS_BUY = TradeRecord.business record)) then
        (set_buyRequest TradeRequest.cleared s1, result)
      else
        let s2 := set_lastTakeProfit realPrice (set_buy_days 0 s1) in
        let s3 := set_trade_list (m_trade_list s2 ++ [record]) s2 in
        (set_buyRequest TradeRequest.cleared (_buyNotifyAll record s3), record).

(** *** Long exit *)

Definition _submitSellRequest (today : KRecord.t) (from : Part) (s : System) : System :=
  let w := m_world s in
  let r := m_sellRequest s in
  let dt := KRecord.datetime today in
  let close := KRecord.closePrice today in
  if TradeRequest.valid r && (TradeRequest.count r >? max_delay_count (m_params s)) then
    set_sellRequest TradeRequest.cleared s
  else
    let count := if TradeRequest.valid r then TradeRequest.count r + 1 else 1 in
    let business := if TradeRequest.valid r then TradeRequest.business r else BUSINESS_SELL in
    let stoploss := _getStoplossPrice w dt close in
    let number :=
      if (close <=? stoploss)%float then tm_getHoldNumber w dt
      else _getSellNumber w dt close (close - stoploss)%float from in
    set_sellRequest
      (TradeRequest.mk true business dt stoploss (_getGoalPrice w dt close) number from count) s.

Definition _sellNow (today : KRecord.t) (from : Part) (s : System) : System * TradeRecord.t :=
  let result := TradeRecord.null in
  let w := m_world s in
  let dt := KRecord.datetime today in
  let planPrice := KRecord.closePrice today in
  let stoploss := _getStoplossPrice w dt planPrice in
  let number :=
    if (planPrice <=? stoploss)%float then tm_getHoldNumber w dt
    else _getSellNumber w dt planPrice (planPrice - stoploss)%float from in
  if negb (planPrice <=? stoploss)%float && (number =? 0)%float then (s, result)
  else
    let goalPrice := _getGoalPrice w dt planPrice in
    let realPrice := _getRealSellPrice w dt planPrice in
    let '(w', record) := tm_sell w dt realPrice number stoploss goalPrice planPrice from in
    let s1 := set_world w' s in
    if negb (bool_decide (BUSINESS_SELL = TradeRecord.business record)) then (s1, result)
    else
      let s2 :=
        if negb (tm_have w') then set_lastTakeProfit 0%float s1
        else set_lastTakeProfit (_getTakeProfitPrice w' dt) s1 in
      let s3 := set_trade_list (m_trade_list s2 ++ [record]) s2 in
      (_sellNotifyAll record s3, record).

Definition _sell (today : KRecord.t) (from : Part) (s : System) : System * TradeRecord.t :=
  if delay (m_params s) then (_submitSellRequest today from s, TradeRecord.null)
  else _sellNow today from s.

Definition _sellDelay (today : KRecord.t) (s : System) : System * TradeRecord.t :=
  let result := TradeRecord.null in
  let w := m_world s in
  let r := m_sellRequest s in
  let dt := KRecord.datetime today in
  if (KRecord.highPrice today =? KRecord.lowPrice today)%float
     && negb (can_trade_when_high_eq_low (m_params s)) then
    (_submitSellRequest (KRecord.of_datetime (TradeRequest.datetime r)) (TradeRequest.from r) s,
     result)
  else
    let planPrice := KRecord.openPrice today in
    let from := TradeRequest.from r in
    let '(stoploss, number, goalPrice) :=
      if delay_use_current_price (m_params s) then
        let stoploss := _getStoplossPrice w dt planPrice in
        (stoploss,
         if (planPrice <? stoploss)%float then tm_getHoldNumber w dt
         else _getSellNumber w dt planPrice (planPrice - stoploss)%float from,
         _getGoalPrice w dt planPrice)
      else (TradeRequest.stoploss r, TradeRequest.number r, TradeRequest.goal r) in
    if (number =? 0)%float then (set_sellRequest TradeRequest.cleared s, result)
    else
      let realPrice := _getRealSellPrice w dt planPrice in
      let '(w', record) :=
        tm_sell w dt realPrice number stoploss goalPrice planPrice (TradeRequest.from r) in
      let s1 := set_world w' s in
      if negb (bool_decide (BUSINESS_SELL = TradeRecord.business record)) then
        (set_sellRequest TradeRequest.cleared s1, result)
      else
        let s2 := if negb (tm_have w') then set_lastTakeProfit 0%float s1 else s1 in
        let s3 := set_trade_list (m_trade_list s2 ++ [record]) s2 in
        (set_sellRequest TradeRequest.cleared (_sellNotifyAll record s3), record).

(** *** Short exit (buy to cover) *)

Definition _submitBuyShortRequest (today : KRecord.t) (from : Part) (s : System) : System :=
  let w := m_world s in
  let r := m_buyShortRequest s in
  let dt := KRecord.datetime today in
  let close := KRecord.closePrice today in
  if TradeRequest.valid r then
    if TradeRequest.count r >? max_delay_count (m_params s) then
      (* the source clears [m_buyRequest] here *)
      set_buyRequest TradeRequest.cleared s
    else
      let stoploss := _getShortStoplossPrice w dt close in
      set_buyShortRequest
        (TradeRequest.mk (TradeRequest.valid r) (TradeRequest.business r) dt stoploss
           (_getShortGoalPrice w dt close)
           (_getBuyShortNumber w dt close (stoploss - close)%float (TradeRequest.from r))
           (TradeRequest.from r) (TradeRequest.count r + 1)) s
  else
    let stoploss := _getShortStoplossPrice w dt close in
    set_buyShortRequest
      (TradeRequest.mk true BUSINESS_BUY dt stoploss (_getShortGoalPrice w dt close)
         (_getBuyShortNumber w dt close (stoploss - close)%float from) from 1) s.

Definition _buyShortNow (today : KRecord.t) (from : Part) (s : System)
  : System * TradeRecord.t :=
  let result := TradeRecord.null in
  let w := m_world s in
  let dt := KRecord.datetime today in
  if (KRecord.highPrice today =? KRecord.lowPrice today)%float then (s, result)
  else
    let planPrice := KRecord.closePrice today in
    let stoploss :=
      _getShortStoplossPrice w (TradeRequest.datetime (m_buyRequest s)) planPrice in
    let number := _getBuyShortNumber w dt planPrice (stoploss - planPrice)%float from in
    if (number =? 0)%float then (set_buyShortRequest TradeRequest.cleared s, result)
    else
      let pos := tm_getShortPosition w in
      if (PositionRecord.number pos =? 0)%float then
        (set_buyShortRequest TradeRequest.cleared s, result)
      else
        let number :=
          if (PositionRecord.number pos <? number)%float then PositionRecord.number pos
          else number in
        let goalPrice := _getShortGoalPrice w dt planPrice in
        let realPrice := _getRealBuyPrice w dt planPrice in
        let '(w', record) :=
          tm_buyShort w dt realPrice number stoploss goalPrice planPrice PART_SIGNAL in
        let s1 := set_world w' s in
        if negb (bool_decide (BUSINESS_BUY_SHORT = TradeRecord.business record)) then
          (set_buyShortRequest TradeRequest.cleared s1, result)
        else
          let s2 := set_lastTakeProfit realPrice (set_sell_short_days 0 s1) in
          let s3 := set_trade_list (m_trade_list s2 ++ [record]) s2 in
          (set_buyShortRequest TradeRequest.cleared (_buyNotifyAll record s3), record).

Definition _buyShort (today : KRecord.t) (from : Part) (s : System) : System * TradeRecord.t :=
  if negb (support_borrow_stock (m_params s)) then (s, TradeRecord.null)
  else if delay (m_params s) then (_submitBuyShortRequest today from s, TradeRecord.null)
  else _buyShortNow today from s.

Definition _buyShortDelay (today : KRecord.t) (s : System) : System * TradeRecord.t :=
  let result := TradeRecord.null in
  let w := m_world s in
  let r := m_buyShortRequest s in
  let dt := KRecord.datetime today in
  if (KRecord.highPrice today =? KRecord.lowPrice today)%float then (s, result)
  else
    let planPrice := KRecord.openPrice today in
    let '(stoploss, number, goalPrice) :=
      if delay_use_current_price (m_params s) then
        let stoploss :=
          _getShortStoplossPrice w (TradeRequest.datetime (m_buyRequest s)) planPrice in
        (stoploss,
         _getBuyShortNumber w dt planPrice (stoploss - planPrice)%float
           (TradeRequest.from (m_buyRequest s)),
         _getShortGoalPrice w dt planPrice)
      else (TradeRequest.stoploss r, TradeRequest.number r, TradeRequest.goal r) in
    if (number =? 0)%float then (set_buyShortRequest TradeRequest.cleared s, result)
    else
      let pos := tm_getShortPosition w in
      if (PositionRecord.number pos =? 0)%float then
        (set_buyShortRequest TradeRequest.cleared s, result)
      else
        let number :=
          if (PositionRecord.number pos <? number)%float then PositionRecord.number pos
          else number in
        let realPrice := _getRealBuyPrice w dt planPrice in
        let '(w', record) :=
          tm_buyShort w dt realPrice number stoploss goalPrice planPrice PART_SIGNAL in
        let s1 := set_world w' s in
        if negb (bool_decide (BUSINESS_BUY_SHORT = TradeRecord.business record)) then
          (set_buyShortRequest TradeRequest.cleared s1, result)
        else
          let s2 := set_lastTakeProfit realPrice (set_sell_short_days 0 s1) in
          let s3 := set_trade_list (m_trade_list s2 ++ [record]) s2 in
          (* the source ends with [return result], not [return record] *)
          (set_buyShortRequest TradeRequest.cleared (_buyNotifyAll record s3), result).

(** *** Short entry *)

Definition _submitSellShortRequest (today : KRecord.t) (from : Part) (s : System) : System :=
  let w := m_world s in
  let r := m_sellShortRequest s in
  let dt := KRecord.datetime today in
  let close := KRecord.closePrice today in
  if TradeRequest.valid r then
    if TradeRequest.count r >? max_delay_count (m_params s) then
      set_sellShortRequest TradeRequest.cleared s
    else
      let stoploss := _getStoplossPrice w dt close in
      set_sellShortRequest
        (TradeRequest.mk (TradeRequest.valid r) (TradeRequest.business r) dt stoploss
           (_getGoalPrice w dt close)
           (_getSellNumber w dt close (close - stoploss)%float (TradeRequest.from r))
           (TradeRequest.from r) (TradeRequest.count r + 1)) s
  else
    let stoploss := _getStoplossPrice w dt close in
    set_sellShortRequest
      (TradeRequest.mk true BUSINESS_SELL_SHORT dt stoploss (_getGoalPrice w dt close)
         (_getSellNumber w dt close (close - stoploss)%float (TradeRequest.from r))
         from 1) s.

Definition _sellShortNow (today : KRecord.t) (from : Part) (s : System)
  : System * TradeRecord.t :=
  let result := TradeRecord.null in
  let w := m_world s in
  let dt := KRecord.datetime today in
  if (KRecord.highPrice today =? KRecord.lowPrice today)%float then
    (_submitSellShortRequest (KRecord.of_datetime dt) from s, result)
  else
    let planPrice := KRecord.closePrice today in
    let stoploss := _getShortStoplossPrice w dt planPrice in
    let number := _getSellShortNumber w dt planPrice (stoploss - planPrice)%float from in
    if (number =? 0)%float then (set_sellShortRequest TradeRequest.cleared s, result)
    else
      let goalPrice := _getShortGoalPrice w dt planPrice in
      let realPrice := _getRealSellPrice w dt planPrice in
      let '(w', record) :=
        tm_sell w dt realPrice number stoploss goalPrice planPrice PART_SIGNAL in
      let s1 := set_world w' s in
      if negb (bool_decide (BUSINESS_SELL_SHORT = TradeRecord.business record)) then
        (set_sellShortRequest TradeRequest.cleared s1, result)
      else
        let s2 := set_lastShortTakeProfit realPrice (set_sell_short_days 0 s1) in
        let s3 := set_trade_list (m_trade_list s2 ++ [record]) s2 in
        (set_sellShortRequest TradeRequest.cleared (_sellNotifyAll record s3), record).

Definition _sellShort (today : KRecord.t) (from : Part) (s : System)
  : System * TradeRecord.t :=
  if negb (support_borrow_stock (m_params s)) then (s, TradeRecord.null)
  else if delay (m_params s) then (_submitSellShortRequest today from s, TradeRecord.null)
  else _sellShortNow today from s.

Definition _sellShortDelay (today : KRecord.t) (s : System) : System * TradeRecord.t :=
  let result := TradeRecord.null in
  let w := m_world s in
  let r := m_sellShortRequest s in
  let dt := KRecord.datetime today in
  if (KRecord.highPrice today =? KRecord.lowPrice today)%float then
    (_submitSellShortRequest (KRecord.of_datetime (TradeRequest.datetime r))
       (TradeRequest.from r) s, result)
  else
    let planPrice := KRecord.openPrice today in
    let '(stoploss, number, goalPrice) :=
      if delay_use_current_price (m_params s) then
        let stoploss := _getShortStoplossPrice w dt planPrice in
        (stoploss,
         _getSellShortNumber w dt planPrice (stoploss - planPrice)%float (TradeRequest.from r),
         _getShortGoalPrice w dt planPrice)
      else (TradeRequest.stoploss r, TradeRequest.number r, TradeRequest.goal r) in
    if (number =? 0)%float then (set_sellShortRequest TradeRequest.cleared s, result)
    else
      let realPrice := _getRealSellPrice w dt planPrice in
      let '(w', record) :=
        tm_sell w dt realPrice number stoploss goalPrice planPrice (TradeRequest.from r) in
      let s1 := set_world w' s in
      if negb (bool_decide (BUSINESS_SELL_SHORT = TradeRecord.business record)) then
        (set_sellShortRequest TradeRequest.cleared s1, result)
      else
        let s2 := set_lastShortTakeProfit realPrice (set_sell_short_days 0 s1) in
        let s3 := set_trade_list (m_trade_list s2 ++ [record]) s2 in
        (set_sellShortRequest TradeRequest.cleared (_sellNotifyAll record s3), record).

(** *** The per-bar procedure *)

Definition _processRequest (today : KRecord.t) (s : System) : System * TradeRecord.t :=
  if TradeRequest.valid (m_buyRequest s) then _buyDelay today s
  else if TradeRequest.valid (m_sellRequest s) then _sellDelay today s
  else if TradeRequest.valid (m_sellShortRequest s) then _sellShortDelay today s
  else if TradeRequest.valid (m_buyShortRequest s) then _buyShortDelay today s
  else (s, TradeRecord.null).

(** [tr.isNull() ? result : tr]. *)
Definition pick (result tr : TradeRecord.t) : TradeRecord.t :=
  if TradeRecord.isNull tr then result else tr.

(** [_sell] when the stock is held, else the empty record [tr]. *)
Definition sell_if_held (today : KRecord.t) (from : Part) (s : System)
  : System * TradeRecord.t :=
  if tm_have (m_world s) then _sell today from s else (s, TradeRecord.null).

(** The bar is degenerate: [high == low], or the close outside
    [low, high]. *)
Definition degenerate (today : KRecord.t) : bool :=
  (KRecord.highPrice today =? KRecord.lowPrice today)%float
  || (KRecord.highPrice today <? KRecord.closePrice today)%float
  || (KRecord.closePrice today <? KRecord.lowPrice today)%float.

(** The test at the head of [_runMoment]: the bar is degenerate and the
    parameter forbids trading on it. *)
Definition gate_closed (today : KRecord.t) (s : System) : bool :=
  degenerate today && negb (can_trade_when_high_eq_low (m_params s)).

(** The last part of [_runMoment]: stoploss, profit goal and take profit of
    a held position. *)
Definition position_phase (today : KRecord.t) (result : TradeRecord.t) (s : System)
  : System * TradeRecord.t :=
  let w := m_world s in
  let dt := KRecord.datetime today in
  let current_price := KRecord.closePrice today in
  let position := tm_getPosition w in
  if negb (PositionRecord.number position =? 0)%float then
    let '(s', tr) :=
      if (current_price <=? PositionRecord.stoploss position)%float then
        _sell today PART_STOPLOSS s
      else if (_getGoalPrice w dt current_price <=? current_price)%float then
        _sell today PART_PROFITGOAL s
      else
        let current_take_profile := _getTakeProfitPrice w dt in
        if negb (current_take_profile =? 0)%float then
          let '(current_take_profile, s1) :=
            if (current_take_profile <? m_lastTakeProfit s)%float
            then (m_lastTakeProfit s, s)
            else (current_take_profile, set_lastTakeProfit current_take_profile s) in
          if (current_price <=? current_take_profile)%float
          then _sell today PART_TAKEPROFIT s1
          else (s1, TradeRecord.null)
        else (s, TradeRecord.null) in
    (s', pick result tr)
  else (s, result).

(** The part of [_runMoment] after the delayed orders: environment,
    condition, signal and position, in this order; [result] is what
    [_processRequest] returned. *)
Definition decision_phases (today : KRecord.t) (result : TradeRecord.t) (s : System)
  : System * TradeRecord.t :=
  let dt := KRecord.datetime today in
  (* environment *)
  let current_ev_valid := _environmentIsValid (m_world s) dt in
  if negb current_ev_valid then
    let '(s, tr) := sell_if_held today PART_ENVIRONMENT s in
    (set_pre_ev_valid current_ev_valid s, pick result tr)
  else if negb (m_pre_ev_valid s) && ev_open_position (m_params s) then
    let '(s, tr) := _buy today PART_ENVIRONMENT s in
    (set_pre_ev_valid current_ev_valid s, pick result tr)
  else
    let s := set_pre_ev_valid current_ev_valid s in
    (* condition *)
    let current_cn_valid := _conditionIsValid (m_world s) dt in
    if negb current_cn_valid then
      let '(s, tr) := sell_if_held today PART_CONDITION s in
      (set_pre_cn_valid current_cn_valid s, pick result tr)
    else if negb (m_pre_cn_valid s) && cn_open_position (m_params s) then
      let '(s, tr) := _buy today PART_CONDITION s in
      (set_pre_cn_valid current_cn_valid s, pick result tr)
    else
      let s := set_pre_cn_valid current_cn_valid s in
      (* signal *)
      if sg_shouldBuy (m_world s) dt then
        let '(s, tr) := _buy today PART_SIGNAL s in (s, pick result tr)
      else if sg_shouldSell (m_world s) dt then
        let '(s, tr) := sell_if_held today PART_SIGNAL s in (s, pick result tr)
      else position_phase today result s.

Definition _runMoment (today : KRecord.t) (s : System) : System * TradeRecord.t :=
  if gate_closed today s then (s, TradeRecord.null)
  else
    let '(s, result) := _processRequest today s in
    decision_phases today result s.

Definition runMoment (record : KRecord.t) (s : System) : System * TradeRecord.t :=
  _runMoment record (set_sell_short_days (m_sell_short_days s + 1)
                       (set_buy_days (m_buy_days s + 1) s)).

(** The loop of [run] over the bars of the query: the state after the last
    bar and, bar by bar, what [runMoment] returned. *)
Fixpoint run_bars (kdata : list KRecord.t) (s : System) : System * list TradeRecord.t :=
  match kdata with
  | [] => (s, [])
  | k :: rest =>
      if tm_started (m_world s) (KRecord.datetime k) then
        let '(s1, tr) := runMoment k s in
        let '(s2, trs) := run_bars rest s1 in
        (s2, tr :: trs)
      else run_bars rest s
  end.

(** *** Vocabulary of the properties *)

(** The buffer of a direction. *)
Definition buffer (d : Direction) (s : System) : TradeRequest.t :=
  match d with
  | LongBuy => m_buyRequest s
  | LongSell => m_sellRequest s
  | ShortSell => m_sellShortRequest s
  | ShortBuy => m_buyShortRequest s
  end.

(** The first direction, in priority order, with a pending request. *)
Definition first_pending (s : System) : option Direction :=
  List.find (fun d => TradeRequest.valid (buffer d s)) priority.

(** The delayed execution of a direction. *)
Definition execute_delayed (d : Direction) (today : KRecord.t) (s : System)
  : System * TradeRecord.t :=
  match d with
  | LongBuy => _buyDelay today s
  | LongSell => _sellDelay today s
  | ShortSell => _sellShortDelay today s
  | ShortBuy => _buyShortDelay today s
  end.

(** The business of the record that the trade manager returns when it
    carries out the order of a direction. *)
Definition Direction_business (d : Direction) : BUSINESS :=
  match d with
  | LongBuy => BUSINESS_BUY
  | LongSell => BUSINESS_SELL
  | ShortSell => BUSINESS_SELL_SHORT
  | ShortBuy => BUSINESS_BUY_SHORT
  end.

(** The stop-loss, the quantity and the goal price of a delayed short-buy
    (lines 811-827, in [_buyShortDelay]). *)
Definition cover_terms (today : KRecord.t) (s : System) : price_t * float * price_t :=
  let w := m_world s in
  let r := m_buyShortRequest s in
  let dt := KRecord.datetime today in
  let planPrice := KRecord.openPrice today in
  if delay_use_current_price (m_params s) then
    let stoploss :=
      _getShortStoplossPrice w (TradeRequest.datetime (m_buyRequest s)) planPrice in
    (stoploss,
     _getBuyShortNumber w dt planPrice (stoploss - planPrice)%float
       (TradeRequest.from (m_buyRequest s)),
     _getShortGoalPrice w dt planPrice)
  else (TradeRequest.stoploss r, TradeRequest.number r, TradeRequest.goal r).

(** What the trade manager answers to the order of a delayed short-buy
    (lines 835-847): the quantity is capped by the short position. *)
Definition cover_fill (today : KRecord.t) (s : System) : W * TradeRecord.t :=
  let w := m_world s in
  let dt := KRecord.datetime today in
  let planPrice := KRecord.openPrice today in
  let '(stoploss, number, goalPrice) := cover_terms today s in
  let pos := tm_getShortPosition w in
  let number :=
    if (PositionRecord.number pos <? number)%float then PositionRecord.number pos
    else number in
  tm_buyShort w dt (_getRealBuyPrice w dt planPrice) number stoploss goalPrice planPrice
    PART_SIGNAL.

(** A delayed short-buy executes: the bar has [high <> low], there is a
    quantity to cover and a short position, and the trade manager returns a
    short-buy record (the tests of lines 805, 829, 836 and 848). *)
Definition cover_executes (today : KRecord.t) (s : System) : bool :=
  negb (KRecord.highPrice today =? KRecord.lowPrice today)%float
  && negb (snd (fst (cover_terms today s)) =? 0)%float
  && negb (PositionRecord.number (tm_getShortPosition (m_world s)) =? 0)%float
  && bool_decide (BUSINESS_BUY_SHORT = TradeRecord.business (snd (cover_fill today s))).

(** The same three for a delayed long-buy, in [_buyDelay]: the terms (lines
    497-513), the answer of the trade manager (lines 521-528) and the tests
    of lines 490, 516 and 529. *)
Definition entry_terms (today : KRecord.t) (s : System) : price_t * float * price_t :=
  let w := m_world s in
  let r := m_buyRequest s in
  let dt := KRecord.datetime today in
  let planPrice := KRecord.openPrice today in
  if delay_use_current_price (m_params s) then
    let stoploss := _getStoplossPrice w dt planPrice in
    (stoploss,
     _getBuyNumber w dt planPrice (planPrice - stoploss)%float (TradeRequest.from r),
     _getGoalPrice w dt planPrice)
  else (TradeRequest.stoploss r, TradeRequest.number r, TradeRequest.goal r).

Definition entry_fill (today : KRecord.t) (s : System) : W * TradeRecord.t :=
  let w := m_world s in
  let dt := KRecord.datetime today in
  let planPrice := KRecord.openPrice today in
  let '(stoploss, number, goalPrice) := entry_terms today s in
  tm_buy w dt (_getRealBuyPrice w dt planPrice) (round_to_lot (minTradeNumber w) number)
    stoploss goalPrice planPrice (TradeRequest.from (m_buyRequest s)).

Definition entry_executes (today : KRecord.t) (s : System) : bool :=
  negb ((KRecord.highPrice today =? KRecord.lowPrice today)%float
        && negb (can_trade_when_high_eq_low (m_params s)))
  && negb ((KRecord.openPrice today <=? fst (fst (entry_terms today s)))%float
           || (snd (fst (entry_terms today s)) =? 0)%float)
  && bool_decide (BUSINESS_BUY = TradeRecord.business (snd (entry_fill today s))).

(** The number of trades that each bar processed by the loop of [run]
    appends ([run_bars] goes through the same states). *)
Fixpoint trades_per_bar (kdata : list KRecord.t) (s : System) : list nat :=
  match kdata with
  | [] => []
  | k :: rest =>
      if tm_started (m_world s) (KRecord.datetime k) then
        let s1 := fst (runMoment k s) in
        (length (m_trade_list s1) - length (m_trade_list s))%nat :: trades_per_bar rest s1
      else trades_per_bar rest s
  end.

(** [s'] has the trades of [s] and at most [n] more, appended. *)
Definition grows_by (n : nat) (s s' : System) : Prop :=
  exists l, m_trade_list s' = m_trade_list s ++ l /\ (length l <= n)%nat.

(** Requests are pending only while decisions are delayed. *)
Definition requests_need_delay (s : System) : Prop :=
  delay (m_params s) = false -> haveDelayRequest s = false.

(** The states a system goes through when its parameters are set before
    the first bar: construction, [reset], [clearDelayRequest], the bars, the
    decisions [_buy], [_sell] and [_buyShort] taken from outside, and any
    change of the collaborators. *)
Inductive reachable : System -> Prop :=
| reach_new w p : reachable (setParams p (System_new w))
| reach_reset s with_tm with_ev : reachable s -> reachable (reset with_tm with_ev s)
| reach_clear s : reachable s -> reachable (clearDelayRequest s)
| reach_world s w : reachable s -> reachable (set_world w s)
| reach_bar s today : reachable s -> reachable (fst (runMoment today s))
| reach_buy s today from : reachable s -> reachable (fst (_buy today from s))
| reach_sell s today from : reachable s -> reachable (fst (_sell today from s))
| reach_buyShort s today from : reachable s -> reachable (fst (_buyShort today from s)).

(** Two states with the same parameters, trades and buffers. *)
Definition same_core (s1 s2 : System) : Prop :=
  m_params s1 = m_params s2 /\ m_trade_list s1 = m_trade_list s2
  /\ forall d, buffer d s1 = buffer d s2.

(** What a decision does: while decisions are delayed it trades nothing and
    returns the empty record; when they execute on the bar it appends at most
    one trade and leaves the four buffers alone. *)
Definition decision_effect (s s' : System) (tr : TradeRecord.t) : Prop :=
  m_params s' = m_params s
  /\ (delay (m_params s) = true -> m_trade_list s' = m_trade_list s /\ tr = TradeRecord.null)
  /\ (delay (m_params s) = false -> grows_by 1 s s' /\ forall d, buffer d s' = buffer d s).

(** The same for a part of [_runMoment] that returns [pick result tr]. *)
Definition phase_effect (result : TradeRecord.t) (s s' : System) (ret : TradeRecord.t)
  : Prop :=
  m_params s' = m_params s
  /\ (delay (m_params s) = true -> m_trade_list s' = m_trade_list s /\ ret = result)
  /\ (delay (m_params s) = false -> grows_by 1 s s' /\ forall d, buffer d s' = buffer d s).

(** The state after the two increments at the head of [runMoment]. *)
Definition tick (s : System) : System :=
  set_sell_short_days (m_sell_short_days s + 1) (set_buy_days (m_buy_days s + 1) s).

(** The parameters with [ignore_sell_sg] set to [b]. *)
Definition set_ignore_sell_sg (b : bool) (p : Params) : Params :=
  mkParams (max_delay_count p) (delay p) (delay_use_current_price p) (tp_monotonic p)
    (tp_delay_n p) b (can_trade_when_high_eq_low p) (ev_open_position p)
    (cn_open_position p) (support_borrow_cash p) (support_borrow_stock p).

(** The system with [ignore_sell_sg] set to [b]. *)
Definition with_ignore_sell_sg (b : bool) (s : System) : System :=
  setParams (set_ignore_sell_sg b (m_params s)) s.

Definition lift_ignore (b : bool) (r : System * TradeRecord.t) : System * TradeRecord.t :=
  (with_ignore_sell_sg b (fst r), snd r).


End System.

Arguments System : clear implicits.

End Sys.

(** ** Concrete inputs *)

(** A scheduler on a platform with a 32-bit [int], instants counted from
    [Datetime::min()] (1400-01-01 00:00:00), callbacks named by numbers. *)
Module TimerCase.
Import TimerMgr.

Definition max_int : Z := 2147483647.
Definition Datetime_min : Z := 0.
Definition Datetime_max : Z := 3141084 * ticks_per_day.   (* 9999-12-31 *)

Definition hm (hours minutes : Z) : TimeDelta := TimeDelta_mk 0 hours minutes 0 0 0.
Definition day0 : Z := 226823 * ticks_per_day.            (* 2021-01-08 *)
Definition day1 : Z := day0 + ticks_per_day.

(** A timer with the daily window 09:30 to 15:00 and a period of one hour,
    repeating for ever. *)
Definition hourly : Timer nat :=
  mkTimer day0 Datetime_max (hm 9 30) (hm 15 0) (hm 1 0) max_int 7%nat.

(** A timer with the same window and a period of one minute, for two runs. *)
Definition minutely : Timer nat :=
  mkTimer day0 Datetime_max (hm 9 30) (hm 15 0) (hm 0 1) 2 7%nat.

(** A running scheduler whose only timer is [hourly], due at 14:30. *)
Definition running_1430 : TimerManager nat :=
  mkTimerManager [mkIntervalS (day0 + hm 14 30) 0] false {[ 0 := hourly ]} 0 [].

(** A running scheduler with no timer. *)
Definition running_empty : TimerManager nat :=
  mkTimerManager [] false ∅ (-1) [].

(** A running scheduler whose map is full: it holds a timer under every id
    from 0 to [INT_MAX - 1], the last one handed out being [INT_MAX - 1]. *)
Definition live_ids : gset Z := list_to_set (seqZ 0 max_int).
Definition full : TimerManager nat :=
  mkTimerManager [] false (gset_to_gmap hourly live_ids) (max_int - 1) [].

End TimerCase.

(** Scripted collaborators: every query answers with a constant kept in the
    state, the trade manager fills an order when [accepts] is set, and the
    money manager ([m_mm]) counts its notifications; there is no slippage
    part and no profit-goal part to notify. *)
Module Toy.
Import Sys.

Record World : Type := mk {
  hold : float;          (* quantity held long *)
  short : float;         (* quantity held short *)
  accepts : bool;
  ev_valid : bool;
  cn_valid : bool;
  buy_signal : bool;
  sell_signal : bool;
  stop : price_t;
  goal : price_t;
  take_profit : price_t;
  quantity : float;
  notes : nat
}.

Definition with_hold (h : float) (w : World) : World :=
  mk h (short w) (accepts w) (ev_valid w) (cn_valid w) (buy_signal w) (sell_signal w)
     (stop w) (goal w) (take_profit w) (quantity w) (notes w).
Definition with_short (h : float) (w : World) : World :=
  mk (hold w) h (accepts w) (ev_valid w) (cn_valid w) (buy_signal w) (sell_signal w)
     (stop w) (goal w) (take_profit w) (quantity w) (notes w).
Definition noted (w : World) : World :=
  mk (hold w) (short w) (accepts w) (ev_valid w) (cn_valid w) (buy_signal w) (sell_signal w)
     (stop w) (goal w) (take_profit w) (quantity w) (S (notes w)).

Definition order (b : BUSINESS) (filled : World -> World) (w : World) (dt : Datetime)
    (realPrice : price_t) (number : float) (stoploss goalPrice planPrice : price_t)
    (from : Part) : World * TradeRecord.t :=
  if accepts w
  then (filled w, TradeRecord.mk dt b planPrice realPrice goalPrice number stoploss from)
  else (w, TradeRecord.null).

#[export] Instance collaborators : Collaborators World := {|
  minTradeNumber := fun _ => 1%float;
  maxTradeNumber := fun _ => 1000000%float;
  tm_have := fun w => negb (hold w =? 0)%float;
  tm_getPosition := fun w => PositionRecord.mk (hold w) (stop w) (goal w);
  tm_getShortPosition := fun w => PositionRecord.mk (short w) (stop w) (goal w);
  tm_getHoldNumber := fun w _ => hold w;
  tm_started := fun _ _ => true;
  tm_buy := fun w dt rp n => order BUSINESS_BUY (with_hold (hold w + n)%float) w dt rp n;
  tm_sell := fun w dt rp n => order BUSINESS_SELL (with_hold (hold w - n)%float) w dt rp n;
  tm_buyShort := fun w dt rp n =>
    order BUSINESS_BUY_SHORT (with_short (short w - n)%float) w dt rp n;
  _environmentIsValid := fun w _ => ev_valid w;
  _conditionIsValid := fun w _ => cn_valid w;
  sg_shouldBuy := fun w _ => buy_signal w;
  sg_shouldSell := fun w _ => sell_signal w;
  _getStoplossPrice := fun w _ _ => stop w;
  _getShortStoplossPrice := fun w _ _ => stop w;
  _getTakeProfitPrice := fun w _ => take_profit w;
  _getGoalPrice := fun w _ _ => goal w;
  _getShortGoalPrice := fun w _ _ => goal w;
  _getRealBuyPrice := fun _ _ p => p;
  _getRealSellPrice := fun _ _ p => p;
  _getBuyNumber := fun w _ _ _ _ => quantity w;
  _getSellNumber := fun w _ _ _ _ => quantity w;
  _getBuyShortNumber := fun w _ _ _ _ => quantity w;
  _getSellShortNumber := fun w _ _ _ _ => quantity w;
  has_mm := fun _ => true;
  has_pg := fun _ => false;
  mm_buyNotify := fun w _ => noted w;
  pg_buyNotify := fun w _ => w;
  mm_sellNotify := fun w _ => noted w;
  pg_sellNotify := fun w _ => w;
  plugins_reset := fun _ _ w => w
|}.

(** No position, no signal; orders are filled; stoploss 8, goal 20, take
    profit 9, quantity 100. *)
Definition flat_world : World :=
  mk 0%float 0%float true true true false false 8%float 20%float 9%float 100%float 0.
(** The same, holding 100 short. *)
Definition short_world : World := with_short 100%float flat_world.
(** [flat_world] with the buy signal on. *)
Definition buying_world : World :=
  mk 0%float 0%float true true true true false 8%float 20%float 9%float 100%float 0.
(** [long_world] with the sell signal on. *)
Definition selling_world : World :=
  mk 100%float 0%float true true true false true 8%float 20%float 9%float 100%float 0.

Definition t1 : Datetime := At (226823 * ticks_per_day).
Definition t2 : Datetime := At (226824 * ticks_per_day).

(** An ordinary bar: open 10, high 11, low 9.5, close 10. *)
Definition bar : KRecord.t :=
  KRecord.mk t2 10%float 11%float 9.5%float 10%float 1000%float 100%float.
(** A degenerate bar: high = low. *)
Definition flat_bar : KRecord.t :=
  KRecord.mk t2 10%float 10%float 10%float 10%float 1000%float 100%float.

(** A request submitted on the bar before, retried [count - 1] times. *)
Definition pending (b : BUSINESS) (count : Z) : TradeRequest.t :=
  TradeRequest.mk true b t1 8%float 20%float 100%float PART_SIGNAL count.

Definition immediate : Params :=
  mkParams 3 false true true 3 false false false false false false.
Definition ignoring_sell : Params :=
  mkParams 3 true true true 3 true false false false false false.
Definition ignoring_sell_immediate : Params :=
  mkParams 3 false true true 3 true false false false false false.

(** A system as [run] leaves it between two bars: the parameters of
    [initParam] unless said otherwise, no trade yet. *)
Definition system (w : World) (p : Params) (buy sell sellShort buyShort : TradeRequest.t)
  : System World :=
  mkSystem w p true true 1 1 [] 0%float 0%float buy sell sellShort buyShort.

Definition none : TradeRequest.t := TradeRequest.cleared.

(** A long-buy request is pending. *)
Definition buy_pending : System World :=
  system flat_world initParam (pending BUSINESS_BUY 1) none none none.
(** A short-buy request is pending, and nothing else. *)
Definition cover_pending : System World :=
  system short_world initParam none none none (pending BUSINESS_BUY 1).
(** A short-buy request has been retried past [max_delay_count] while a
    long-buy request is pending. *)
Definition cover_overdue : System World :=
  system short_world initParam (pending BUSINESS_BUY 1) none none (pending BUSINESS_BUY 4).
(** The buy signal is on and decisions execute on the bar. *)
Definition buying_now : System World := system buying_world immediate none none none none.
(** The sell signal is on, a position is held, [ignore_sell_sg] is set. *)
Definition selling_ignored : System World :=
  system selling_world ignoring_sell none none none none.
Definition selling_ignored_now : System World :=
  system selling_world ignoring_sell_immediate none none none none.
(** A long-buy request is pending although decisions now execute on the
    bar, and the buy signal is on. *)
Definition switched_to_immediate : System World :=
  system buying_world immediate (pending BUSINESS_BUY 1) none none none.
(** [short_world] with the buy signal on. *)
Definition short_buying_world : World :=
  mk 0%float 100%float true true true true false 8%float 20%float 9%float 100%float 0.
(** A short-buy request is pending although decisions now execute on the
    bar, and the buy signal is on. *)
Definition cover_switched : System World :=
  system short_buying_world immediate none none none (pending BUSINESS_BUY 1).
(** The bar after [bar]. *)
Definition t3 : Datetime := At (226825 * ticks_per_day).
Definition later_bar : KRecord.t :=
  KRecord.mk t3 10%float 11%float 9.5%float 10%float 1000%float 100%float.

End Toy.

(** ** The scheduler as its callers drive it *)

Module TimerOps.
Import TimerMgr.

Section Ops.

Variable max_int : Z.
Variables Datetime_min Datetime_max : Z.
Context {Func : Type}.

(** A call of one of the public member functions, or one turn of the loop
    of the detector thread, with the reading of the clock it makes. *)
Inductive Op : Type :=
| OpAddFunc (now : Z) (start_date end_date : Datetime) (start_time end_time : TimeDelta)
    (repeat_num : Z) (duration : TimeDelta) (f : Func)
| OpAddDurationFunc (now : Z) (repeat_num : Z) (duration : TimeDelta) (f : Func)
| OpAddDelayFunc (now : Z) (delay : TimeDelta) (f : Func)
| OpAddFuncAtPoint (now : Z) (time_point : Datetime) (f : Func)
| OpStart (now : Z)
| OpStop
| OpDetect (now : Z).

Definition apply_op (op : Op) (tm : TimerManager Func) : Outcome Func :=
  match op with
  | OpAddFunc now sd ed st et rn du f => addFunc max_int now sd ed st et rn du f tm
  | OpAddDurationFunc now rn du f =>
      addDurationFunc max_int Datetime_min Datetime_max now rn du f tm
  | OpAddDelayFunc now d f => addDelayFunc max_int Datetime_min Datetime_max now d f tm
  | OpAddFuncAtPoint now tp f => addFuncAtPoint max_int Datetime_max now tp f tm
  | OpStart now => Done (start max_int Datetime_max now tm)
  | OpStop => Done (stop tm)
  | OpDetect now => Done (fst (detect_step max_int Datetime_max now tm))
  end.

(** The manager after a call: an exception leaves it as it was at the
    throw, for the caller to go on with. *)
Definition after (o : Outcome Func) : option (TimerManager Func) :=
  match o with
  | Done tm => Some tm
  | Throws _ tm => Some tm
  | Hangs => None
  end.

(** A sequence of calls; [None] when one of them does not return. *)
Fixpoint run_ops (ops : list Op) (tm : TimerManager Func) : option (TimerManager Func) :=
  match ops with
  | [] => Some tm
  | op :: rest =>
      match after (apply_op op tm) with
      | Some tm' => run_ops rest tm'
      | None => None
      end
  end.

(** The call registers no timer. *)
Definition adds_nothing (op : Op) : bool :=
  match op with
  | OpStart _ | OpStop | OpDetect _ => true
  | _ => false
  end.

(** The ids in use lie in [0 .. max_int], and the id handed out last in
    [-1 .. max_int]. *)
Definition ids_in_range (tm : TimerManager Func) : Prop :=
  -1 <= m_current_timer_id tm <= max_int
  /\ forall id t, m_timers tm !! id = Some t -> 0 <= id <= max_int.

(** The queue is in the order of [top()]: time points do not decrease. *)
Definition queue_sorted (tm : TimerManager Func) : Prop :=
  StronglySorted (fun a b => m_time_point a <= m_time_point b) (m_queue tm).

(** How many times the callback of timer [id] was handed to the pool. *)
Definition dispatches_of (id : Z) (tm : TimerManager Func) : nat :=
  length (filter (fun d => d_timer_id d = id) (m_submitted tm)).

(** The runs of timer [id] so far and those it has left do not exceed [n]. *)
Definition within_budget (id : Z) (n : Z) (tm : TimerManager Func) : Prop :=
  match m_timers tm !! id with
  | Some t =>
      m_repeat_num t < max_int
      /\ Z.of_nat (dispatches_of id tm) + Z.max 1 (m_repeat_num t) <= n
  | None => Z.of_nat (dispatches_of id tm) <= n
  end.

(** The entry that [start] queues for a timer. *)
Definition first_entry (now : Z) (kv : Z * Timer Func) : IntervalS :=
  mkIntervalS (initial_time_point max_int now (snd kv)) (fst kv).

(** The timer is still to run at [now]: the test of [start] fails. *)
Definition live (now : Z) (kv : Z * Timer Func) : Prop :=
  timer_expired Datetime_max now (snd kv) = false.

#[global] Instance live_dec now kv : Decision (live now kv).
Proof. unfold live. solve_decision. Defined.

End Ops.

Arguments Op : clear implicits.

End TimerOps.

(** ** The trading system as its callers drive it *)

Module SysOps.
Import Sys.

Section Ops.

Context {W : Type} `{Collaborators W}.

(** [_sellForce], the sale that an allocator or a portfolio orders.  [None]
    stands for the failure of the assertion [HKU_ASSERT_M] on [from] (the
    macro is defined in [Log.h], which is not among the sources). *)
Definition _sellForce (today : KRecord.t) (num : float) (from : Part) (s : System W)
  : option (System W * TradeRecord.t) :=
  if negb (bool_decide (from = PART_ALLOCATEFUNDS) || bool_decide (from = PART_PORTFOLIO))
  then None
  else
    let result := TradeRecord.null in
    let w := m_world s in
    let dt := KRecord.datetime today in
    let r := m_sellRequest s in
    Some
      (if delay (m_params s) then
         if TradeRequest.valid r && (TradeRequest.count r >? max_delay_count (m_params s)) then
           (set_sellRequest TradeRequest.cleared s, result)
         else
           let count := if TradeRequest.valid r then TradeRequest.count r + 1 else 1 in
           let business :=
             if TradeRequest.valid r then TradeRequest.business r else BUSINESS_SELL in
           let position := tm_getPosition w in
           (set_sellRequest
              (TradeRequest.mk true business dt (PositionRecord.stoploss position)
                 (PositionRecord.goalPrice position) num from count) s,
            result)
       else
         let position := tm_getPosition w in
         let realPrice := _getRealSellPrice w dt (KRecord.closePrice today) in
         let '(w', record) :=
           tm_sell w dt realPrice num (PositionRecord.stoploss position)
             (PositionRecord.goalPrice position) (KRecord.closePrice today) from in
         let s1 := set_world w' s in
         let s2 := set_trade_list (m_trade_list s1 ++ [record]) s1 in
         (_sellNotifyAll record s2, record)).

(** What the owner of a system does with it between construction and the
    end of a run, the parameters being set beforehand: a bar, a decision
    taken from outside, a forced sale, [clearDelayRequest], [reset], or a
    change of the collaborators. *)
Inductive Step : Type :=
| StepBar (today : KRecord.t)
| StepBuy (today : KRecord.t) (from : Part)
| StepSell (today : KRecord.t) (from : Part)
| StepBuyShort (today : KRecord.t) (from : Part)
| StepSellShort (today : KRecord.t) (from : Part)
| StepSellForce (today : KRecord.t) (num : float) (from : Part)
| StepClear
| StepReset (with_tm with_ev : bool)
| StepWorld (w : W).

Definition apply_step (st : Step) (s : System W) : System W :=
  match st with
  | StepBar today => fst (runMoment today s)
  | StepBuy today from => fst (_buy today from s)
  | StepSell today from => fst (_sell today from s)
  | StepBuyShort today from => fst (_buyShort today from s)
  | StepSellShort today from => fst (_sellShort today from s)
  | StepSellForce today num from =>
      match _sellForce today num from s with
      | Some (s', _) => s'
      | None => s
      end
  | StepClear => clearDelayRequest s
  | StepReset with_tm with_ev => reset with_tm with_ev s
  | StepWorld w => set_world w s
  end.

Definition apply_steps (sts : list Step) (s : System W) : System W :=
  fold_left (fun s st => apply_step st s) sts s.

(** *** [run] *)

(** What [run] asks besides: whether the parts are set, the stock and its
    data.  [Q] is the type of a query ([KQuery]).  The stock [m_stock] and
    the data [m_kdata] are part of the joint state [W], like the parts. *)
Class Backtest (Q : Type) : Type := {
  has_tm : W -> bool;                   (* [m_tm] is set *)
  has_sg : W -> bool;                   (* [m_sg] is set *)
  has_ev : W -> bool;                   (* [m_ev] is set *)
  has_cn : W -> bool;                   (* [m_cn] is set *)
  stock_isNull : W -> bool;             (* [m_stock.isNull()] *)
  stock_getKData : W -> Q -> list KRecord.t;
  (* the calls [setTM], [setSG] and [setParam] of [readyForRun]; the two
     booleans are [support_borrow_cash] and [support_borrow_stock] *)
  parts_setTM : bool -> bool -> W -> W;
  (* [m_kdata = kdata], [m_stock = kdata.getStock()] and the calls [setTO] and
     [setQuery] on the parts *)
  parts_setTO : list KRecord.t -> W -> W
}.

Context {Q : Type} `{Backtest Q}.






(** *** Vocabulary of the properties *)

(** The record of an order that the trade manager carried out. *)
Definition executed (r : TradeRecord.t) : Prop :=
  TradeRecord.business r = BUSINESS_BUY \/ TradeRecord.business r = BUSINESS_SELL
  \/ TradeRecord.business r = BUSINESS_BUY_SHORT
  \/ TradeRecord.business r = BUSINESS_SELL_SHORT.

(** [s'] has the trades of [s], and after them records of executed orders
    only. *)
Definition appends_executed (s s' : System W) : Prop :=
  exists l, m_trade_list s' = m_trade_list s ++ l /\ Forall executed l.

(** A pending request has been submitted at least once and at most
    [max_delay_count + 1] times. *)
Definition counts_bounded (s : System W) : Prop :=
  forall d, TradeRequest.valid (buffer d s) = true ->
            1 <= TradeRequest.count (buffer d s) <= max_delay_count (m_params s) + 1.

(** The parameters are kept, and so are the bounds on the counters. *)
Definition keeps_counts (s s' : System W) : Prop :=
  m_params s' = m_params s
  /\ (0 <= max_delay_count (m_params s) -> counts_bounded s -> counts_bounded s').

(** A decision either trades nothing and returns the empty record, or
    appends the record of an executed order and returns it. *)
Definition traded_and_returned (s s' : System W) (tr : TradeRecord.t) : Prop :=
  (m_trade_list s' = m_trade_list s /\ tr = TradeRecord.null)
  \/ (m_trade_list s' = m_trade_list s ++ [tr] /\ executed tr).

(** The same for a part of [_runMoment] that returns [pick result tr]. *)
Definition phase_returned (result : TradeRecord.t) (s s' : System W) (ret : TradeRecord.t)
  : Prop :=
  (m_trade_list s' = m_trade_list s /\ ret = result)
  \/ (m_trade_list s' = m_trade_list s ++ [ret] /\ executed ret).

(** What a bar returns, against what it appends: nothing and the empty
    record; or one executed order, returned; or one short-buy, with the empty
    record returned. *)
Definition bar_outcome (s s' : System W) (tr : TradeRecord.t) : Prop :=
  (m_trade_list s' = m_trade_list s /\ tr = TradeRecord.null)
  \/ (m_trade_list s' = m_trade_list s ++ [tr] /\ executed tr)
  \/ (tr = TradeRecord.null
      /\ exists r, TradeRecord.business r = BUSINESS_BUY_SHORT
                   /\ m_trade_list s' = m_trade_list s ++ [r]).


End Ops.

Arguments Step : clear implicits.
Arguments Backtest : clear implicits.

End SysOps.

(** ** More concrete inputs *)

Module OpsCase.
Import TimerMgr TimerOps TimerCase Sys SysOps Toy.



(** A running scheduler whose only timer is [minutely] (two runs), due at
    10:00. *)
Definition running_twice : TimerManager nat :=
  mkTimerManager [mkIntervalS (day0 + hm 10 0) 0] false {[ 0 := minutely ]} 0 [].

(** A timer with a window of nearly the whole day and a period of 7
    microseconds: more than [max_int] periods fit between the start of the
    window and noon. *)
Definition every_7us : Timer nat :=
  mkTimer day0 Datetime_max 1 (ticks_per_day - 1) 7 5 0%nat.

(** A scheduler whose last id handed out is [INT_MAX], with id 0 in use. *)
Definition wrapped : TimerManager nat :=
  mkTimerManager [] false {[ 0 := hourly ]} max_int [].

(** A new, stopped scheduler to which [minutely] was added at 08:00. *)
Definition added_while_stopped : TimerManager nat :=
  mkTimerManager [mkIntervalS (day0 + hm 8 0 + hm 0 1) 0] true {[ 0 := minutely ]} 0 [].

(** Four turns of the detector, a minute apart, from 10:00. *)
Definition four_turns : list (Op nat) :=
  [OpDetect (day0 + hm 10 0); OpDetect (day0 + hm 10 1); OpDetect (day0 + hm 10 2);
   OpDetect (day0 + hm 10 3)].

(** A delayed callback added before [start], then a periodic one. *)
Definition calls : list (Op nat) :=
  [OpAddDelayFunc day0 (hm 0 1) 7%nat; OpStart day0;
   OpAddDurationFunc day0 3 (hm 0 2) 8%nat].

(** The manager after [calls]: the timer added before [start] is queued
    twice. *)
Definition after_calls : TimerManager nat :=
  mkTimerManager
    [mkIntervalS (day0 + hm 0 1) 0; mkIntervalS (day0 + hm 0 1) 0;
     mkIntervalS (day0 + hm 0 2) 1]
    false
    {[ 0 := mkTimer Datetime_min Datetime_max 0 0 (hm 0 1) 1 7%nat;
       1 := mkTimer Datetime_min Datetime_max 0 0 (hm 0 2) 3 8%nat ]}
    1 [].




(** The same with a trade manager that turns every order down. *)
Definition refused_now : System World :=
  system (Toy.mk 100%float 0%float false true true false false 8%float 20%float 9%float
            100%float 0) immediate none none none none.

(** A day of the owner of [buy_pending]: a bar, a decision to sell, a forced
    sale, another bar. *)
Definition day : list (Step World) :=
  [StepBar bar; StepSell bar PART_SIGNAL; StepSellForce bar 50%float PART_PORTFOLIO;
   StepBar flat_bar; StepBar bar].

(** Every part is set, the stock is there and its data are three bars,
    whatever the query. *)
#[export] Instance backtest : Backtest World unit := {|
  has_tm := fun _ => true;
  has_sg := fun _ => true;
  has_ev := fun _ => true;
  has_cn := fun _ => true;
  stock_isNull := fun _ => false;
  stock_getKData := fun _ _ => [bar; flat_bar; bar];
  parts_setTM := fun _ _ w => w;
  parts_setTO := fun _ w => w
|}.

End OpsCase.

(** ** Facts about the timer scheduler *)

Module TimerFacts.
Import TimerMgr.

Lemma TimeDelta_1_is_a_day : TimeDelta_1 = ticks_per_day.
Proof. reflexivity. Qed.

Lemma TimeDelta_day_last_val : TimeDelta_day_last = ticks_per_day - 1.
Proof. reflexivity. Qed.

Lemma startOfDay_le t : startOfDay t <= t < startOfDay t + ticks_per_day.
Proof.
  unfold startOfDay.
  pose proof (Z.mod_pos_bound t ticks_per_day ltac:(reflexivity)). lia.
Qed.

Lemma startOfDay_shift t : startOfDay (t + ticks_per_day) = startOfDay t + ticks_per_day.
Proof.
  unfold startOfDay.
  replace (t + ticks_per_day) with (t + 1 * ticks_per_day) by lia.
  rewrite Z.mod_add by discriminate. lia.
Qed.

Lemma startOfDay_of_midnight_plus d t :
  startOfDay d = d -> 0 <= t < ticks_per_day -> startOfDay (d + t) = d.
Proof.
  unfold startOfDay. intros Hd Ht.
  assert (Hm : d mod ticks_per_day = 0) by lia.
  apply Z.mod_divide in Hm; [|discriminate]. destruct Hm as [k ->].
  rewrite Z.add_comm, Z.mod_add by discriminate.
  rewrite Z.mod_small by lia. lia.
Qed.

Section Facts.

Variable max_int : Z.
Variables Datetime_min Datetime_max : Z.
Context {Func : Type}.

Implicit Types (tm : TimerManager Func) (timer : Timer Func) (f : Func).

Lemma count_down_fields timer :
  m_start_date (count_down max_int timer) = m_start_date timer
  /\ m_end_date (count_down max_int timer) = m_end_date timer
  /\ m_start_time (count_down max_int timer) = m_start_time timer
  /\ m_end_time (count_down max_int timer) = m_end_time timer
  /\ m_duration (count_down max_int timer) = m_duration timer
  /\ m_func (count_down max_int timer) = m_func timer.
Proof. unfold count_down. destruct (negb _); simpl; auto 10. Qed.

Lemma next_time_point_count_down now timer fired :
  next_time_point now (count_down max_int timer) fired = next_time_point now timer fired.
Proof.
  unfold next_time_point.
  destruct (count_down_fields timer) as (_ & _ & -> & -> & -> & _). reflexivity.
Qed.

(** Past the window of the day of [now], the next time point is the start
    of the window on the following day. *)
Lemma next_time_point_rolls now timer fired :
  m_start_time timer <> m_end_time timer ->
  fired + m_duration timer > startOfDay now + m_end_time timer ->
  next_time_point now timer fired = startOfDay (now + ticks_per_day) + m_start_time timer.
Proof.
  intros Hw Hp. unfold next_time_point.
  apply Z.eqb_neq in Hw. rewrite Hw. simpl.
  assert (Hgt : (fired + m_duration timer >? startOfDay now + m_end_time timer) = true)
    by (apply Z.gtb_lt; lia).
  rewrite Hgt, startOfDay_shift, TimeDelta_1_is_a_day. lia.
Qed.

(** Inside the window of the day of [now], or without a window, it is
    [fired + duration]. *)
Lemma next_time_point_plain now timer fired :
  m_start_time timer = m_end_time timer
  \/ fired + m_duration timer <= startOfDay now + m_end_time timer ->
  next_time_point now timer fired = fired + m_duration timer.
Proof.
  intros Hc. unfold next_time_point.
  destruct (Z.eqb_spec (m_start_time timer) (m_end_time timer)) as [|Hne]; [reflexivity|].
  destruct Hc as [Hc|Hc]; [contradiction|]. simpl.
  destruct (Z.gtb_spec (fired + m_duration timer) (startOfDay now + m_end_time timer));
    [lia | reflexivity].
Qed.

(** *** Id allocation *)

Lemma getNewTimerId_full tm :
  Z.of_nat (size (m_timers tm)) >= max_int -> getNewTimerId max_int tm = Some (-1, tm).
Proof.
  intros Hfull. unfold getNewTimerId.
  destruct (Z.geb_spec (Z.of_nat (size (m_timers tm))) max_int); [reflexivity | lia].
Qed.

Lemma _addFunc_full now sd ed st et rn du f tm :
  Z.of_nat (size (m_timers tm)) >= max_int ->
  _addFunc max_int now sd ed st et rn du f tm = Throws Failed_to_get_new_id tm.
Proof. intros Hfull. unfold _addFunc. rewrite getNewTimerId_full by assumption. reflexivity. Qed.

Lemma probe_free fuel (m : gmap Z (Timer Func)) id id' :
  probe max_int fuel m id = Some id' -> m !! id' = None.
Proof.
  revert id. induction fuel as [|fuel IH]; intros id; simpl; [discriminate|].
  destruct (m !! id) eqn:Hl; [apply IH|].
  intros [= <-]. exact Hl.
Qed.

(** What [_addFunc] registers when it returns: the timer as given, under an
    id that was free, and a first entry at [now + duration]. *)
Lemma _addFunc_registers now sd ed st et rn du f tm tm' :
  _addFunc max_int now sd ed st et rn du f tm = Done tm' ->
  exists id,
    m_timers tm !! id = None
    /\ m_timers tm' = <[id := mkTimer sd ed st et du rn f]> (m_timers tm)
    /\ m_queue tm' = queue_push (mkIntervalS (now + du) id) (m_queue tm)
    /\ m_stop tm' = m_stop tm /\ m_submitted tm' = m_submitted tm.
Proof.
  unfold _addFunc, getNewTimerId. intros Hdone.
  destruct (Z.of_nat (size (m_timers tm)) >=? max_int); [discriminate Hdone|].
  destruct (probe _ _ _ _) as [id|] eqn:Hp; [|discriminate Hdone].
  destruct (id <? 0); [discriminate Hdone|].
  injection Hdone as <-. exists id. simpl. eauto 10 using probe_free.
Qed.

(** The loop of [getNewTimerId] ends: the ids it visits from an id of
    [0 .. max_int] are pairwise distinct for [max_int + 1] turns, and a map of
    fewer entries cannot hold [size + 1] of them. *)

Lemma next_id_cyclic id :
  0 <= id <= max_int -> next_id max_int id = (id + 1) mod (max_int + 1).
Proof.
  intros Hid. unfold next_id.
  destruct (Z.geb_spec id max_int).
  - replace (id + 1) with (1 * (max_int + 1)) by lia.
    rewrite Z.mod_mul by lia. reflexivity.
  - rewrite Z.mod_small by lia. reflexivity.
Qed.

Lemma probe_None_visits fuel (m : gmap Z (Timer Func)) id :
  0 <= id <= max_int ->
  probe max_int fuel m id = None ->
  forall k : nat, (k < fuel)%nat -> is_Some (m !! ((id + Z.of_nat k) mod (max_int + 1))).
Proof.
  revert id. induction fuel as [|fuel IH]; intros id Hid Hp k Hk; [lia|].
  simpl in Hp. destruct (m !! id) as [t|] eqn:Hl; [|discriminate].
  destruct k as [|k].
  - rewrite Z.add_0_r, Z.mod_small by lia. rewrite Hl. eauto.
  - rewrite next_id_cyclic in Hp by assumption.
    assert (Hr : 0 <= (id + 1) mod (max_int + 1) <= max_int).
    { pose proof (Z.mod_pos_bound (id + 1) (max_int + 1)). lia. }
    specialize (IH _ Hr Hp k ltac:(lia)).
    rewrite Z.add_mod_idemp_l in IH by lia.
    replace (id + Z.of_nat (S k)) with (id + 1 + Z.of_nat k) by lia. exact IH.
Qed.

Lemma cyclic_inj id (j k : nat) :
  0 <= max_int -> Z.of_nat j <= max_int -> Z.of_nat k <= max_int ->
  (id + Z.of_nat j) mod (max_int + 1) = (id + Z.of_nat k) mod (max_int + 1) -> j = k.
Proof.
  intros Hm Hj Hk Heq.
  pose proof (Z.div_mod (id + Z.of_nat j) (max_int + 1) ltac:(lia)) as Ej.
  pose proof (Z.div_mod (id + Z.of_nat k) (max_int + 1) ltac:(lia)) as Ek.
  rewrite Heq in Ej.
  assert (Hq : (id + Z.of_nat j) / (max_int + 1) = (id + Z.of_nat k) / (max_int + 1)) by nia.
  rewrite Hq in Ej. lia.
Qed.

Lemma probe_finds (m : gmap Z (Timer Func)) id :
  0 <= id <= max_int -> Z.of_nat (size m) <= max_int ->
  exists id', probe max_int (S (size m)) m id = Some id' /\ 0 <= id' <= max_int.
Proof.
  intros Hid Hsize.
  destruct (probe max_int (S (size m)) m id) as [id'|] eqn:Hp.
  - exists id'. split; [reflexivity|].
    clear Hsize. revert id Hid Hp. generalize (S (size m)) as fuel.
    induction fuel as [|fuel IH]; intros id Hid; simpl; [discriminate|].
    destruct (m !! id).
    + apply IH. rewrite next_id_cyclic by assumption.
      pose proof (Z.mod_pos_bound (id + 1) (max_int + 1)). lia.
    + intros [= <-]. exact Hid.
  - exfalso.
    pose proof (probe_None_visits _ _ _ Hid Hp) as Hall.
    set (l := (fun k : nat => (id + Z.of_nat k) mod (max_int + 1)) <$> seq 0 (S (size m))).
    assert (Hnd : NoDup l).
    { apply NoDup_fmap_2_strong; [|apply NoDup_seq].
      intros j k Hj Hk. apply elem_of_seq in Hj, Hk. apply cyclic_inj; lia. }
    assert (Hsub : l ⊆+ elements (dom (m : gmap Z (Timer Func)))).
    { apply NoDup_submseteq; [exact Hnd|].
      intros x Hx. apply list_elem_of_fmap in Hx as (k & -> & Hk).
      apply elem_of_seq in Hk. apply elem_of_elements, elem_of_dom, Hall. lia. }
    apply submseteq_length in Hsub.
    unfold l in Hsub. rewrite length_fmap, length_seq in Hsub.
    change (length (elements (dom m))) with (size (dom m)) in Hsub.
    rewrite size_dom in Hsub. lia.
Qed.

(** [getNewTimerId] returns, with an id of [0 .. max_int] that was free,
    when the map is not full. *)
Lemma getNewTimerId_total tm :
  0 <= max_int -> -1 <= m_current_timer_id tm ->
  Z.of_nat (size (m_timers tm)) < max_int ->
  exists id,
    getNewTimerId max_int tm = Some (id, set_current_timer_id id tm)
    /\ 0 <= id <= max_int /\ m_timers tm !! id = None.
Proof.
  intros Hm Hcur Hsize. unfold getNewTimerId.
  destruct (Z.geb_spec (Z.of_nat (size (m_timers tm))) max_int); [lia|].
  assert (Hstart : 0 <= next_id max_int (m_current_timer_id tm) <= max_int).
  { unfold next_id. destruct (Z.geb_spec (m_current_timer_id tm) max_int); lia. }
  destruct (probe_finds (m_timers tm) _ Hstart ltac:(lia)) as (id & Hp & Hid).
  rewrite Hp. exists id. eauto using probe_free.
Qed.

(** So [_addFunc] registers the timer whenever the map is not full. *)
Lemma _addFunc_succeeds now sd ed st et rn du f tm :
  0 <= max_int -> -1 <= m_current_timer_id tm ->
  Z.of_nat (size (m_timers tm)) < max_int ->
  exists tm', _addFunc max_int now sd ed st et rn du f tm = Done tm'.
Proof.
  intros Hm Hcur Hsize.
  destruct (getNewTimerId_total tm Hm Hcur Hsize) as (id & Hg & Hid & _).
  unfold _addFunc. rewrite Hg.
  destruct (Z.ltb_spec id 0); [lia|]. eauto.
Qed.

(** *** The fire step *)

Lemma past_end_count_down timer p :
  past_end Datetime_max (count_down max_int timer) p = past_end Datetime_max timer p.
Proof.
  unfold past_end. destruct (count_down_fields timer) as (_ & -> & _ & -> & _). reflexivity.
Qed.

(** What [detect_step] does with a due entry whose timer is still there and
    goes on: the callback is submitted at [now], the count goes down, and
    the entry is pushed back at [next_time_point]. *)
Lemma detect_step_reschedules now tm s q timer :
  m_stop tm = false ->
  m_queue tm = s :: q ->
  m_time_point s <= now ->
  m_timers tm !! m_timer_id s = Some timer ->
  m_repeat_num (count_down max_int timer) > 0 ->
  past_end Datetime_max timer (m_time_point s + m_duration timer) = false ->
  detect_step max_int Datetime_max now tm =
    (mkTimerManager
       (queue_push (mkIntervalS (next_time_point now timer (m_time_point s)) (m_timer_id s)) q)
       false
       (<[m_timer_id s := count_down max_int timer]> (m_timers tm))
       (m_current_timer_id tm)
       (mkDispatch now (m_timer_id s) (m_func timer) :: m_submitted tm),
     Rescheduled (m_timer_id s) (next_time_point now timer (m_time_point s))).
Proof.
  intros Hstop Hq Hdue Hl Hrep Hend. unfold detect_step.
  rewrite Hstop, Hq.
  destruct (Z.gtb_spec (m_time_point s - now) TimeDelta_zero) as [Hlt|_];
    [unfold TimeDelta_zero, TimeDelta_mk in Hlt; lia|].
  cbn [set_queue m_timers]. rewrite Hl.
  cbn [submit set_timers m_timers m_queue m_stop m_current_timer_id m_submitted].
  destruct (Z.leb_spec (m_repeat_num (count_down max_int timer)) 0); [lia|].
  destruct (count_down_fields timer) as (_ & _ & _ & _ & Hdu & _).
  rewrite Hdu, past_end_count_down, Hend, next_time_point_count_down.
  unfold set_queue, set_timers, submit; simpl. rewrite Hstop. reflexivity.
Qed.

(** C6, as amended.  In the fire step, for a timer with a daily window
    ([start_time <> end_time]) that goes on, when [fired + duration] is past
    [end_time] of the day of [now], the entry is pushed back at
    [startOfDay(now) + start_time + TimeDelta(1)].  [TimeDelta(1)] is one
    day, so this is the start of the window of the following day, exactly: no
    microsecond is added. *)
Theorem C6_fire_step_rolls_to_next_day_start now tm s q timer :
  m_stop tm = false ->
  m_queue tm = s :: q ->
  m_time_point s <= now ->
  m_timers tm !! m_timer_id s = Some timer ->
  m_repeat_num (count_down max_int timer) > 0 ->
  past_end Datetime_max timer (m_time_point s + m_duration timer) = false ->
  m_start_time timer <> m_end_time timer ->
  m_time_point s + m_duration timer > startOfDay now + m_end_time timer ->
  let next := startOfDay now + m_start_time timer + TimeDelta_1 in
  snd (detect_step max_int Datetime_max now tm) = Rescheduled (m_timer_id s) next
  /\ m_queue (fst (detect_step max_int Datetime_max now tm))
     = queue_push (mkIntervalS next (m_timer_id s)) q
  /\ next = startOfDay (now + ticks_per_day) + m_start_time timer.
Proof.
  intros Hstop Hq Hdue Hl Hrep Hend Hw Hp next.
  rewrite (detect_step_reschedules now tm s q timer) by assumption.
  rewrite next_time_point_rolls by assumption.
  assert (E : next = startOfDay (now + ticks_per_day) + m_start_time timer).
  { unfold next. rewrite startOfDay_shift, TimeDelta_1_is_a_day. lia. }
  rewrite <- E. repeat split.
Qed.

(** Whatever duration [TimeDelta(1)] stands for, unless it is one day and
    one microsecond, the instant [startOfDay(now) + start_time + TimeDelta(1)]
    is not the start of the next day's window plus one microsecond. *)
Remark roll_is_not_next_day_start_plus_1us now (start_time one : TimeDelta) :
  one <> ticks_per_day + one_microsecond ->
  startOfDay now + start_time + one
  <> startOfDay (now + ticks_per_day) + start_time + one_microsecond.
Proof. intros Hone. rewrite startOfDay_shift. lia. Qed.

(** *** Validation at submission *)

Lemma addFunc_checks now sd ed st et rn du f tm :
  ~ valid_submission sd ed st et rn du ->
  exists e, e <> Failed_to_get_new_id
            /\ addFunc max_int now sd ed st et rn du f tm = Throws e tm.
Proof.
  intros Hbad. unfold addFunc.
  destruct sd as [|sd]; [eexists; split; [|reflexivity]; discriminate|].
  destruct ed as [|ed]; [eexists; split; [|reflexivity]; discriminate|].
  unfold TimeDelta_day_last, TimeDelta_mk. simpl.
  repeat match goal with
         | |- context [negb ?b] =>
             destruct b eqn:?; cbn [negb];
             [|eexists; split; [|reflexivity]; discriminate]
         end.
  exfalso. apply Hbad. unfold valid_submission, ticks_per_day.
  repeat match goal with
         | H : (_ && _) = true |- _ => apply andb_true_iff in H; destruct H
         end.
  lia.
Qed.

Lemma addFunc_passes now sd ed st et rn du f tm :
  valid_submission (At sd) (At ed) st et rn du ->
  addFunc max_int now (At sd) (At ed) st et rn du f tm
  = _addFunc max_int now sd ed st et rn du f tm.
Proof.
  unfold valid_submission, ticks_per_day. intros (H1 & H2 & H3 & H4 & H5 & H6).
  unfold addFunc.
  change (TimeDelta_mk 0 0 0 0 0 0) with 0. change TimeDelta_day_last with 86399999999.
  replace (ed >? sd) with true by (symmetry; apply Z.gtb_lt; lia).
  replace (st >? 0) with true by (symmetry; apply Z.gtb_lt; lia).
  replace (st <=? 86399999999) with true by (symmetry; apply Z.leb_le; lia).
  replace (et >? 0) with true by (symmetry; apply Z.gtb_lt; lia).
  replace (et <=? 86399999999) with true by (symmetry; apply Z.leb_le; lia).
  replace (et >=? st) with true by (symmetry; apply Z.geb_le; lia).
  replace (rn >? 0) with true by (symmetry; apply Z.gtb_lt; lia).
  replace (du >? 0) with true by (symmetry; apply Z.gtb_lt; lia).
  reflexivity.
Qed.

(** C8, as amended.  [addFunc] enforces every rule at submission and throws
    on a violation, leaving the state as it was.  The convenience
    constructors do not go through [addFunc] but call [_addFunc], which
    checks nothing: [addDurationFunc] checks [repeat_num >= 1] and
    [duration > 0] only, [addDelayFunc] checks [delay > 0] only and
    [addFuncAtPoint] only that the instant is not null; the first two
    register [start_time = end_time = 0] (no daily window) between
    [Datetime::min()] and [Datetime::max()]. *)
Theorem C8_validation_by_submission_path now tm f :
  (forall sd ed st et rn du,
      ~ valid_submission sd ed st et rn du ->
      exists e, e <> Failed_to_get_new_id
                /\ addFunc max_int now sd ed st et rn du f tm = Throws e tm)
  /\ (forall sd ed st et rn du,
      valid_submission (At sd) (At ed) st et rn du ->
      addFunc max_int now (At sd) (At ed) st et rn du f tm
      = _addFunc max_int now sd ed st et rn du f tm)
  /\ (forall rn du,
      rn < 1 \/ du <= 0 ->
      exists e, e <> Failed_to_get_new_id
                /\ addDurationFunc max_int Datetime_min Datetime_max now rn du f tm
                   = Throws e tm)
  /\ (forall rn du,
      rn >= 1 -> du > 0 ->
      addDurationFunc max_int Datetime_min Datetime_max now rn du f tm
      = _addFunc max_int now Datetime_min Datetime_max 0 0 rn du f tm)
  /\ (forall d,
      d <= 0 ->
      addDelayFunc max_int Datetime_min Datetime_max now d f tm = Throws Invalid_delay tm)
  /\ (forall d,
      d > 0 ->
      addDelayFunc max_int Datetime_min Datetime_max now d f tm
      = _addFunc max_int now Datetime_min Datetime_max 0 0 1 d f tm)
  /\ addFuncAtPoint max_int Datetime_max now Null f tm = Throws Invalid_time_point tm
  /\ (forall tp,
      addFuncAtPoint max_int Datetime_max now (At tp) f tm
      = _addFunc max_int now (startOfDay (tp - 100000)) Datetime_max
          (time_of_day (tp - 100000)) (ticks_per_day - 1) 1 100000 f tm).
Proof.
  split; [intros; apply addFunc_checks; assumption|].
  split; [intros; apply addFunc_passes; assumption|].
  unfold addDurationFunc, addDelayFunc, addFuncAtPoint, time_of_day.
  change TimeDelta_zero with 0. change TimeDelta_day_last with (ticks_per_day - 1).
  change (TimeDelta_mk 0 0 0 0 100 0) with 100000.
  split.
  { intros rn du Hbad.
    destruct (Z.gtb_spec rn 0); cbn [negb];
      [|eexists; split; [|reflexivity]; discriminate].
    destruct (Z.gtb_spec du 0); cbn [negb];
      [|eexists; split; [|reflexivity]; discriminate].
    lia. }
  split.
  { intros rn du Hrn Hdu.
    destruct (Z.gtb_spec rn 0); [|lia]. destruct (Z.gtb_spec du 0); [|lia]. reflexivity. }
  split.
  { intros d Hd. destruct (Z.gtb_spec d 0); [lia|]. reflexivity. }
  split.
  { intros d Hd. destruct (Z.gtb_spec d 0); [|lia]. reflexivity. }
  split; [reflexivity|].
  intros tp. reflexivity.
Qed.

(** *** A map that is full *)

(** C9, as amended.  When the number of live timers has reached [INT_MAX],
    [getNewTimerId] yields -1 and leaves the state as it was, and [addFunc]
    fails by throwing ([HKU_THROW]; it returns [void], so there is no value
    to return): no timer is registered, the map and the queue are as
    before. *)
Theorem C9_full_map_add_throws now tm f :
  Z.of_nat (size (m_timers tm)) >= max_int ->
  getNewTimerId max_int tm = Some (-1, tm)
  /\ (forall sd ed st et rn du,
         _addFunc max_int now sd ed st et rn du f tm = Throws Failed_to_get_new_id tm)
  /\ (forall sd ed st et rn du,
         valid_submission (At sd) (At ed) st et rn du ->
         addFunc max_int now (At sd) (At ed) st et rn du f tm
         = Throws Failed_to_get_new_id tm)
  /\ (forall sd ed st et rn du,
         exists e, addFunc max_int now sd ed st et rn du f tm = Throws e tm).
Proof.
  intros Hfull.
  split; [apply getNewTimerId_full; assumption|].
  split; [intros; apply _addFunc_full; assumption|].
  split.
  { intros. rewrite addFunc_passes by assumption. apply _addFunc_full; assumption. }
  intros sd ed st et rn du.
  destruct sd as [|sd]; [eexists; reflexivity|].
  destruct ed as [|ed]; [eexists; reflexivity|].
  unfold addFunc.
  repeat match goal with
         | |- context [negb ?b] => destruct (negb b); [eexists; reflexivity|]
         end.
  rewrite _addFunc_full by assumption. eexists; reflexivity.
Qed.

End Facts.

(** *** At concrete inputs *)

Import TimerCase.

Lemma C6_fire_step_rolls_witness :
  snd (detect_step max_int Datetime_max (day0 + hm 14 30 + 5) running_1430)
  = Rescheduled 0 (day1 + hm 9 30)
  /\ m_queue (fst (detect_step max_int Datetime_max (day0 + hm 14 30 + 5) running_1430))
     = [mkIntervalS (day1 + hm 9 30) 0].
Proof.
  pose proof (C6_fire_step_rolls_to_next_day_start max_int Datetime_max
                (day0 + hm 14 30 + 5) running_1430 (mkIntervalS (day0 + hm 14 30) 0) [] hourly
                eq_refl eq_refl ltac:(vm_compute; congruence) eq_refl eq_refl eq_refl
                ltac:(vm_compute; congruence) eq_refl) as (Hev & Hq & _).
  split; [exact Hev | exact Hq].
Defined.

(** C6 as stated fails.  The timer [hourly] (window 09:30 to 15:00) fires
    at 14:30; [fired + duration] is 15:30, past the end of the window; the
    entry is pushed back at 09:30:00.000000 of the next day, which is not
    09:30:00.000001. *)
Lemma C6_counterexample :
  m_start_time hourly <> m_end_time hourly
  /\ day0 + hm 14 30 + m_duration hourly > startOfDay (day0 + hm 14 30 + 5) + m_end_time hourly
  /\ snd (detect_step max_int Datetime_max (day0 + hm 14 30 + 5) running_1430)
     = Rescheduled 0 (day1 + hm 9 30)
  /\ day1 + hm 9 30 <> startOfDay (day0 + hm 14 30 + 5 + ticks_per_day) + hm 9 30
                       + one_microsecond.
Proof.
  split; [vm_compute; congruence|].
  split; [vm_compute; reflexivity|].
  split; [vm_compute; reflexivity|].
  vm_compute; congruence.
Qed.

(** C7 at two failing inputs.  The timer [minutely], with the window 09:30
    to 15:00 and a period of one minute, is submitted through [addFunc] at
    02:00: (1) while the scheduler runs; (2) before [start], which is called
    at 02:00:30.  In both cases the turn of the detector at 02:01 submits the
    callback, and 02:01 is outside the window. *)
Theorem C7_dispatch_outside_window :
  (exists tm1,
      addFunc max_int (day0 + hm 2 0) (At day0) (At Datetime_max) (hm 9 30) (hm 15 0)
        2 (hm 0 1) 7%nat running_empty = Done tm1
      /\ m_timers tm1 !! 0 = Some minutely
      /\ m_submitted (fst (detect_step max_int Datetime_max (day0 + hm 2 1) tm1))
         = [mkDispatch (day0 + hm 2 1) 0 7%nat])
  /\ (exists tm1,
      addFunc max_int (day0 + hm 2 0) (At day0) (At Datetime_max) (hm 9 30) (hm 15 0)
        2 (hm 0 1) 7%nat TimerManager_new = Done tm1
      /\ m_timers tm1 !! 0 = Some minutely
      /\ m_submitted
           (fst (detect_step max_int Datetime_max (day0 + hm 2 1)
                   (start max_int Datetime_max (day0 + hm 2 0 + 30000000) tm1)))
         = [mkDispatch (day0 + hm 2 1) 0 7%nat])
  /\ valid_timer minutely
  /\ ~ in_window minutely (day0 + hm 2 1).
Proof.
  split.
  { eexists. split; [vm_compute; reflexivity|].
    split; vm_compute; reflexivity. }
  split.
  { eexists. split; [vm_compute; reflexivity|].
    split; vm_compute; reflexivity. }
  split.
  - vm_compute. repeat split; congruence.
  - unfold in_window. vm_compute. intros (Hlo & _). apply Hlo. reflexivity.
Qed.

Lemma C8_validation_witness :
  (exists e, e <> Failed_to_get_new_id
             /\ addFunc max_int day0 (At day0) (At day0) (hm 9 30) (hm 15 0) 1 (hm 1 0)
                  7%nat running_empty = Throws e running_empty)
  /\ addFunc max_int day0 (At day0) (At day1) (hm 9 30) (hm 15 0) 1 (hm 1 0)
       7%nat running_empty
     = _addFunc max_int day0 day0 day1 (hm 9 30) (hm 15 0) 1 (hm 1 0) 7%nat running_empty
  /\ addDurationFunc max_int Datetime_min Datetime_max day0 3 (hm 1 0) 7%nat running_empty
     = _addFunc max_int day0 Datetime_min Datetime_max 0 0 3 (hm 1 0) 7%nat running_empty.
Proof.
  pose proof (C8_validation_by_submission_path max_int Datetime_min Datetime_max
                day0 running_empty 7%nat) as (Hbad & Hok & _ & Hdur & _).
  split; [apply Hbad; vm_compute; intros (H & _); discriminate H|].
  split; [apply Hok; vm_compute; repeat split; congruence|].
  apply Hdur; vm_compute; congruence.
Defined.

(** C8 as stated fails.  [addDurationFunc] with one repeat and a period of
    one tick returns, and the timer it registers has [start_time = 0], which
    is not inside (0, 24 h). *)
Lemma C8_counterexample :
  exists tm' t,
    addDurationFunc max_int Datetime_min Datetime_max day0 1 1 7%nat TimerManager_new
    = Done tm'
    /\ m_timers tm' !! 0 = Some t
    /\ m_start_time t = 0
    /\ ~ valid_timer t.
Proof.
  eexists; eexists.
  split; [vm_compute; reflexivity|].
  split; [vm_compute; reflexivity|].
  split; [reflexivity|].
  unfold valid_timer, valid_submission. simpl. lia.
Qed.

Lemma full_size : Z.of_nat (size (m_timers full)) = max_int.
Proof.
  unfold full, live_ids. cbn [m_timers].
  rewrite <- (size_dom (D := gset Z)), dom_gset_to_gmap.
  rewrite size_list_to_set by apply NoDup_seqZ.
  rewrite length_seqZ. apply Z2Nat.id. discriminate.
Qed.

Lemma C9_full_map_witness :
  getNewTimerId max_int full = Some (-1, full)
  /\ addFunc max_int day0 (At day0) (At day1) (hm 9 30) (hm 15 0) 1 (hm 1 0) 7%nat full
     = Throws Failed_to_get_new_id full.
Proof.
  pose proof (C9_full_map_add_throws max_int day0 full 7%nat
                ltac:(rewrite full_size; apply Z.ge_le_iff, Z.le_refl))
    as (Hid & _ & Hadd & _).
  split; [exact Hid|].
  apply Hadd. vm_compute. repeat split; congruence.
Defined.

(** C9 as stated fails.  With the map full, [addFunc] does not return to the
    caller at all, with a sentinel or otherwise: it throws. *)
Lemma C9_counterexample :
  Z.of_nat (size (m_timers full)) >= max_int
  /\ addFunc max_int day0 (At day0) (At day1) (hm 9 30) (hm 15 0) 1 (hm 1 0) 7%nat full
     = Throws Failed_to_get_new_id full
  /\ forall tm', addFunc max_int day0 (At day0) (At day1) (hm 9 30) (hm 15 0) 1
                   (hm 1 0) 7%nat full <> Done tm'.
Proof.
  assert (Hfull : Z.of_nat (size (m_timers full)) >= max_int)
    by (rewrite full_size; apply Z.ge_le_iff, Z.le_refl).
  assert (H : addFunc max_int day0 (At day0) (At day1) (hm 9 30) (hm 15 0) 1 (hm 1 0)
                7%nat full = Throws Failed_to_get_new_id full).
  { rewrite addFunc_passes by (vm_compute; repeat split; congruence).
    apply _addFunc_full. exact Hfull. }
  split; [exact Hfull|].
  split; [exact H|].
  intros tm'. rewrite H. discriminate.
Qed.

End TimerFacts.

(** ** Facts about the trading system *)

Module SysFacts.
Import Sys.

Section Facts.

Context {W : Type} `{Collaborators W}.

Implicit Types (s : System W) (today : KRecord.t) (from : Part) (d : Direction).

(** *** Tactics *)

Ltac split_ifs :=
  repeat (match goal with
          | |- context [if ?b then _ else _] => destruct b eqn:?
          | |- context [match ?e with (_, _) => _ end] => destruct e eqn:?
          end; cbn beta iota zeta).

Ltac unfold_ops :=
  unfold _buyDelay, _sellDelay, _sellShortDelay, _buyShortDelay,
    _buyNow, _sellNow, _buyShortNow, _sellShortNow,
    _submitBuyRequest, _submitSellRequest, _submitSellShortRequest, _submitBuyShortRequest,
    _buyNotifyAll, _sellNotifyAll.

(** *** [grows_by] *)

Lemma grows_by_same n s s' : m_trade_list s' = m_trade_list s -> grows_by n s s'.
Proof. intros E. exists []. rewrite E, app_nil_r. split; [reflexivity | simpl; lia]. Qed.

Lemma grows_by_one s s' r : m_trade_list s' = m_trade_list s ++ [r] -> grows_by 1 s s'.
Proof. intros E. exists [r]. split; [exact E | simpl; lia]. Qed.


Lemma grows_by_eq n s s1 s2 :
  m_trade_list s2 = m_trade_list s1 -> grows_by n s s1 -> grows_by n s s2.
Proof. intros E (l & E1 & L). exists l. rewrite E. auto. Qed.

Ltac solve_grows :=
  cbn;
  first [ apply grows_by_same; reflexivity
        | eapply grows_by_one; reflexivity ].

(** *** The parameters are never written *)

Lemma _buyDelay_params today s : m_params (fst (_buyDelay today s)) = m_params s.
Proof. unfold_ops. split_ifs; reflexivity. Qed.
Lemma _sellDelay_params today s : m_params (fst (_sellDelay today s)) = m_params s.
Proof. unfold_ops. split_ifs; reflexivity. Qed.
Lemma _sellShortDelay_params today s : m_params (fst (_sellShortDelay today s)) = m_params s.
Proof. unfold_ops. split_ifs; reflexivity. Qed.
Lemma _buyShortDelay_params today s : m_params (fst (_buyShortDelay today s)) = m_params s.
Proof. unfold_ops. split_ifs; reflexivity. Qed.

Lemma _processRequest_params today s : m_params (fst (_processRequest today s)) = m_params s.
Proof.
  unfold _processRequest.
  destruct (TradeRequest.valid (m_buyRequest s)); [apply _buyDelay_params|].
  destruct (TradeRequest.valid (m_sellRequest s)); [apply _sellDelay_params|].
  destruct (TradeRequest.valid (m_sellShortRequest s)); [apply _sellShortDelay_params|].
  destruct (TradeRequest.valid (m_buyShortRequest s)); [apply _buyShortDelay_params|].
  reflexivity.
Qed.

(** *** Delayed execution: one buffer, at most one trade *)

Lemma _buyDelay_grows today s : grows_by 1 s (fst (_buyDelay today s)).
Proof. unfold_ops. split_ifs; solve_grows. Qed.
Lemma _sellDelay_grows today s : grows_by 1 s (fst (_sellDelay today s)).
Proof. unfold_ops. split_ifs; solve_grows. Qed.
Lemma _sellShortDelay_grows today s : grows_by 1 s (fst (_sellShortDelay today s)).
Proof. unfold_ops. split_ifs; solve_grows. Qed.
Lemma _buyShortDelay_grows today s : grows_by 1 s (fst (_buyShortDelay today s)).
Proof. unfold_ops. split_ifs; solve_grows. Qed.

Lemma execute_delayed_grows d today s : grows_by 1 s (fst (execute_delayed d today s)).
Proof.
  destruct d; simpl;
    auto using _buyDelay_grows, _sellDelay_grows, _sellShortDelay_grows, _buyShortDelay_grows.
Qed.

Lemma execute_delayed_other_buffers d d' today s :
  d' <> d -> buffer d' (fst (execute_delayed d today s)) = buffer d' s.
Proof.
  intros Hne. destruct d, d'; try contradiction; simpl; unfold_ops; split_ifs; reflexivity.
Qed.

Lemma _processRequest_dispatch today s :
  _processRequest today s =
    match first_pending s with
    | Some d => execute_delayed d today s
    | None => (s, TradeRecord.null)
    end.
Proof.
  unfold _processRequest, first_pending, priority. simpl.
  destruct (TradeRequest.valid (m_buyRequest s)); [reflexivity|].
  destruct (TradeRequest.valid (m_sellRequest s)); [reflexivity|].
  destruct (TradeRequest.valid (m_sellShortRequest s)); [reflexivity|].
  destruct (TradeRequest.valid (m_buyShortRequest s)); reflexivity.
Qed.

Lemma first_pending_None s : first_pending s = None <-> haveDelayRequest s = false.
Proof.
  unfold first_pending, haveDelayRequest, priority. simpl.
  destruct (TradeRequest.valid (m_buyRequest s)), (TradeRequest.valid (m_sellRequest s)),
    (TradeRequest.valid (m_sellShortRequest s)), (TradeRequest.valid (m_buyShortRequest s));
    simpl; split; congruence.
Qed.

Lemma haveDelayRequest_false s :
  haveDelayRequest s = false <-> forall d, TradeRequest.valid (buffer d s) = false.
Proof.
  unfold haveDelayRequest. split.
  - intros Hn d.
    destruct (TradeRequest.valid (m_buyRequest s)) eqn:E1; [discriminate Hn|].
    destruct (TradeRequest.valid (m_sellRequest s)) eqn:E2; [discriminate Hn|].
    destruct (TradeRequest.valid (m_sellShortRequest s)) eqn:E3; [discriminate Hn|].
    destruct (TradeRequest.valid (m_buyShortRequest s)) eqn:E4; [discriminate Hn|].
    destruct d; assumption.
  - intros Hall.
    rewrite (Hall LongBuy : TradeRequest.valid (m_buyRequest s) = false),
      (Hall LongSell : TradeRequest.valid (m_sellRequest s) = false),
      (Hall ShortSell : TradeRequest.valid (m_sellShortRequest s) = false),
      (Hall ShortBuy : TradeRequest.valid (m_buyShortRequest s) = false).
    reflexivity.
Qed.

(** *** The decisions of a bar *)

Lemma same_core_refl s : same_core s s.
Proof. repeat split. Qed.

Ltac solve_same_core :=
  split; [reflexivity | split; [reflexivity | intros []; reflexivity]].

Lemma pick_null result : pick result TradeRecord.null = result.
Proof. reflexivity. Qed.

Lemma phase_of_decision result s0 s s' s'' tr :
  same_core s s0 -> decision_effect s s' tr -> same_core s'' s' ->
  phase_effect result s0 s'' (pick result tr).
Proof.
  intros (P0 & T0 & B0) (P & Hd & Hn) (P1 & T1 & B1).
  unfold phase_effect. rewrite <- P0.
  split; [congruence|]. split.
  - intros Hdelay. destruct (Hd Hdelay) as (E & ->). split; [congruence | apply pick_null].
  - intros Hdelay. destruct (Hn Hdelay) as ((l & E & L) & Hb). split.
    + exists l. split; [congruence | exact L].
    + intros d. rewrite B1, Hb, B0. reflexivity.
Qed.

Lemma phase_of_nothing result s0 s :
  same_core s s0 -> phase_effect result s0 s result.
Proof.
  intros (P0 & T0 & B0). unfold phase_effect.
  split; [exact P0|]. split; intros _.
  - split; [exact T0 | reflexivity].
  - split; [apply grows_by_same; exact T0 | exact B0].
Qed.

Lemma _buy_effect today from s :
  decision_effect s (fst (_buy today from s)) (snd (_buy today from s)).
Proof.
  unfold decision_effect, _buy.
  destruct (delay (m_params s)) eqn:Hdelay; cbn [fst snd].
  - split; [unfold_ops; split_ifs; reflexivity|].
    split; [intros _|discriminate].
    split; [unfold_ops; split_ifs; reflexivity | reflexivity].
  - split; [unfold_ops; split_ifs; reflexivity|].
    split; [discriminate|intros _].
    split; [unfold_ops; split_ifs; solve_grows|].
    intros d. destruct d; unfold_ops; split_ifs; reflexivity.
Qed.

Lemma _sell_effect today from s :
  decision_effect s (fst (_sell today from s)) (snd (_sell today from s)).
Proof.
  unfold decision_effect, _sell.
  destruct (delay (m_params s)) eqn:Hdelay; cbn [fst snd].
  - split; [unfold_ops; split_ifs; reflexivity|].
    split; [intros _|discriminate].
    split; [unfold_ops; split_ifs; reflexivity | reflexivity].
  - split; [unfold_ops; split_ifs; reflexivity|].
    split; [discriminate|intros _].
    split; [unfold_ops; split_ifs; solve_grows|].
    intros d. destruct d; unfold_ops; split_ifs; reflexivity.
Qed.

Lemma sell_if_held_effect today from s :
  decision_effect s (fst (sell_if_held today from s)) (snd (sell_if_held today from s)).
Proof.
  unfold sell_if_held. destruct (tm_have (m_world s)); [apply _sell_effect|].
  cbn [fst snd]. split; [reflexivity|].
  split; intros _; split; try reflexivity.
  apply grows_by_same; reflexivity.
Qed.

(** Turns an equation [f today from s = (s', tr)] into the effect of [f]. *)
Ltac effect_of lem Heq :=
  match type of Heq with
  | ?f ?today ?from ?s = (?s', ?tr) =>
      let E := fresh "E" in
      pose proof (lem today from s) as E; rewrite Heq in E; cbn [fst snd] in E
  end.

Lemma position_phase_effect today result s :
  phase_effect result s (fst (position_phase today result s))
    (snd (position_phase today result s)).
Proof.
  unfold position_phase.
  destruct (negb _); cbn [fst snd]; [|apply phase_of_nothing, same_core_refl].
  destruct (PrimFloat.leb _ _).
  { destruct (_sell today PART_STOPLOSS s) as [s' tr] eqn:Heq. effect_of _sell_effect Heq.
    cbn [fst snd]. eapply phase_of_decision; eauto using same_core_refl. }
  destruct (PrimFloat.leb _ _).
  { destruct (_sell today PART_PROFITGOAL s) as [s' tr] eqn:Heq. effect_of _sell_effect Heq.
    cbn [fst snd]. eapply phase_of_decision; eauto using same_core_refl. }
  destruct (negb _); [|apply phase_of_nothing, same_core_refl].
  destruct (PrimFloat.ltb _ _).
  - destruct (PrimFloat.leb _ _); [|apply phase_of_nothing, same_core_refl].
    destruct (_sell today PART_TAKEPROFIT s) as [s' tr] eqn:Heq. effect_of _sell_effect Heq.
    cbn [fst snd]. eapply phase_of_decision; eauto using same_core_refl.
  - destruct (PrimFloat.leb _ _); [|apply phase_of_nothing; solve_same_core].
    destruct (_sell today PART_TAKEPROFIT _) as [s' tr] eqn:Heq. effect_of _sell_effect Heq.
    cbn [fst snd]. eapply phase_of_decision; [|exact E|apply same_core_refl].
    solve_same_core.
Qed.

Lemma decision_phases_effect today result s :
  phase_effect result s (fst (decision_phases today result s))
    (snd (decision_phases today result s)).
Proof.
  unfold decision_phases. cbn zeta.
  destruct (negb (_environmentIsValid _ _)).
  { destruct (sell_if_held today PART_ENVIRONMENT s) as [s' tr] eqn:Heq.
    effect_of sell_if_held_effect Heq. cbn [fst snd].
    eapply phase_of_decision; [apply same_core_refl | exact E | solve_same_core]. }
  destruct (negb (m_pre_ev_valid s) && _).
  { destruct (_buy today PART_ENVIRONMENT s) as [s' tr] eqn:Heq.
    effect_of _buy_effect Heq. cbn [fst snd].
    eapply phase_of_decision; [apply same_core_refl | exact E | solve_same_core]. }
  destruct (negb (_conditionIsValid _ _)).
  { destruct (sell_if_held today PART_CONDITION _) as [s' tr] eqn:Heq.
    effect_of sell_if_held_effect Heq. cbn [fst snd].
    eapply phase_of_decision; [|exact E|]; solve_same_core. }
  destruct (negb (m_pre_cn_valid _) && _).
  { destruct (_buy today PART_CONDITION _) as [s' tr] eqn:Heq.
    effect_of _buy_effect Heq. cbn [fst snd].
    eapply phase_of_decision; [|exact E|]; solve_same_core. }
  destruct (sg_shouldBuy _ _).
  { destruct (_buy today PART_SIGNAL _) as [s' tr] eqn:Heq.
    effect_of _buy_effect Heq. cbn [fst snd].
    eapply phase_of_decision; [|exact E|]; solve_same_core. }
  destruct (sg_shouldSell _ _).
  { destruct (sell_if_held today PART_SIGNAL _) as [s' tr] eqn:Heq.
    effect_of sell_if_held_effect Heq. cbn [fst snd].
    eapply phase_of_decision; [|exact E|]; solve_same_core. }
  match goal with
  | |- context [position_phase today result ?s1] =>
      pose proof (position_phase_effect today result s1) as (P & Hd & Hn)
  end.
  split; [exact P|]. split; [exact Hd|exact Hn].
Qed.

(** *** The per-bar procedure *)

Lemma runMoment_tick today s : runMoment today s = _runMoment today (tick s).
Proof. reflexivity. Qed.

Lemma tick_same_core s : same_core (tick s) s.
Proof. unfold tick. solve_same_core. Qed.

Lemma gate_closed_tick today s : gate_closed today (tick s) = gate_closed today s.
Proof. reflexivity. Qed.

(** Once the gate of [_runMoment] is passed, the branches of [_buyDelay] and
    [_sellDelay] that submit the request again are not taken. *)
Lemma gate_open_never_resubmits today s :
  gate_closed today s = false ->
  (KRecord.highPrice today =? KRecord.lowPrice today)%float
  && negb (can_trade_when_high_eq_low (m_params s)) = false.
Proof.
  unfold gate_closed, degenerate.
  destruct (KRecord.highPrice today =? KRecord.lowPrice today)%float; simpl; auto.
Qed.

(** What that branch of [_buyDelay] would do: the request stays, its
    counter goes up by one. *)
Lemma _buyDelay_on_flat_bar today s :
  (KRecord.highPrice today =? KRecord.lowPrice today)%float = true ->
  can_trade_when_high_eq_low (m_params s) = false ->
  TradeRequest.valid (m_buyRequest s) = true ->
  TradeRequest.count (m_buyRequest s) <= max_delay_count (m_params s) ->
  TradeRequest.valid (m_buyRequest (fst (_buyDelay today s))) = true
  /\ TradeRequest.count (m_buyRequest (fst (_buyDelay today s)))
     = TradeRequest.count (m_buyRequest s) + 1.
Proof.
  intros Hflat Hcan Hvalid Hcount. unfold _buyDelay, _submitBuyRequest.
  rewrite Hflat, Hcan. cbn [negb andb fst]. rewrite Hvalid.
  destruct (Z.gtb_spec (TradeRequest.count (m_buyRequest s)) (max_delay_count (m_params s)));
    [lia|]. cbn. split; reflexivity.
Qed.

(** C1, as amended.  On a bar with [high == low], or with the close outside
    [low, high], when [can_trade_when_high_eq_low] is false, [runMoment]
    returns the empty record and trades nothing, and every delayed request
    stays as it is: it is neither executed nor cleared, and it is not
    submitted again (its counter is not changed).  Only the two day counters
    move. *)
Theorem C1_degenerate_bar_is_skipped today s :
  degenerate today = true ->
  can_trade_when_high_eq_low (m_params s) = false ->
  snd (runMoment today s) = TradeRecord.null
  /\ m_trade_list (fst (runMoment today s)) = m_trade_list s
  /\ m_world (fst (runMoment today s)) = m_world s
  /\ (forall d, buffer d (fst (runMoment today s)) = buffer d s)
  /\ fst (runMoment today s) = tick s.
Proof.
  intros Hdeg Hcan.
  assert (E : runMoment today s = (tick s, TradeRecord.null)).
  { rewrite runMoment_tick. unfold _runMoment. rewrite gate_closed_tick.
    unfold gate_closed. rewrite Hdeg, Hcan. reflexivity. }
  rewrite E. cbn [fst snd].
  split; [reflexivity|]. split; [reflexivity|]. split; [reflexivity|].
  split; [intros []; reflexivity | reflexivity].
Qed.

Lemma _processRequest_grows today s : grows_by 1 s (fst (_processRequest today s)).
Proof.
  rewrite _processRequest_dispatch. destruct (first_pending s).
  - apply execute_delayed_grows.
  - apply grows_by_same; reflexivity.
Qed.

Lemma _processRequest_other_buffers d today s :
  first_pending s <> Some d -> buffer d (fst (_processRequest today s)) = buffer d s.
Proof.
  intros Hne. rewrite _processRequest_dispatch. destruct (first_pending s) as [d'|].
  - apply execute_delayed_other_buffers. congruence.
  - reflexivity.
Qed.

(** While decisions are delayed, a bar returns what its delayed order
    returned and trades nothing else. *)
Lemma _runMoment_delayed today s :
  delay (m_params s) = true -> gate_closed today s = false ->
  snd (_runMoment today s) = snd (_processRequest today s)
  /\ m_trade_list (fst (_runMoment today s)) = m_trade_list (fst (_processRequest today s))
  /\ m_params (fst (_runMoment today s)) = m_params s.
Proof.
  intros Hdelay Hgate. unfold _runMoment. rewrite Hgate.
  pose proof (_processRequest_params today s) as Hp.
  destruct (_processRequest today s) as [s1 result]. cbn [fst snd] in *.
  destruct (decision_phases_effect today result s1) as (P & Hd & _).
  destruct Hd as (T & R); [congruence|].
  split; [exact R|]. split; [exact T | congruence].
Qed.

Lemma _runMoment_one_trade today s :
  requests_need_delay s ->
  grows_by 1 s (fst (_runMoment today s)) /\ requests_need_delay (fst (_runMoment today s)).
Proof.
  intros Hinv. unfold _runMoment.
  destruct (gate_closed today s); [split; [apply grows_by_same; reflexivity | exact Hinv]|].
  destruct (delay (m_params s)) eqn:Hdelay.
  - pose proof (_processRequest_params today s) as Hp.
    pose proof (_processRequest_grows today s) as Hg.
    destruct (_processRequest today s) as [s1 result]. cbn [fst snd] in *.
    destruct (decision_phases_effect today result s1) as (P & Hd & _).
    destruct Hd as (T & _); [congruence|]. split.
    + eapply grows_by_eq; eauto.
    + intros Hoff. congruence.
  - assert (Hnone : first_pending s = None) by (apply first_pending_None, Hinv, Hdelay).
    rewrite _processRequest_dispatch, Hnone.
    destruct (decision_phases_effect today TradeRecord.null s) as (P & _ & Hn).
    destruct (Hn Hdelay) as (Hg & Hb). split; [exact Hg|].
    intros _. apply haveDelayRequest_false. intros d. rewrite Hb.
    apply haveDelayRequest_false. exact (Hinv Hdelay).
Qed.

Lemma runMoment_one_trade today s :
  requests_need_delay s ->
  grows_by 1 s (fst (runMoment today s)) /\ requests_need_delay (fst (runMoment today s)).
Proof.
  intros Hinv. rewrite runMoment_tick.
  assert (Hinv' : requests_need_delay (tick s)) by exact Hinv.
  destruct (_runMoment_one_trade today (tick s) Hinv') as (Hg & Hi).
  split; [|exact Hi].
  destruct Hg as (l & E & L). exists l. split; [exact E | exact L].
Qed.

Lemma grows_by_length n s s' :
  grows_by n s s' -> (length (m_trade_list s') - length (m_trade_list s) <= n)%nat.
Proof. intros (l & -> & L). rewrite length_app. lia. Qed.

Lemma trades_per_bar_bound kdata s :
  requests_need_delay s -> Forall (fun n => (n <= 1)%nat) (trades_per_bar kdata s).
Proof.
  revert s. induction kdata as [|k rest IH]; intros s Hinv; cbn [trades_per_bar].
  - constructor.
  - destruct (tm_started (m_world s) (KRecord.datetime k)); [|apply IH, Hinv].
    destruct (runMoment_one_trade k s Hinv) as (Hg & Hi).
    constructor; [apply grows_by_length, Hg | apply IH, Hi].
Qed.

(** C2, as amended.  Delayed-order processing dispatches the first pending
    request in the order long-buy, long-sell, short-sell, short-buy, and only
    that one:
    it appends at most one trade and leaves the buffers of the other
    directions as they are.  No bar of a run produces more than one trade:
    this holds for the bars of a run of a new or a reset system, whatever its
    parameters, collaborators and bars, and more generally for a bar
    processed in any state where requests are pending only while decisions
    are delayed ([requests_need_delay]), a property that every bar keeps. *)
Theorem C2_one_delayed_order_and_one_trade_per_bar today s :
  _processRequest today s =
    match first_pending s with
    | Some d => execute_delayed d today s
    | None => (s, TradeRecord.null)
    end
  /\ grows_by 1 s (fst (_processRequest today s))
  /\ (forall d, first_pending s <> Some d -> buffer d (fst (_processRequest today s)) = buffer d s)
  /\ (forall kdata p w,
      Forall (fun n => (n <= 1)%nat) (trades_per_bar kdata (setParams p (System_new w))))
  /\ (forall kdata with_tm with_ev,
      Forall (fun n => (n <= 1)%nat) (trades_per_bar kdata (reset with_tm with_ev s)))
  /\ (requests_need_delay s ->
      grows_by 1 s (fst (runMoment today s))
      /\ requests_need_delay (fst (runMoment today s))).
Proof.
  split; [apply _processRequest_dispatch|].
  split; [apply _processRequest_grows|].
  split; [intros d; apply _processRequest_other_buffers|].
  split; [intros kdata p w; apply trades_per_bar_bound; intros _; reflexivity|].
  split; [intros kdata a b; apply trades_per_bar_bound; intros _; reflexivity|].
  apply runMoment_one_trade.
Qed.

(** *** The invariant of the buffers *)

Lemma requests_need_delay_core s s' :
  same_core s' s -> requests_need_delay s -> requests_need_delay s'.
Proof.
  intros (P & _ & B) Hinv Hoff. rewrite P in Hoff.
  apply haveDelayRequest_false. intros d. rewrite B.
  apply haveDelayRequest_false, Hinv, Hoff.
Qed.

Lemma requests_need_delay_decision s s' tr :
  decision_effect s s' tr -> requests_need_delay s -> requests_need_delay s'.
Proof.
  intros (P & _ & Hn) Hinv Hoff. rewrite P in Hoff.
  destruct (Hn Hoff) as (_ & B).
  apply haveDelayRequest_false. intros d. rewrite B.
  apply haveDelayRequest_false, Hinv, Hoff.
Qed.

Lemma _buyShort_keeps_invariant today from s :
  requests_need_delay s -> requests_need_delay (fst (_buyShort today from s)).
Proof.
  intros Hinv. unfold _buyShort.
  destruct (negb (support_borrow_stock (m_params s))); [exact Hinv|].
  destruct (delay (m_params s)) eqn:Hdelay.
  - intros Hoff. exfalso. revert Hoff. cbn [fst].
    unfold_ops. split_ifs; cbn; congruence.
  - pose proof (proj1 (haveDelayRequest_false s) (Hinv Hdelay)) as Hall.
    intros _. apply haveDelayRequest_false. intros d.
    pose proof (Hall d) as Hd.
    destruct d; cbn [buffer] in *; unfold_ops; split_ifs; cbn; auto.
Qed.

(** Every reachable state keeps requests only while decisions are delayed. *)
Lemma reachable_requests_need_delay s : reachable s -> requests_need_delay s.
Proof.
  induction 1 as [w p|s a b _ _|s _ _|s w _ IH|s today _ IH|s today from _ IH
                  |s today from _ IH|s today from _ IH].
  - intros _. reflexivity.
  - intros _. reflexivity.
  - intros _. reflexivity.
  - eapply requests_need_delay_core; [|exact IH]. solve_same_core.
  - rewrite runMoment_tick. apply _runMoment_one_trade.
    eapply requests_need_delay_core; [apply tick_same_core | exact IH].
  - eapply requests_need_delay_decision; [apply _buy_effect | exact IH].
  - eapply requests_need_delay_decision; [apply _sell_effect | exact IH].
  - apply _buyShort_keeps_invariant, IH.
Qed.


(** *** Submission, direction by direction *)

(** A pending request whose counter exceeds [max_delay_count] is cleared by
    the next submission of its direction, for three of the four directions. *)
Lemma _submitBuyRequest_overdue today from s :
  TradeRequest.valid (m_buyRequest s) = true ->
  TradeRequest.count (m_buyRequest s) > max_delay_count (m_params s) ->
  _submitBuyRequest today from s = set_buyRequest TradeRequest.cleared s.
Proof.
  intros Hv Hc. unfold _submitBuyRequest. rewrite Hv.
  destruct (Z.gtb_spec (TradeRequest.count (m_buyRequest s)) (max_delay_count (m_params s)));
    [reflexivity | lia].
Qed.

Lemma _submitSellRequest_overdue today from s :
  TradeRequest.valid (m_sellRequest s) = true ->
  TradeRequest.count (m_sellRequest s) > max_delay_count (m_params s) ->
  _submitSellRequest today from s = set_sellRequest TradeRequest.cleared s.
Proof.
  intros Hv Hc. unfold _submitSellRequest. rewrite Hv.
  destruct (Z.gtb_spec (TradeRequest.count (m_sellRequest s)) (max_delay_count (m_params s)));
    [reflexivity | lia].
Qed.

Lemma _submitSellShortRequest_overdue today from s :
  TradeRequest.valid (m_sellShortRequest s) = true ->
  TradeRequest.count (m_sellShortRequest s) > max_delay_count (m_params s) ->
  _submitSellShortRequest today from s = set_sellShortRequest TradeRequest.cleared s.
Proof.
  intros Hv Hc. unfold _submitSellShortRequest. rewrite Hv.
  destruct (Z.gtb_spec (TradeRequest.count (m_sellShortRequest s))
              (max_delay_count (m_params s))); [reflexivity | lia].
Qed.

(** For the short-buy direction the submission clears the long-buy buffer
    instead, and the overdue short-buy request stays. *)
Lemma _submitBuyShortRequest_overdue today from s :
  TradeRequest.valid (m_buyShortRequest s) = true ->
  TradeRequest.count (m_buyShortRequest s) > max_delay_count (m_params s) ->
  _submitBuyShortRequest today from s = set_buyRequest TradeRequest.cleared s.
Proof.
  intros Hv Hc. unfold _submitBuyShortRequest. rewrite Hv.
  destruct (Z.gtb_spec (TradeRequest.count (m_buyShortRequest s))
              (max_delay_count (m_params s))); [reflexivity | lia].
Qed.

(** A submission touches the buffer of its direction only, unless it is the
    overdue short-buy case above; a pending request that is not overdue is
    updated in place, its counter one higher. *)
Lemma _submitBuyRequest_pending today from s :
  TradeRequest.valid (m_buyRequest s) = true ->
  TradeRequest.count (m_buyRequest s) <= max_delay_count (m_params s) ->
  let s' := _submitBuyRequest today from s in
  TradeRequest.valid (m_buyRequest s') = true
  /\ TradeRequest.count (m_buyRequest s') = TradeRequest.count (m_buyRequest s) + 1
  /\ forall d, d <> LongBuy -> buffer d s' = buffer d s.
Proof.
  intros Hv Hc. unfold _submitBuyRequest. rewrite Hv.
  destruct (Z.gtb_spec (TradeRequest.count (m_buyRequest s)) (max_delay_count (m_params s)));
    [lia|]. cbn.
  split; [reflexivity|]. split; [reflexivity|]. intros [] Hd; first [congruence | reflexivity].
Qed.

Lemma _submitBuyShortRequest_pending today from s :
  TradeRequest.valid (m_buyShortRequest s) = true ->
  TradeRequest.count (m_buyShortRequest s) <= max_delay_count (m_params s) ->
  let s' := _submitBuyShortRequest today from s in
  TradeRequest.valid (m_buyShortRequest s') = true
  /\ TradeRequest.count (m_buyShortRequest s') = TradeRequest.count (m_buyShortRequest s) + 1
  /\ forall d, d <> ShortBuy -> buffer d s' = buffer d s.
Proof.
  intros Hv Hc. unfold _submitBuyShortRequest. rewrite Hv.
  destruct (Z.gtb_spec (TradeRequest.count (m_buyShortRequest s))
              (max_delay_count (m_params s))); [lia|]. cbn.
  split; [reflexivity|]. split; [reflexivity|]. intros [] Hd; first [congruence | reflexivity].
Qed.

(** *** The seed of the trailing take profit *)

Lemma null_is_not_a_buy : TradeRecord.business TradeRecord.null <> BUSINESS_BUY.
Proof. discriminate. Qed.

Lemma _buyDelay_seed today s s' record :
  TradeRecord.business record = BUSINESS_BUY ->
  _buyDelay today s = (s', record) ->
  m_lastTakeProfit s'
  = _getRealBuyPrice (m_world s) (KRecord.datetime today) (KRecord.openPrice today)
  /\ m_trade_list s' = m_trade_list s ++ [record]
  /\ m_buyRequest s' = TradeRequest.cleared.
Proof.
  intros Hbuy. unfold _buyDelay, _buyNotifyAll.
  split_ifs; intros [= <- <-]; try (exfalso; exact (null_is_not_a_buy Hbuy));
    cbn; repeat split.
Qed.

Lemma _buyNow_seed today from s s' record :
  TradeRecord.business record = BUSINESS_BUY ->
  _buyNow today from s = (s', record) ->
  exists w' number,
    tm_buy (m_world s) (KRecord.datetime today)
      (_getRealBuyPrice (m_world s) (KRecord.datetime today) (KRecord.closePrice today))
      number
      (_getStoplossPrice (m_world s) (KRecord.datetime today) (KRecord.closePrice today))
      (_getGoalPrice (m_world s) (KRecord.datetime today) (KRecord.closePrice today))
      (KRecord.closePrice today) from = (w', record)
    /\ m_lastTakeProfit s' = _getTakeProfitPrice w' (TradeRecord.datetime record)
    /\ m_trade_list s' = m_trade_list s ++ [record].
Proof.
  intros Hbuy. unfold _buyNow, _buyNotifyAll.
  split_ifs; intros [= <- <-]; try (exfalso; exact (null_is_not_a_buy Hbuy));
    cbn; eexists; eexists; (split; [eassumption|]); split; reflexivity.
Qed.

(** C4, as amended.  After a successful long entry executed as a delayed
    order ([_buyDelay]), [m_lastTakeProfit] is the [realPrice] of the trade.
    After a successful long entry executed on the decision bar ([_buyNow]),
    it is the price of the take-profit part at the datetime of the record,
    asked once the trade manager has bought: [_getTakeProfitPrice]. *)
Theorem C4_take_profit_seed_after_entry today from s s' record :
  TradeRecord.business record = BUSINESS_BUY ->
  (_buyDelay today s = (s', record) ->
   m_lastTakeProfit s'
   = _getRealBuyPrice (m_world s) (KRecord.datetime today) (KRecord.openPrice today))
  /\ (_buyNow today from s = (s', record) ->
      exists w' number,
        tm_buy (m_world s) (KRecord.datetime today)
          (_getRealBuyPrice (m_world s) (KRecord.datetime today) (KRecord.closePrice today))
          number
          (_getStoplossPrice (m_world s) (KRecord.datetime today) (KRecord.closePrice today))
          (_getGoalPrice (m_world s) (KRecord.datetime today) (KRecord.closePrice today))
          (KRecord.closePrice today) from = (w', record)
        /\ m_lastTakeProfit s' = _getTakeProfitPrice w' (TradeRecord.datetime record)).
Proof.
  intros Hbuy. split.
  - intros Heq. apply (_buyDelay_seed today s s' record Hbuy Heq).
  - intros Heq. destruct (_buyNow_seed today from s s' record Hbuy Heq)
      as (w' & number & Htm & Hseed & _).
    exists w', number. split; assumption.
Qed.

(** *** What a delayed execution returns *)

Lemma _buyShortDelay_returns_null today s : snd (_buyShortDelay today s) = TradeRecord.null.
Proof. unfold _buyShortDelay, _buyNotifyAll. split_ifs; reflexivity. Qed.

(** What [_buyShortDelay] and [_buyDelay] do when they execute, and when
    they do not. *)
Lemma _buyShortDelay_executes today s :
  cover_executes today s = true ->
  TradeRecord.business (snd (cover_fill today s)) = BUSINESS_BUY_SHORT
  /\ m_trade_list (fst (_buyShortDelay today s)) = m_trade_list s ++ [snd (cover_fill today s)]
  /\ m_buyShortRequest (fst (_buyShortDelay today s)) = TradeRequest.cleared.
Proof.
  unfold cover_executes. intros Hex.
  apply andb_true_iff in Hex as [Hex Hb]. apply andb_true_iff in Hex as [Hex Hp].
  apply andb_true_iff in Hex as [Hf Hn].
  apply negb_true_iff in Hf, Hn, Hp. apply bool_decide_eq_true in Hb.
  split; [symmetry; exact Hb|].
  revert Hn Hb. unfold _buyShortDelay, cover_fill. rewrite Hf.
  cbn zeta. fold (cover_terms today s).
  destruct (cover_terms today s) as [[stoploss number] goalPrice]. cbn [fst snd].
  intros Hn. rewrite Hn, Hp.
  destruct (tm_buyShort _ _ _ _ _ _ _ _) as [w' record]. cbn [snd].
  intros Hb. rewrite (bool_decide_eq_true_2 _ Hb). cbn [negb].
  unfold _buyNotifyAll. cbn. repeat split.
Qed.

Lemma _buyShortDelay_fails today s :
  cover_executes today s = false ->
  m_trade_list (fst (_buyShortDelay today s)) = m_trade_list s.
Proof.
  unfold cover_executes, _buyShortDelay, cover_fill. cbn zeta.
  fold (cover_terms today s).
  destruct (KRecord.highPrice today =? KRecord.lowPrice today)%float; [reflexivity|].
  destruct (cover_terms today s) as [[stoploss number] goalPrice]. cbn [fst snd negb andb].
  destruct (number =? 0)%float; [reflexivity|].
  destruct (PositionRecord.number _ =? 0)%float; [reflexivity|].
  cbn [negb andb].
  destruct (tm_buyShort _ _ _ _ _ _ _ _) as [w' record]. cbn [snd].
  intros Hb. rewrite Hb. reflexivity.
Qed.

Lemma _buyDelay_executes today s :
  entry_executes today s = true ->
  TradeRecord.business (snd (entry_fill today s)) = BUSINESS_BUY
  /\ m_trade_list (fst (_buyDelay today s)) = m_trade_list s ++ [snd (entry_fill today s)]
  /\ m_buyRequest (fst (_buyDelay today s)) = TradeRequest.cleared
  /\ snd (_buyDelay today s) = snd (entry_fill today s).
Proof.
  unfold entry_executes. intros Hex.
  apply andb_true_iff in Hex as [Hex Hb]. apply andb_true_iff in Hex as [Hf Hn].
  apply negb_true_iff in Hf, Hn. apply bool_decide_eq_true in Hb.
  split; [symmetry; exact Hb|].
  revert Hn Hb. unfold _buyDelay, entry_fill. rewrite Hf.
  cbn zeta. fold (entry_terms today s).
  destruct (entry_terms today s) as [[stoploss number] goalPrice]. cbn [fst snd].
  intros Hn. rewrite Hn.
  destruct (tm_buy _ _ _ _ _ _ _ _) as [w' record]. cbn [snd].
  intros Hb. rewrite (bool_decide_eq_true_2 _ Hb). cbn [negb].
  unfold _buyNotifyAll. cbn. repeat split.
Qed.

Lemma _buyDelay_fails today s :
  entry_executes today s = false ->
  m_trade_list (fst (_buyDelay today s)) = m_trade_list s
  /\ snd (_buyDelay today s) = TradeRecord.null.
Proof.
  unfold entry_executes, _buyDelay, entry_fill. cbn zeta.
  fold (entry_terms today s).
  destruct ((KRecord.highPrice today =? KRecord.lowPrice today)%float && _).
  { intros _. split; [|reflexivity]. cbn [fst]. unfold _submitBuyRequest.
    split_ifs; reflexivity. }
  destruct (entry_terms today s) as [[stoploss number] goalPrice]. cbn [fst snd negb andb].
  destruct ((_ <=? _)%float || _); [intros _; split; reflexivity|].
  cbn [negb andb].
  destruct (tm_buy _ _ _ _ _ _ _ _) as [w' record]. cbn [snd].
  intros Hb. rewrite Hb. cbn [negb]. split; reflexivity.
Qed.

(** A delayed execution of one of the three other directions trades nothing
    and returns the empty record, or appends the record it returns. *)
Lemma execute_delayed_returns d today s :
  d <> ShortBuy ->
  (m_trade_list (fst (execute_delayed d today s)) = m_trade_list s
   /\ snd (execute_delayed d today s) = TradeRecord.null)
  \/ (m_trade_list (fst (execute_delayed d today s))
      = m_trade_list s ++ [snd (execute_delayed d today s)]
      /\ TradeRecord.business (snd (execute_delayed d today s)) = Direction_business d
      /\ buffer d (fst (execute_delayed d today s)) = TradeRequest.cleared).
Proof.
  intros Hd. destruct d; try contradiction; cbn [execute_delayed buffer Direction_business];
    unfold_ops; split_ifs; cbn; auto.
  all: right; split; [reflexivity|]; split; [|reflexivity].
  all: match goal with
       | Hb : negb (bool_decide (_ = TradeRecord.business ?r)) = false |- _ =>
           apply negb_false_iff, bool_decide_eq_true in Hb; symmetry; exact Hb
       end.
Qed.

(** C10, as amended.  A delayed short-buy (cover) request executes when the
    bar has [high <> low], there is a quantity to cover and a short position,
    and the trade manager answers with a short-buy record
    ([cover_executes]).  Then [_buyShortDelay] appends that record, the one
    the trade manager returned, to [m_trade_list] and clears the buffer;
    otherwise it leaves the trade list as it is.  In both cases it returns the
    empty record, and so does [_processRequest] when that request is the one
    dispatched.  [runMoment] returns the empty record for that bar, and
    appends that record and no other, while decisions are delayed ([delay] is
    true).  The delayed long-buy returns the record it appends, the one the
    trade manager returned, and so do the delayed long-sell and short-sell
    when they trade. *)
Theorem C10_delayed_cover_returns_empty today s :
  (if cover_executes today s then
     TradeRecord.business (snd (cover_fill today s)) = BUSINESS_BUY_SHORT
     /\ m_trade_list (fst (_buyShortDelay today s))
        = m_trade_list s ++ [snd (cover_fill today s)]
     /\ m_buyShortRequest (fst (_buyShortDelay today s)) = TradeRequest.cleared
   else m_trade_list (fst (_buyShortDelay today s)) = m_trade_list s)
  /\ snd (_buyShortDelay today s) = TradeRecord.null
  /\ (first_pending s = Some ShortBuy ->
      _processRequest today s = _buyShortDelay today s
      /\ snd (_processRequest today s) = TradeRecord.null
      /\ (delay (m_params s) = true ->
          snd (runMoment today s) = TradeRecord.null
          /\ m_trade_list (fst (runMoment today s))
             = if negb (gate_closed today s) && cover_executes today s
               then m_trade_list s ++ [snd (cover_fill today s)]
               else m_trade_list s))
  /\ (if entry_executes today s then
        TradeRecord.business (snd (entry_fill today s)) = BUSINESS_BUY
        /\ m_trade_list (fst (_buyDelay today s)) = m_trade_list s ++ [snd (entry_fill today s)]
        /\ m_buyRequest (fst (_buyDelay today s)) = TradeRequest.cleared
        /\ snd (_buyDelay today s) = snd (entry_fill today s)
      else
        m_trade_list (fst (_buyDelay today s)) = m_trade_list s
        /\ snd (_buyDelay today s) = TradeRecord.null)
  /\ (forall d,
      d <> ShortBuy ->
      (m_trade_list (fst (execute_delayed d today s)) = m_trade_list s
       /\ snd (execute_delayed d today s) = TradeRecord.null)
      \/ (m_trade_list (fst (execute_delayed d today s))
          = m_trade_list s ++ [snd (execute_delayed d today s)]
          /\ TradeRecord.business (snd (execute_delayed d today s)) = Direction_business d
          /\ buffer d (fst (execute_delayed d today s)) = TradeRequest.cleared)).
Proof.
  split.
  { destruct (cover_executes today s) eqn:Hex;
      [apply _buyShortDelay_executes | apply _buyShortDelay_fails]; exact Hex. }
  split; [apply _buyShortDelay_returns_null|].
  split.
  - intros Hfirst.
    assert (Hp : _processRequest today s = _buyShortDelay today s)
      by (rewrite _processRequest_dispatch, Hfirst; reflexivity).
    split; [exact Hp|].
    split; [rewrite Hp; apply _buyShortDelay_returns_null|].
    intros Hdelay.
    assert (Hfirst' : first_pending (tick s) = Some ShortBuy) by exact Hfirst.
    rewrite runMoment_tick.
    destruct (gate_closed today s) eqn:Hgate; cbn [negb andb].
    + unfold _runMoment. rewrite gate_closed_tick, Hgate. split; reflexivity.
    + destruct (_runMoment_delayed today (tick s) Hdelay Hgate) as (R & T & _).
      rewrite R, T, _processRequest_dispatch, Hfirst'. cbn [execute_delayed].
      split; [apply _buyShortDelay_returns_null|].
      change (cover_executes today s) with (cover_executes today (tick s)).
      change (cover_fill today s) with (cover_fill today (tick s)).
      change (m_trade_list s) with (m_trade_list (tick s)).
      destruct (cover_executes today (tick s)) eqn:Hex.
      * apply _buyShortDelay_executes, Hex.
      * apply _buyShortDelay_fails, Hex.
  - split.
    + destruct (entry_executes today s) eqn:Hex;
        [apply _buyDelay_executes | apply _buyDelay_fails]; exact Hex.
    + intros d Hd. apply execute_delayed_returns, Hd.
Qed.

(** *** The sell signal *)

(** When a bar comes to the signal phase with no buy signal, a sell signal
    and the stock held, [_sell] is called with [PART_SIGNAL]: no parameter is
    asked, [ignore_sell_sg] included. *)
Lemma sell_signal_is_followed today result s :
  let dt := KRecord.datetime today in
  let s1 := set_pre_cn_valid true (set_pre_ev_valid true s) in
  _environmentIsValid (m_world s) dt = true ->
  negb (m_pre_ev_valid s) && ev_open_position (m_params s) = false ->
  _conditionIsValid (m_world s) dt = true ->
  negb (m_pre_cn_valid s) && cn_open_position (m_params s) = false ->
  sg_shouldBuy (m_world s) dt = false ->
  sg_shouldSell (m_world s) dt = true ->
  tm_have (m_world s) = true ->
  decision_phases today result s
  = (fst (_sell today PART_SIGNAL s1), pick result (snd (_sell today PART_SIGNAL s1))).
Proof.
  intros dt s1 Hev Hevo Hcn Hcno Hbuy Hsell Hhave.
  unfold decision_phases. cbn zeta. fold dt.
  rewrite Hev, Hevo. cbn [negb m_world set_pre_ev_valid m_pre_cn_valid m_params].
  rewrite Hcn, Hcno. cbn [negb m_world set_pre_ev_valid set_pre_cn_valid].
  rewrite Hbuy, Hsell. unfold sell_if_held. cbn [m_world set_pre_cn_valid set_pre_ev_valid].
  rewrite Hhave. fold s1. destruct (_sell today PART_SIGNAL s1); reflexivity.
Qed.

(** While decisions are delayed that call submits a long-sell request tagged
    [PART_SIGNAL]. *)
Lemma delayed_sell_signal_request today s :
  delay (m_params s) = true ->
  TradeRequest.valid (m_sellRequest s) = false ->
  let s' := fst (_sell today PART_SIGNAL s) in
  TradeRequest.valid (m_sellRequest s') = true
  /\ TradeRequest.from (m_sellRequest s') = PART_SIGNAL
  /\ TradeRequest.count (m_sellRequest s') = 1.
Proof.
  intros Hdelay Hv. unfold _sell, _submitSellRequest. rewrite Hdelay, Hv.
  cbn. repeat split.
Qed.

(** *** A parameter that is never read *)

#[local] Arguments set_world {W} w s /.
#[local] Arguments set_buy_days {W} n s /.
#[local] Arguments set_sell_short_days {W} n s /.
#[local] Arguments set_trade_list {W} l s /.
#[local] Arguments set_lastTakeProfit {W} p s /.
#[local] Arguments set_lastShortTakeProfit {W} p s /.
#[local] Arguments set_buyRequest {W} r s /.
#[local] Arguments set_sellRequest {W} r s /.
#[local] Arguments set_sellShortRequest {W} r s /.
#[local] Arguments set_buyShortRequest {W} r s /.
#[local] Arguments set_pre_ev_valid {W} b s /.
#[local] Arguments set_pre_cn_valid {W} b s /.

(** Reads through the setters, and reads [s] in place of
    [with_ignore_sell_sg b s] wherever another field is projected. *)
Ltac read_through b s :=
  cbn [fst snd m_world m_params m_pre_ev_valid m_pre_cn_valid m_buy_days m_sell_short_days
       m_trade_list m_lastTakeProfit m_lastShortTakeProfit m_buyRequest m_sellRequest
       m_sellShortRequest m_buyShortRequest
       set_world set_buy_days set_sell_short_days set_trade_list set_lastTakeProfit
       set_lastShortTakeProfit set_buyRequest set_sellRequest set_sellShortRequest
       set_buyShortRequest set_pre_ev_valid set_pre_cn_valid];
  change (m_world (with_ignore_sell_sg b s)) with (m_world s);
  change (m_trade_list (with_ignore_sell_sg b s)) with (m_trade_list s);
  change (m_lastTakeProfit (with_ignore_sell_sg b s)) with (m_lastTakeProfit s);
  change (m_buyRequest (with_ignore_sell_sg b s)) with (m_buyRequest s);
  change (m_sellRequest (with_ignore_sell_sg b s)) with (m_sellRequest s);
  change (m_sellShortRequest (with_ignore_sell_sg b s)) with (m_sellShortRequest s);
  change (m_buyShortRequest (with_ignore_sell_sg b s)) with (m_buyShortRequest s);
  change (max_delay_count (m_params (with_ignore_sell_sg b s)))
    with (max_delay_count (m_params s));
  change (delay (m_params (with_ignore_sell_sg b s))) with (delay (m_params s));
  change (delay_use_current_price (m_params (with_ignore_sell_sg b s)))
    with (delay_use_current_price (m_params s));
  change (can_trade_when_high_eq_low (m_params (with_ignore_sell_sg b s)))
    with (can_trade_when_high_eq_low (m_params s)).

(** Case analysis on a test that contains no other test. *)
Ltac split_innermost :=
  match goal with
  | |- context [if ?c then _ else _] =>
      lazymatch c with
      | context [if _ then _ else _] => fail
      | context [match _ with (_, _) => _ end] => fail
      | _ => destruct c eqn:?
      end
  | |- context [match ?e with (_, _) => _ end] =>
      lazymatch e with
      | context [if _ then _ else _] => fail
      | context [match _ with (_, _) => _ end] => fail
      | _ => destruct e eqn:?
      end
  end.

Ltac ignore_leaf b s :=
  unfold_ops; cbn zeta; read_through b s;
  repeat (split_innermost; cbn beta iota zeta; read_through b s);
  reflexivity.

Lemma _buyDelay_ignore b today s :
  _buyDelay today (with_ignore_sell_sg b s) = lift_ignore b (_buyDelay today s).
Proof. ignore_leaf b s. Qed.
Lemma _sellDelay_ignore b today s :
  _sellDelay today (with_ignore_sell_sg b s) = lift_ignore b (_sellDelay today s).
Proof. ignore_leaf b s. Qed.
Lemma _sellShortDelay_ignore b today s :
  _sellShortDelay today (with_ignore_sell_sg b s) = lift_ignore b (_sellShortDelay today s).
Proof. ignore_leaf b s. Qed.
Lemma _buyShortDelay_ignore b today s :
  _buyShortDelay today (with_ignore_sell_sg b s) = lift_ignore b (_buyShortDelay today s).
Proof. ignore_leaf b s. Qed.
Lemma _buy_ignore b today from s :
  _buy today from (with_ignore_sell_sg b s) = lift_ignore b (_buy today from s).
Proof. unfold _buy. ignore_leaf b s. Qed.
Lemma _sell_ignore b today from s :
  _sell today from (with_ignore_sell_sg b s) = lift_ignore b (_sell today from s).
Proof. unfold _sell. ignore_leaf b s. Qed.

Lemma sell_if_held_ignore b today from s :
  sell_if_held today from (with_ignore_sell_sg b s)
  = lift_ignore b (sell_if_held today from s).
Proof.
  unfold sell_if_held.
  change (m_world (with_ignore_sell_sg b s)) with (m_world s).
  destruct (tm_have (m_world s)); [apply _sell_ignore | reflexivity].
Qed.

Lemma _processRequest_ignore b today s :
  _processRequest today (with_ignore_sell_sg b s) = lift_ignore b (_processRequest today s).
Proof.
  unfold _processRequest.
  change (m_buyRequest (with_ignore_sell_sg b s)) with (m_buyRequest s).
  change (m_sellRequest (with_ignore_sell_sg b s)) with (m_sellRequest s).
  change (m_sellShortRequest (with_ignore_sell_sg b s)) with (m_sellShortRequest s).
  change (m_buyShortRequest (with_ignore_sell_sg b s)) with (m_buyShortRequest s).
  destruct (TradeRequest.valid (m_buyRequest s)); [apply _buyDelay_ignore|].
  destruct (TradeRequest.valid (m_sellRequest s)); [apply _sellDelay_ignore|].
  destruct (TradeRequest.valid (m_sellShortRequest s)); [apply _sellShortDelay_ignore|].
  destruct (TradeRequest.valid (m_buyShortRequest s)); [apply _buyShortDelay_ignore|].
  reflexivity.
Qed.

(** Rewrites [f today from (with_ignore_sell_sg b s)] by [lem], whatever
    setters stand between [with_ignore_sell_sg] and [f]. *)
Ltac push_ignore f lem b :=
  match goal with
  | |- context [f ?today ?from ?x] =>
      lazymatch x with
      | context [with_ignore_sell_sg b ?s0] =>
          let y := eval pattern (with_ignore_sell_sg b s0) in x in
          lazymatch y with
          | ?g _ =>
              let x' := eval cbv beta in (g s0) in
              change (f today from x) with (f today from (with_ignore_sell_sg b x'));
              rewrite (lem b today from x')
          end
      end
  end.

Lemma position_phase_ignore b today result s :
  position_phase today result (with_ignore_sell_sg b s)
  = lift_ignore b (position_phase today result s).
Proof.
  unfold position_phase.
  change (m_world (with_ignore_sell_sg b s)) with (m_world s).
  change (m_lastTakeProfit (with_ignore_sell_sg b s)) with (m_lastTakeProfit s).
  cbn zeta.
  destruct (negb _); [|reflexivity].
  destruct (PrimFloat.leb _ _).
  { rewrite _sell_ignore. destruct (_sell today PART_STOPLOSS s); reflexivity. }
  destruct (PrimFloat.leb _ _).
  { rewrite _sell_ignore. destruct (_sell today PART_PROFITGOAL s); reflexivity. }
  destruct (negb _); [|reflexivity].
  destruct (PrimFloat.ltb _ _).
  - destruct (PrimFloat.leb _ _); [|reflexivity].
    rewrite _sell_ignore. destruct (_sell today PART_TAKEPROFIT s); reflexivity.
  - destruct (PrimFloat.leb _ _); [|reflexivity].
    push_ignore (@_sell W H) _sell_ignore b.
    destruct (_sell today PART_TAKEPROFIT _); reflexivity.
Qed.

Lemma decision_phases_ignore b today result s :
  decision_phases today result (with_ignore_sell_sg b s)
  = lift_ignore b (decision_phases today result s).
Proof.
  unfold decision_phases. cbn zeta.
  change (m_world (with_ignore_sell_sg b s)) with (m_world s).
  change (m_pre_ev_valid (with_ignore_sell_sg b s)) with (m_pre_ev_valid s).
  change (ev_open_position (m_params (with_ignore_sell_sg b s)))
    with (ev_open_position (m_params s)).
  destruct (negb (_environmentIsValid _ _)).
  { rewrite sell_if_held_ignore.
    destruct (sell_if_held today PART_ENVIRONMENT s); reflexivity. }
  destruct (negb (m_pre_ev_valid s) && _).
  { rewrite _buy_ignore. destruct (_buy today PART_ENVIRONMENT s); reflexivity. }
  change (m_world (set_pre_ev_valid ?v (with_ignore_sell_sg b s)))
    with (m_world (set_pre_ev_valid v s)).
  change (m_pre_cn_valid (set_pre_ev_valid ?v (with_ignore_sell_sg b s)))
    with (m_pre_cn_valid (set_pre_ev_valid v s)).
  change (cn_open_position (m_params (set_pre_ev_valid ?v (with_ignore_sell_sg b s))))
    with (cn_open_position (m_params (set_pre_ev_valid v s))).
  destruct (negb (_conditionIsValid _ _)).
  { push_ignore (@sell_if_held W H) sell_if_held_ignore b.
    destruct (sell_if_held today PART_CONDITION _); reflexivity. }
  destruct (negb (m_pre_cn_valid _) && _).
  { push_ignore (@_buy W H) _buy_ignore b.
    destruct (_buy today PART_CONDITION _); reflexivity. }
  change (m_world (set_pre_cn_valid ?u (set_pre_ev_valid ?v (with_ignore_sell_sg b s))))
    with (m_world (set_pre_cn_valid u (set_pre_ev_valid v s))).
  destruct (sg_shouldBuy _ _).
  { push_ignore (@_buy W H) _buy_ignore b.
    destruct (_buy today PART_SIGNAL _); reflexivity. }
  destruct (sg_shouldSell _ _).
  { push_ignore (@sell_if_held W H) sell_if_held_ignore b.
    destruct (sell_if_held today PART_SIGNAL _); reflexivity. }
  match goal with
  | |- position_phase today result
         (set_pre_cn_valid ?u (set_pre_ev_valid ?v (with_ignore_sell_sg b s))) = _ =>
      change (set_pre_cn_valid u (set_pre_ev_valid v (with_ignore_sell_sg b s)))
        with (with_ignore_sell_sg b (set_pre_cn_valid u (set_pre_ev_valid v s)))
  end.
  apply position_phase_ignore.
Qed.

(** The outcome of a bar is the same whatever [ignore_sell_sg] is: the
    returned record, and every field of the state but that parameter. *)
Lemma runMoment_ignore_sell_sg b today s :
  runMoment today (with_ignore_sell_sg b s) = lift_ignore b (runMoment today s).
Proof.
  unfold runMoment.
  match goal with
  | |- _runMoment today ?x = _ =>
      change x with (with_ignore_sell_sg b (tick s))
  end.
  fold (tick s). unfold _runMoment.
  change (gate_closed today (with_ignore_sell_sg b (tick s)))
    with (gate_closed today (tick s)).
  destruct (gate_closed today (tick s)); [reflexivity|].
  rewrite _processRequest_ignore.
  destruct (_processRequest today (tick s)) as [s1 result]. cbn [lift_ignore fst snd].
  apply decision_phases_ignore.
Qed.

End Facts.

(** *** At concrete inputs *)

Import Toy.

Lemma C1_degenerate_bar_witness :
  snd (runMoment flat_bar buy_pending) = TradeRecord.null
  /\ m_trade_list (fst (runMoment flat_bar buy_pending)) = m_trade_list buy_pending
  /\ m_world (fst (runMoment flat_bar buy_pending)) = m_world buy_pending
  /\ (forall d, buffer d (fst (runMoment flat_bar buy_pending)) = buffer d buy_pending)
  /\ fst (runMoment flat_bar buy_pending) = tick buy_pending.
Proof.
  apply (C1_degenerate_bar_is_skipped flat_bar buy_pending); reflexivity.
Defined.

(** C1 as stated fails.  A long-buy request is pending with its counter at
    1; the bar has [high == low] and [can_trade_when_high_eq_low] is false.
    After [runMoment] the request is still pending with its counter at 1: it
    has not been submitted again, which would have made it 2. *)
Lemma C1_counterexample :
  degenerate flat_bar = true
  /\ can_trade_when_high_eq_low (m_params buy_pending) = false
  /\ TradeRequest.valid (m_buyRequest buy_pending) = true
  /\ TradeRequest.count (m_buyRequest buy_pending) = 1
  /\ TradeRequest.count (m_buyRequest (fst (runMoment flat_bar buy_pending))) = 1
  /\ TradeRequest.count (m_buyRequest (fst (runMoment flat_bar buy_pending)))
     <> TradeRequest.count (m_buyRequest buy_pending) + 1.
Proof.
  split; [reflexivity|]. split; [reflexivity|]. split; [reflexivity|].
  split; [reflexivity|]. split; [reflexivity|].
  vm_compute. discriminate.
Qed.

Lemma C2_one_trade_per_bar_witness :
  grows_by 1 buy_pending (fst (runMoment bar buy_pending))
  /\ requests_need_delay (fst (runMoment bar buy_pending)).
Proof.
  apply (C2_one_delayed_order_and_one_trade_per_bar bar buy_pending).
  intros Hoff. vm_compute in Hoff. discriminate Hoff.
Defined.

(** C2 as stated fails.  A new system with the buy signal on processes a
    bar while decisions are delayed: a long-buy request is pending after it.
    [delay] is then switched off, and the next bar produces two trades: it
    executes the request, and buys again on the signal.  The same in the state
    [switched_to_immediate]. *)
Lemma C2_counterexample :
  let s1 := fst (runMoment bar (System_new buying_world)) in
  let s2 := setParams immediate s1 in
  m_trade_list s1 = []
  /\ TradeRequest.valid (m_buyRequest s1) = true
  /\ ~ requests_need_delay s2
  /\ length (m_trade_list (fst (runMoment later_bar s2))) = 2%nat
  /\ trades_per_bar [later_bar] s2 = [2%nat]
  /\ ~ Forall (fun n => (n <= 1)%nat) (trades_per_bar [later_bar] s2)
  /\ ~ requests_need_delay switched_to_immediate
  /\ length (m_trade_list (fst (runMoment bar switched_to_immediate)))
     = (length (m_trade_list switched_to_immediate) + 2)%nat.
Proof.
  cbn zeta.
  split; [reflexivity|]. split; [reflexivity|].
  split; [intros Hinv; specialize (Hinv eq_refl); vm_compute in Hinv; discriminate Hinv|].
  split; [reflexivity|]. split; [reflexivity|].
  split.
  { intros Hall. apply Forall_inv in Hall. vm_compute in Hall. lia. }
  split; [|reflexivity].
  intros Hinv. specialize (Hinv eq_refl). vm_compute in Hinv. discriminate Hinv.
Qed.

(** C3 at a failing input.  A short-buy request is pending with its counter
    at 4, above [max_delay_count = 3], and a long-buy request is pending too.
    The next short-buy submission leaves the short-buy request as it is, still
    valid, and clears the long-buy request. *)
Theorem C3_overdue_short_buy_clears_long_buy :
  TradeRequest.valid (m_buyShortRequest cover_overdue) = true
  /\ TradeRequest.count (m_buyShortRequest cover_overdue)
     > max_delay_count (m_params cover_overdue)
  /\ TradeRequest.valid (m_buyRequest cover_overdue) = true
  /\ m_buyShortRequest (_submitBuyShortRequest bar PART_SIGNAL cover_overdue)
     = m_buyShortRequest cover_overdue
  /\ m_buyRequest (_submitBuyShortRequest bar PART_SIGNAL cover_overdue)
     = TradeRequest.cleared.
Proof.
  split; [reflexivity|]. split; [reflexivity|]. split; [reflexivity|].
  rewrite _submitBuyShortRequest_overdue by reflexivity.
  split; reflexivity.
Qed.

Lemma C4_take_profit_seed_witness :
  m_lastTakeProfit (fst (_buyDelay bar buy_pending)) = 10%float.
Proof.
  refine (proj1 (C4_take_profit_seed_after_entry bar PART_SIGNAL buy_pending
                   (fst (_buyDelay bar buy_pending)) (snd (_buyDelay bar buy_pending)) _) _).
  - reflexivity.
  - apply surjective_pairing.
Defined.

(** C4 as stated fails.  With [delay] off and the buy signal on, the bar
    buys at its close: the [realPrice] of the trade is 10, and
    [m_lastTakeProfit] is 9, the price of the take-profit part. *)
Lemma C4_counterexample :
  TradeRecord.business (snd (runMoment bar buying_now)) = BUSINESS_BUY
  /\ m_trade_list (fst (runMoment bar buying_now)) = [snd (runMoment bar buying_now)]
  /\ TradeRecord.realPrice (snd (runMoment bar buying_now)) = 10%float
  /\ m_lastTakeProfit (fst (runMoment bar buying_now)) = 9%float
  /\ m_lastTakeProfit (fst (runMoment bar buying_now))
     <> TradeRecord.realPrice (snd (runMoment bar buying_now)).
Proof.
  split; [reflexivity|]. split; [reflexivity|]. split; [reflexivity|].
  split; [reflexivity|].
  intros E. apply (f_equal (fun x => PrimFloat.ltb x 10%float)) in E.
  vm_compute in E. discriminate E.
Qed.

(** C5 at two failing inputs.  [ignore_sell_sg] is true, there is no buy
    signal, the sell signal is on and the stock is held.  With decisions
    delayed the bar submits a long-sell request tagged [PART_SIGNAL]; with
    decisions executed on the bar it sells, tagged [PART_SIGNAL]. *)
Theorem C5_sell_signal_not_suppressed :
  ignore_sell_sg (m_params selling_ignored) = true
  /\ sg_shouldBuy (m_world selling_ignored) (KRecord.datetime bar) = false
  /\ sg_shouldSell (m_world selling_ignored) (KRecord.datetime bar) = true
  /\ tm_have (m_world selling_ignored) = true
  /\ m_sellRequest (fst (runMoment bar selling_ignored))
     = TradeRequest.mk true BUSINESS_SELL t2 8%float 20%float 100%float PART_SIGNAL 1
  /\ ignore_sell_sg (m_params selling_ignored_now) = true
  /\ m_trade_list (fst (runMoment bar selling_ignored_now))
     = [TradeRecord.mk t2 BUSINESS_SELL 10%float 10%float 20%float 100%float 8%float
          PART_SIGNAL].
Proof.
  split; [reflexivity|]. split; [reflexivity|]. split; [reflexivity|].
  split; [reflexivity|]. split; [vm_compute; reflexivity|].
  split; [reflexivity|]. vm_compute; reflexivity.
Qed.

Lemma C10_delayed_cover_witness :
  TradeRecord.business (snd (cover_fill bar cover_pending)) = BUSINESS_BUY_SHORT
  /\ m_trade_list (fst (_buyShortDelay bar cover_pending)) = [snd (cover_fill bar cover_pending)]
  /\ m_buyShortRequest (fst (_buyShortDelay bar cover_pending)) = TradeRequest.cleared
  /\ snd (_buyShortDelay bar cover_pending) = TradeRecord.null
  /\ snd (runMoment bar cover_pending) = TradeRecord.null
  /\ m_trade_list (fst (runMoment bar cover_pending)) = [snd (cover_fill bar cover_pending)].
Proof.
  pose proof (C10_delayed_cover_returns_empty bar cover_pending)
    as (Hcover & Hret & Hrun & _).
  change (cover_executes bar cover_pending) with true in Hcover.
  destruct Hcover as (Hb & Hl & Hc).
  destruct (Hrun eq_refl) as (_ & _ & Hrm).
  destruct (Hrm eq_refl) as (Hnull & Hlist).
  split; [exact Hb|]. split; [exact Hl|]. split; [exact Hc|]. split; [exact Hret|].
  split; [exact Hnull | exact Hlist].
Defined.

(** C10 as stated fails.  A short-buy request is pending, [delay] has been
    switched off and the buy signal is on.  The bar executes the request,
    which appends a short-buy record, and then buys on the signal: [runMoment]
    returns the record of that purchase, not the empty record. *)
Lemma C10_counterexample :
  first_pending cover_switched = Some ShortBuy
  /\ delay (m_params cover_switched) = false
  /\ cover_executes bar cover_switched = true
  /\ snd (_processRequest bar (tick cover_switched)) = TradeRecord.null
  /\ TradeRecord.business (snd (runMoment bar cover_switched)) = BUSINESS_BUY
  /\ snd (runMoment bar cover_switched) <> TradeRecord.null
  /\ m_trade_list (fst (runMoment bar cover_switched))
     = [snd (cover_fill bar cover_switched); snd (runMoment bar cover_switched)].
Proof.
  split; [reflexivity|]. split; [reflexivity|]. split; [reflexivity|].
  split; [reflexivity|]. split; [reflexivity|].
  split; [|vm_compute; reflexivity].
  intros E. apply (f_equal TradeRecord.business) in E. vm_compute in E. discriminate E.
Qed.

End SysFacts.

(** ** More facts about the timer scheduler *)

Module TimerOpsFacts.
Import TimerMgr TimerOps.

Section Facts.

Variable max_int : Z.
Variables Datetime_min Datetime_max : Z.
Context {Func : Type}.

Implicit Types (tm : TimerManager Func) (timer : Timer Func) (f : Func).

(** *** The queue *)

Lemma queue_push_perm (s : IntervalS) q : queue_push s q ≡ₚ s :: q.
Proof.
  induction q as [|x q IH]; simpl; [reflexivity|].
  destruct (m_time_point s <? m_time_point x); [reflexivity|].
  rewrite IH. apply Permutation_swap.
Qed.

Lemma queue_push_sorted (s : IntervalS) q :
  StronglySorted (fun a b => m_time_point a <= m_time_point b) q ->
  StronglySorted (fun a b => m_time_point a <= m_time_point b) (queue_push s q).
Proof.
  induction 1 as [|x q Hq IH Hx]; simpl.
  - repeat constructor.
  - destruct (Z.ltb_spec (m_time_point s) (m_time_point x)).
    + constructor; [constructor; assumption|].
      constructor; [lia|]. eapply Forall_impl; [exact Hx|]. simpl. intros; lia.
    + constructor; [exact IH|].
      rewrite queue_push_perm. constructor; [lia | exact Hx].
Qed.

(** *** [start] *)

Lemma removeTimers_fields (l : list Z) tm :
  let tm' := fold_left (fun t id => removeTimer id t) l tm in
  m_queue tm' = m_queue tm /\ m_stop tm' = m_stop tm
  /\ m_current_timer_id tm' = m_current_timer_id tm /\ m_submitted tm' = m_submitted tm
  /\ forall i, m_timers tm' !! i = if decide (i ∈ l) then None else m_timers tm !! i.
Proof.
  revert tm. induction l as [|id l IH]; intros tm; simpl.
  - repeat split.
  - destruct (IH (removeTimer id tm)) as (Hq & Hs & Hc & Hsub & Hl).
    repeat split; try assumption.
    intros i. rewrite Hl. simpl.
    destruct (decide (i ∈ l)) as [Hin|Hnin].
    + rewrite decide_True by (right; exact Hin). reflexivity.
    + destruct (decide (i = id)) as [->|Hne].
      * rewrite decide_True by left. apply lookup_delete_eq.
      * rewrite decide_False by (intros Hc'; apply elem_of_cons in Hc' as [?|?]; tauto).
        apply lookup_delete_ne. congruence.
Qed.

Lemma start_visits now (l : list (Z * Timer Func)) q0 inv0 :
  let r := fold_left (start_visit max_int Datetime_max now) l (q0, inv0) in
  fst r ≡ₚ q0 ++ (first_entry max_int now <$> filter (live Datetime_max now) l)
  /\ (forall i, i ∈ snd r <->
                i ∈ inv0 \/ exists t, (i, t) ∈ l /\ timer_expired Datetime_max now t = true)
  /\ (StronglySorted (fun a b => m_time_point a <= m_time_point b) q0 ->
      StronglySorted (fun a b => m_time_point a <= m_time_point b) (fst r)).
Proof.
  revert q0 inv0. induction l as [|[id t] l IH]; intros q0 inv0; simpl.
  - rewrite app_nil_r. split; [reflexivity|]. split; [|auto].
    intros i. split; [auto|]. intros [?|(t & Hin & _)]; [assumption|].
    apply elem_of_nil in Hin. contradiction.
  - destruct (timer_expired Datetime_max now t) eqn:He.
    + destruct (IH q0 (id :: inv0)) as (Hq & Hinv & Hs). simpl in *.
      rewrite filter_cons_False by (unfold live; simpl; congruence).
      split; [exact Hq|]. split; [|exact Hs].
      intros i. rewrite Hinv, elem_of_cons. split.
      * intros [[->|?]|(t' & Hin & Ht')]; [right; exists t; split; [left|assumption] | auto |].
        right. exists t'. split; [right; assumption | assumption].
      * intros [?|(t' & Hin & Ht')]; [auto|].
        apply elem_of_cons in Hin as [[= -> ->]|Hin]; [auto|]. right. eauto.
    + destruct (IH (queue_push (mkIntervalS (initial_time_point max_int now t) id) q0) inv0)
        as (Hq & Hinv & Hs). simpl in *.
      rewrite filter_cons_True by (unfold live; simpl; assumption).
      split.
      * rewrite Hq, queue_push_perm. simpl. unfold first_entry at 2. simpl.
        rewrite <- Permutation_middle. reflexivity.
      * split; [|intros; apply Hs, queue_push_sorted; assumption].
        intros i. rewrite Hinv. split.
        -- intros [?|(t' & Hin & Ht')]; [auto|]. right. exists t'. split; [right|]; assumption.
        -- intros [?|(t' & Hin & Ht')]; [auto|].
           apply elem_of_cons in Hin as [[= -> ->]|Hin]; [congruence|]. right. eauto.
Qed.

Lemma map_to_list_filter_perm (P : Z * Timer Func -> Prop) `{!forall x, Decision (P x)}
    (m : gmap Z (Timer Func)) :
  map_to_list (filter P m) ≡ₚ filter P (map_to_list m).
Proof.
  apply NoDup_Permutation.
  - apply NoDup_map_to_list.
  - apply NoDup_filter, NoDup_map_to_list.
  - intros [i x]. rewrite list_elem_of_filter, !elem_of_map_to_list, map_lookup_filter_Some.
    tauto.
Qed.

(** What [start] does to a stopped manager. *)
Lemma start_stopped now tm :
  m_stop tm = true ->
  let tm' := start max_int Datetime_max now tm in
  m_stop tm' = false
  /\ m_timers tm' = filter (live Datetime_max now) (m_timers tm)
  /\ m_queue tm' ≡ₚ m_queue tm ++ (first_entry max_int now <$> map_to_list (m_timers tm'))
  /\ m_current_timer_id tm' = m_current_timer_id tm
  /\ m_submitted tm' = m_submitted tm
  /\ (queue_sorted tm -> queue_sorted tm').
Proof.
  intros Hstop. unfold start. rewrite Hstop.
  set (tm1 := set_stop false tm).
  pose proof (start_visits now (map_to_list (m_timers tm1)) (m_queue tm1) []) as Hv.
  destruct (fold_left _ _ _) as [q inv] eqn:Hf. simpl in Hv. destruct Hv as (Hq & Hinv & Hs).
  cbn zeta.
  destruct (removeTimers_fields inv (set_queue q tm1)) as (Eq & Es & Ec & Esub & El).
  set (tm' := fold_left (fun t id => removeTimer id t) inv (set_queue q tm1)) in *.
  simpl in Eq, Es, Ec, Esub, El.
  assert (Et : m_timers tm' = filter (live Datetime_max now) (m_timers tm)).
  { apply map_eq. intros i. rewrite El, map_lookup_filter.
    destruct (m_timers tm !! i) as [t|] eqn:Hl; simpl.
    - destruct (timer_expired Datetime_max now t) eqn:He.
      + rewrite decide_True.
        * rewrite option_guard_False by (unfold live; simpl; congruence). reflexivity.
        * apply Hinv. right. exists t. split; [apply elem_of_map_to_list|]; assumption.
      + rewrite decide_False.
        * rewrite option_guard_True by (unfold live; simpl; assumption). reflexivity.
        * intros Hin. apply Hinv in Hin as [Hin|(t' & Hin & Ht')];
            [apply elem_of_nil in Hin; contradiction|].
          apply elem_of_map_to_list in Hin. congruence.
    - destruct (decide _); reflexivity. }
  split; [exact Es|]. split; [exact Et|].
  split; [rewrite Eq, Et, map_to_list_filter_perm; exact Hq|].
  split; [exact Ec|]. split; [exact Esub|].
  unfold queue_sorted. rewrite Eq. exact Hs.
Qed.

(** *** Ids stay in range, and adding a timer returns *)

Lemma _addFunc_outcome now sd ed st et rn du f tm :
  0 <= max_int -> ids_in_range max_int tm ->
  _addFunc max_int now sd ed st et rn du f tm = Throws Failed_to_get_new_id tm
  \/ exists id,
       0 <= id <= max_int /\ m_timers tm !! id = None
       /\ _addFunc max_int now sd ed st et rn du f tm
          = Done (mkTimerManager (queue_push (mkIntervalS (now + du) id) (m_queue tm))
                    (m_stop tm) (<[id := mkTimer sd ed st et du rn f]> (m_timers tm))
                    id (m_submitted tm)).
Proof.
  intros Hm [Hcur Hkeys].
  destruct (Z_lt_ge_dec (Z.of_nat (size (m_timers tm))) max_int) as [Hlt|Hge].
  - right.
    destruct (TimerFacts.getNewTimerId_total max_int tm Hm ltac:(lia) Hlt)
      as (id & Hg & Hid & Hfree).
    exists id. split; [exact Hid|]. split; [exact Hfree|].
    unfold _addFunc. rewrite Hg.
    destruct (Z.ltb_spec id 0); [lia|]. reflexivity.
  - left. apply TimerFacts._addFunc_full. exact Hge.
Qed.

Lemma _addFunc_after now sd ed st et rn du f tm :
  0 <= max_int -> ids_in_range max_int tm -> queue_sorted tm ->
  exists tm', after (_addFunc max_int now sd ed st et rn du f tm) = Some tm'
              /\ ids_in_range max_int tm' /\ queue_sorted tm'.
Proof.
  intros Hm Hr Hs.
  destruct (_addFunc_outcome now sd ed st et rn du f tm Hm Hr) as [->|(id & Hid & _ & ->)].
  - exists tm. auto.
  - eexists. split; [reflexivity|]. split.
    + destruct Hr as [_ Hkeys]. split; simpl; [lia|].
      intros j t. destruct (decide (id = j)) as [<-|Hne].
      * intros _. exact Hid.
      * rewrite lookup_insert_ne by assumption. apply Hkeys.
    + unfold queue_sorted. simpl. apply queue_push_sorted. exact Hs.
Qed.

Lemma detect_step_cases now tm :
  let r := detect_step max_int Datetime_max now tm in
  (fst r = tm)
  \/ exists s q,
       m_stop tm = false /\ m_queue tm = s :: q /\ m_time_point s <= now
       /\ ((m_timers tm !! m_timer_id s = None /\ fst r = set_queue q tm)
           \/ exists timer,
               m_timers tm !! m_timer_id s = Some timer
               /\ m_submitted (fst r)
                  = mkDispatch now (m_timer_id s) (m_func timer) :: m_submitted tm
               /\ m_stop (fst r) = false
               /\ m_current_timer_id (fst r) = m_current_timer_id tm
               /\ ((m_timers (fst r) = delete (m_timer_id s) (m_timers tm)
                    /\ m_queue (fst r) = q)
                   \/ (m_timers (fst r)
                       = <[m_timer_id s := count_down max_int timer]> (m_timers tm)
                       /\ 0 < m_repeat_num (count_down max_int timer)
                       /\ m_queue (fst r)
                          = queue_push
                              (mkIntervalS (next_time_point now timer (m_time_point s))
                                           (m_timer_id s)) q))).
Proof.
  unfold detect_step.
  destruct (m_stop tm) eqn:Hstop; [left; reflexivity|].
  destruct (m_queue tm) as [|s q] eqn:Hq; [left; reflexivity|].
  destruct (Z.gtb_spec (m_time_point s - now) TimeDelta_zero) as [|Hdue]; [left; reflexivity|].
  right. exists s, q.
  split; [reflexivity|]. split; [reflexivity|].
  split; [unfold TimeDelta_zero, TimeDelta_mk in Hdue; lia|].
  cbn [set_queue m_timers].
  destruct (m_timers tm !! m_timer_id s) as [timer|] eqn:Hl.
  - right. exists timer. split; [reflexivity|].
    cbn [submit set_timers m_timers m_queue m_stop m_current_timer_id m_submitted].
    destruct (Z.leb_spec (m_repeat_num (count_down max_int timer)) 0).
    + simpl. rewrite Hstop. repeat split. left. split; [|reflexivity].
      apply delete_insert_eq.
    + destruct (past_end Datetime_max (count_down max_int timer) _).
      * simpl. rewrite Hstop. repeat split. left. split; [|reflexivity].
        apply delete_insert_eq.
      * simpl. rewrite Hstop. repeat split. right.
        rewrite TimerFacts.next_time_point_count_down. repeat split. lia.
  - left. split; [reflexivity|]. unfold set_queue. rewrite Hstop. reflexivity.
Qed.

Lemma start_keeps now tm :
  ids_in_range max_int tm -> queue_sorted tm ->
  ids_in_range max_int (start max_int Datetime_max now tm)
  /\ queue_sorted (start max_int Datetime_max now tm).
Proof.
  intros [Hcur Hkeys] Hs.
  destruct (m_stop tm) eqn:Hstop.
  - destruct (start_stopped now tm Hstop) as (_ & Et & _ & Ec & _ & Hs').
    split; [|auto]. split; [rewrite Ec; exact Hcur|].
    intros id t. rewrite Et. intros Hl. apply map_lookup_filter_Some in Hl as [Hl _]. eauto.
  - unfold start. rewrite Hstop. split; [split|]; assumption.
Qed.

Lemma stop_keeps tm :
  ids_in_range max_int tm -> queue_sorted tm ->
  ids_in_range max_int (stop tm) /\ queue_sorted (stop tm).
Proof.
  intros Hr Hs. unfold stop. destruct (negb (m_stop tm)).
  - split; [exact Hr|]. unfold queue_sorted. simpl. constructor.
  - split; assumption.
Qed.

Lemma detect_step_keeps now tm :
  ids_in_range max_int tm -> queue_sorted tm ->
  ids_in_range max_int (fst (detect_step max_int Datetime_max now tm))
  /\ queue_sorted (fst (detect_step max_int Datetime_max now tm)).
Proof.
  intros [Hcur Hkeys] Hs.
  destruct (detect_step_cases now tm) as [->|(s & q & Hstop & Hq & Hdue & Hc)];
    [split; [split|]; assumption|].
  unfold queue_sorted in Hs. rewrite Hq in Hs. apply StronglySorted_inv in Hs as [Hsq _].
  destruct Hc as [[_ ->]|(timer & Hl & _ & _ & Ec & [[Et Eq]|(Et & _ & Eq)])].
  - split; [split; assumption|exact Hsq].
  - split; [|unfold queue_sorted; rewrite Eq; exact Hsq].
    split; [rewrite Ec; exact Hcur|].
    intros id t. rewrite Et. intros Hd. apply lookup_delete_Some in Hd as [_ Hd]. eauto.
  - split; [|unfold queue_sorted; rewrite Eq; apply queue_push_sorted; exact Hsq].
    split; [rewrite Ec; exact Hcur|].
    intros id t. rewrite Et. intros Hd. apply lookup_insert_Some in Hd as [[<- _]|[_ Hd]]; eauto.
Qed.

Lemma apply_op_keeps op tm :
  0 <= max_int -> ids_in_range max_int tm -> queue_sorted tm ->
  exists tm', after (apply_op max_int Datetime_min Datetime_max op tm) = Some tm'
              /\ ids_in_range max_int tm' /\ queue_sorted tm'.
Proof.
  intros Hm Hr Hs.
  destruct op as [now sd ed st et rn du f|now rn du f|now d f|now tp f|now| |now]; simpl.
  - unfold addFunc.
    destruct sd as [|sd]; [exists tm; auto|].
    destruct ed as [|ed]; [exists tm; auto|].
    repeat match goal with
           | |- context [if negb ?b then _ else _] => destruct (negb b); [exists tm; auto|]
           end.
    apply _addFunc_after; assumption.
  - unfold addDurationFunc.
    repeat match goal with
           | |- context [if negb ?b then _ else _] => destruct (negb b); [exists tm; auto|]
           end.
    apply _addFunc_after; assumption.
  - unfold addDelayFunc.
    destruct (negb _); [exists tm; auto|]. apply _addFunc_after; assumption.
  - unfold addFuncAtPoint. destruct tp as [|tp]; [exists tm; auto|].
    apply _addFunc_after; assumption.
  - eexists. split; [reflexivity|]. apply start_keeps; assumption.
  - eexists. split; [reflexivity|]. apply stop_keeps; assumption.
  - eexists. split; [reflexivity|]. apply detect_step_keeps; assumption.
Qed.

Lemma run_ops_keeps ops tm :
  0 <= max_int -> ids_in_range max_int tm -> queue_sorted tm ->
  exists tm', run_ops max_int Datetime_min Datetime_max ops tm = Some tm'
              /\ ids_in_range max_int tm' /\ queue_sorted tm'.
Proof.
  intros Hm. revert tm. induction ops as [|op ops IH]; intros tm Hr Hs; simpl.
  - exists tm. auto.
  - destruct (apply_op_keeps op tm Hm Hr Hs) as (tm1 & -> & Hr1 & Hs1). apply IH; assumption.
Qed.

Lemma new_in_range : 0 <= max_int -> ids_in_range max_int (@TimerManager_new Func).
Proof.
  intros Hm. split; simpl; [lia|].
  intros id t Hl. rewrite lookup_empty in Hl. discriminate.
Qed.

Lemma new_sorted : queue_sorted (@TimerManager_new Func).
Proof. constructor. Qed.

(** *** How often a timer runs *)

Lemma dispatches_of_cons id (d : Dispatch Func) tm tm' :
  m_submitted tm' = d :: m_submitted tm ->
  dispatches_of id tm'
  = ((if decide (d_timer_id d = id) then 1 else 0) + dispatches_of id tm)%nat.
Proof.
  intros E. unfold dispatches_of. rewrite E, filter_cons.
  destruct (decide (d_timer_id d = id)); reflexivity.
Qed.

Lemma detect_step_budget id n now tm :
  within_budget max_int id n tm ->
  within_budget max_int id n (fst (detect_step max_int Datetime_max now tm)).
Proof.
  intros Hb.
  destruct (detect_step_cases now tm) as [->|(s & q & Hstop & Hq & Hdue & Hc)]; [exact Hb|].
  destruct Hc as [[_ ->]|(timer & Hl & Esub & _ & _ & Hc)]; [exact Hb|].
  unfold within_budget in *.
  rewrite (dispatches_of_cons id _ tm _ Esub). simpl.
  destruct (decide (m_timer_id s = id)) as [<-|Hne].
  - rewrite Hl in Hb. destruct Hb as [Hlt Hn].
    assert (Hcd : m_repeat_num (count_down max_int timer) = m_repeat_num timer - 1).
    { unfold count_down. destruct (Z.eqb_spec (m_repeat_num timer) max_int); [lia|]. reflexivity. }
    destruct Hc as [[-> _]|(-> & Hpos & _)].
    + rewrite lookup_delete_eq. lia.
    + rewrite lookup_insert_eq. lia.
  - destruct Hc as [[-> _]|(-> & _ & _)].
    + rewrite lookup_delete_ne by assumption. exact Hb.
    + rewrite lookup_insert_ne by assumption. exact Hb.
Qed.

Lemma start_budget id n now tm :
  within_budget max_int id n tm -> within_budget max_int id n (start max_int Datetime_max now tm).
Proof.
  intros Hb. destruct (m_stop tm) eqn:Hstop; [|unfold start; rewrite Hstop; exact Hb].
  destruct (start_stopped now tm Hstop) as (_ & Et & _ & _ & Esub & _).
  unfold within_budget, dispatches_of in *. rewrite Et, Esub, map_lookup_filter.
  destruct (m_timers tm !! id) as [t|]; simpl; [|exact Hb].
  destruct (decide (live Datetime_max now (id, t))).
  - rewrite option_guard_True by assumption. exact Hb.
  - rewrite option_guard_False by assumption. simpl. lia.
Qed.

Lemma quiet_ops_budget id n ops tm :
  forallb adds_nothing ops = true ->
  within_budget max_int id n tm ->
  exists tm', run_ops max_int Datetime_min Datetime_max ops tm = Some tm'
              /\ within_budget max_int id n tm'.
Proof.
  revert tm. induction ops as [|op ops IH]; intros tm Hq Hb; simpl; [eauto|].
  simpl in Hq. apply andb_true_iff in Hq as [Hop Hq].
  destruct op; try discriminate Hop; simpl.
  - apply IH; [assumption|]. apply start_budget. exact Hb.
  - apply IH; [assumption|]. unfold stop. destruct (negb (m_stop tm)); exact Hb.
  - apply IH; [assumption|]. apply detect_step_budget. exact Hb.
Qed.

(** *** The properties *)

(** X1.  [_addFunc] on a manager that is not full registers the timer as
    given under an id of [0 .. max_int] that was free, which becomes the id
    handed out last; the timers already there are kept, the map grows by one,
    and the queue gains one entry, at [now + duration]. *)
Theorem add_registers_under_a_fresh_id now sd ed st et rn du f tm :
  0 <= max_int ->
  ids_in_range max_int tm ->
  Z.of_nat (size (m_timers tm)) < max_int ->
  exists id tm',
    _addFunc max_int now sd ed st et rn du f tm = Done tm'
    /\ 0 <= id <= max_int /\ m_timers tm !! id = None
    /\ m_current_timer_id tm' = id
    /\ m_timers tm' !! id = Some (mkTimer sd ed st et du rn f)
    /\ (forall j, j <> id -> m_timers tm' !! j = m_timers tm !! j)
    /\ size (m_timers tm') = S (size (m_timers tm))
    /\ m_queue tm' ≡ₚ mkIntervalS (now + du) id :: m_queue tm
    /\ m_stop tm' = m_stop tm /\ m_submitted tm' = m_submitted tm.
Proof.
  intros Hm Hr Hsize.
  destruct (_addFunc_outcome now sd ed st et rn du f tm Hm Hr) as [Hfull|(id & Hid & Hfree & E)].
  - exfalso. destruct Hr as [Hcur _].
    destruct (TimerFacts._addFunc_succeeds max_int now sd ed st et rn du f tm Hm
                ltac:(lia) Hsize) as (tm' & E).
    congruence.
  - exists id. eexists. split; [exact E|]. simpl.
    split; [exact Hid|]. split; [exact Hfree|]. split; [reflexivity|].
    split; [apply lookup_insert_eq|].
    split; [intros j Hj; apply lookup_insert_ne; congruence|].
    split; [apply map_size_insert_None; exact Hfree|].
    split; [apply queue_push_perm|]. split; reflexivity.
Qed.

(** X2.  Whatever calls are made on a new manager, in whatever order, each
    of them returns or throws: the loop of [getNewTimerId] always ends.  The
    ids in use stay in [0 .. max_int]. *)
Theorem every_call_returns ops :
  0 <= max_int ->
  exists tm,
    run_ops max_int Datetime_min Datetime_max ops (@TimerManager_new Func) = Some tm
    /\ ids_in_range max_int tm.
Proof.
  intros Hm.
  destruct (run_ops_keeps ops TimerManager_new Hm (new_in_range Hm) new_sorted)
    as (tm & E & Hr & _).
  exists tm. split; assumption.
Qed.

(** X3.  One turn of the detector hands at most one callback to the pool:
    that of the entry on top of the queue, at the instant [now], and only
    when the manager is running, the time point of the entry has come and
    its timer is still registered. *)
Theorem detect_step_dispatches_only_what_is_due now tm :
  let tm' := fst (detect_step max_int Datetime_max now tm) in
  m_submitted tm' = m_submitted tm
  \/ exists s q timer,
       m_stop tm = false /\ m_queue tm = s :: q /\ m_time_point s <= now
       /\ m_timers tm !! m_timer_id s = Some timer
       /\ m_submitted tm' = mkDispatch now (m_timer_id s) (m_func timer) :: m_submitted tm.
Proof.
  destruct (detect_step_cases now tm) as [E|(s & q & Hstop & Hq & Hdue & Hc)];
    [left; cbn zeta; rewrite E; reflexivity|].
  destruct Hc as [[_ E]|(timer & Hl & Esub & _)].
  - left. cbn zeta. rewrite E. reflexivity.
  - right. exists s, q, timer. auto.
Qed.

(** X4.  In every state that calls on a new manager lead to, the queue is
    in the order of its time points.  So when the detector goes to wait for
    [diff], no entry of the queue is due before [now + diff]; and the entry
    on top is due no later than any other. *)
Theorem detector_waits_only_when_nothing_is_due ops tm now :
  0 <= max_int ->
  run_ops max_int Datetime_min Datetime_max ops (@TimerManager_new Func) = Some tm ->
  queue_sorted tm
  /\ (forall diff,
        snd (detect_step max_int Datetime_max now tm) = WaitFor diff ->
        0 < diff /\ Forall (fun s => now + diff <= m_time_point s) (m_queue tm))
  /\ (forall s q,
        m_queue tm = s :: q -> Forall (fun x => m_time_point s <= m_time_point x) q).
Proof.
  intros Hm Hrun.
  destruct (run_ops_keeps ops TimerManager_new Hm (new_in_range Hm) new_sorted)
    as (tm0 & E & _ & Hs).
  assert (tm0 = tm) as -> by congruence. clear E.
  split; [exact Hs|].
  assert (Hhead : forall s q, m_queue tm = s :: q ->
                              Forall (fun x => m_time_point s <= m_time_point x) q).
  { intros s q Hq. unfold queue_sorted in Hs. rewrite Hq in Hs.
    apply StronglySorted_inv in Hs as [_ Hs]. exact Hs. }
  split; [|exact Hhead].
  intros diff. unfold detect_step.
  destruct (m_stop tm); [discriminate|].
  destruct (m_queue tm) as [|s q] eqn:Hq; [discriminate|].
  destruct (Z.gtb_spec (m_time_point s - now) TimeDelta_zero) as [Hgt|_].
  - intros [= <-]. unfold TimeDelta_zero, TimeDelta_mk in Hgt. split; [lia|].
    constructor; [lia|].
    eapply Forall_impl; [exact (Hhead s q eq_refl)|]. simpl. intros; lia.
  - cbn [set_queue m_timers]. destruct (m_timers tm !! m_timer_id s); [|discriminate].
    cbn. destruct (_ <=? 0); [discriminate|]. destruct (past_end _ _ _); discriminate.
Qed.

(** X5.  A timer registered for [repeat_num] runs, where
    [1 <= repeat_num < max_int], is handed to the pool at most [repeat_num]
    more times, however the detector, [start] and [stop] are interleaved. *)
Theorem timer_runs_at_most_repeat_num_times id timer ops tm :
  m_timers tm !! id = Some timer ->
  1 <= m_repeat_num timer < max_int ->
  forallb adds_nothing ops = true ->
  exists tm',
    run_ops max_int Datetime_min Datetime_max ops tm = Some tm'
    /\ (dispatches_of id tm' <= dispatches_of id tm + Z.to_nat (m_repeat_num timer))%nat.
Proof.
  intros Hl Hrep Hquiet.
  assert (Hb : within_budget max_int id
                 (Z.of_nat (dispatches_of id tm) + m_repeat_num timer) tm).
  { unfold within_budget. rewrite Hl. lia. }
  destruct (quiet_ops_budget id _ ops tm Hquiet Hb) as (tm' & E & Hb').
  exists tm'. split; [exact E|].
  unfold within_budget in Hb'. destruct (m_timers tm' !! id); lia.
Qed.




(** X8.  For a timer with a daily window ([0 <= start_time < end_time]) and
    a duration that is positive, below 2^53 ticks, and of which fewer than
    [max_int] fit in a day, the first time point that [start] gives is never
    before [now + duration].  When [now + duration] falls before the window it
    is the start of the window on that day, when it falls after the window the
    start of the window on the next day, and when it falls inside it is the
    first instant at or after [now + duration] that lies a whole number of
    periods after the start of the window. *)
Theorem first_time_point_is_on_the_grid now timer :
  0 <= m_start_time timer < m_end_time timer ->
  0 < m_duration timer < 2 ^ 53 ->
  ticks_per_day <= max_int * m_duration timer ->
  let p := now + m_duration timer in
  let day := startOfDay p in
  let r := initial_time_point max_int now timer in
  p <= r
  /\ (time_of_day p < m_start_time timer -> r = day + m_start_time timer)
  /\ (m_end_time timer < time_of_day p -> r = day + m_start_time timer + ticks_per_day)
  /\ (m_start_time timer <= time_of_day p <= m_end_time timer ->
      r < p + m_duration timer
      /\ exists k, 0 <= k /\ r = day + m_start_time timer + k * m_duration timer).
Proof.
  intros Hst [Hdu _] Hfit p day r.
  assert (Hw : m_start_time timer <> m_end_time timer) by lia.
  pose proof (TimerFacts.startOfDay_le p) as Hday. fold day in Hday.
  unfold r, initial_time_point, time_of_day. fold p. fold day.
  apply Z.eqb_neq in Hw. rewrite Hw. cbn [negb].
  rewrite TimerFacts.TimeDelta_1_is_a_day.
  destruct (Z.ltb_spec (p - day) (m_start_time timer)) as [Hlt|Hge].
  { repeat split; intros; lia. }
  destruct (Z.gtb_spec (p - day) (m_end_time timer)) as [Hgt|Hle].
  { repeat split; intros; lia. }
  set (gap := p - day - m_start_time timer).
  assert (Hgap : 0 <= gap < ticks_per_day) by (unfold gap; lia).
  rewrite Z.rem_mod_nonneg, Z.quot_div_nonneg by lia.
  pose proof (Z.div_mod gap (m_duration timer) ltac:(lia)) as Hdm.
  pose proof (Z.mod_pos_bound gap (m_duration timer) Hdu) as Hmod.
  pose proof (Z.div_pos gap (m_duration timer) ltac:(lia) Hdu) as Hdiv.
  assert (Hq : gap / m_duration timer < max_int).
  { apply Z.div_lt_upper_bound; [exact Hdu|]. lia. }
  assert (Ex : int_succ max_int (int_of_quotient max_int (gap / m_duration timer))
               = gap / m_duration timer + 1).
  { unfold int_succ, int_of_quotient.
    destruct (Z.leb_spec (- max_int - 1) (gap / m_duration timer)); [|lia].
    destruct (Z.leb_spec (gap / m_duration timer) max_int); [|lia].
    cbn [andb]. destruct (Z.geb_spec (gap / m_duration timer) max_int); [lia | reflexivity]. }
  rewrite Ex.
  destruct (Z.eqb_spec (gap mod m_duration timer) 0) as [Hz|Hnz]; cbn [negb].
  - split; [lia|]. split; [intros; lia|]. split; [intros; lia|]. intros _.
    split; [lia|]. exists (gap / m_duration timer). split; [exact Hdiv|]. unfold gap in *. lia.
  - split; [unfold gap in *; nia|]. split; [intros; lia|]. split; [intros; lia|]. intros _.
    split; [unfold gap in *; nia|].
    exists (gap / m_duration timer + 1). split; lia.
Qed.

(** X9.  A callback added with [addDelayFunc] to a running manager that
    has room and an empty queue runs once: the detector waits as long as it
    is turned before [now + delay], and at its first turn at or after that
    instant it hands the callback to the pool, removes the timer and leaves
    the queue empty, the map being as it was before the call. *)
Theorem one_shot_runs_once_and_is_removed now now' d f tm :
  1 < max_int ->
  ids_in_range max_int tm ->
  Z.of_nat (size (m_timers tm)) < max_int ->
  m_stop tm = false ->
  m_queue tm = [] ->
  0 < d ->
  now + d <= now' ->
  exists id tm1,
    addDelayFunc max_int Datetime_min Datetime_max now d f tm = Done tm1
    /\ m_timers tm !! id = None
    /\ m_timers tm1 !! id = Some (mkTimer Datetime_min Datetime_max 0 0 d 1 f)
    /\ (forall earlier, earlier < now + d ->
          detect_step max_int Datetime_max earlier tm1 = (tm1, WaitFor (now + d - earlier)))
    /\ detect_step max_int Datetime_max now' tm1
       = (mkTimerManager [] false (m_timers tm) id
            (mkDispatch now' id f :: m_submitted tm),
          Finished id).
Proof.
  intros Hm Hr Hsize Hstop Hq Hd Hdue.
  destruct (_addFunc_outcome now Datetime_min Datetime_max 0 0 1 d f tm
              ltac:(lia) Hr) as [Hfull|(id & Hid & Hfree & E)].
  { exfalso. destruct Hr as [Hcur _].
    destruct (TimerFacts._addFunc_succeeds max_int now Datetime_min Datetime_max 0 0 1 d f tm
                ltac:(lia) ltac:(lia) Hsize) as (tm' & E).
    congruence. }
  exists id. eexists. split.
  { unfold addDelayFunc. change TimeDelta_zero with 0.
    destruct (Z.gtb_spec d 0); [|lia]. cbn [negb]. exact E. }
  rewrite Hq, Hstop. cbn [queue_push].
  split; [exact Hfree|]. split; [apply lookup_insert_eq|]. split.
  - intros earlier He. unfold detect_step. cbn [m_stop m_queue m_time_point].
    change TimeDelta_zero with 0.
    destruct (Z.gtb_spec (now + d - earlier) 0); [reflexivity | lia].
  - unfold detect_step. cbn [m_stop m_queue m_time_point m_timer_id].
    change TimeDelta_zero with 0.
    destruct (Z.gtb_spec (now + d - now') 0); [lia|].
    cbn [set_queue m_timers]. rewrite lookup_insert_eq.
    unfold count_down. cbn [m_repeat_num].
    destruct (Z.eqb_spec 1 max_int); [lia|]. cbn [negb set_repeat_num m_repeat_num].
    change (1 - 1 <=? 0) with true. cbn iota.
    unfold removeTimer, set_timers, submit, set_queue.
    cbn [m_timers m_queue m_stop m_current_timer_id m_submitted m_func m_timer_id].
    rewrite delete_insert_eq, delete_insert_id by exact Hfree. reflexivity.
Qed.
Lemma probe_first fuel (m : gmap Z (Timer Func)) id id' :
  0 <= id <= max_int ->
  probe max_int fuel m id = Some id' ->
  exists k : nat,
    id' = (id + Z.of_nat k) mod (max_int + 1)
    /\ forall j : nat, (j < k)%nat -> is_Some (m !! ((id + Z.of_nat j) mod (max_int + 1))).
Proof.
  revert id. induction fuel as [|fuel IH]; intros id Hid; simpl; [discriminate|].
  destruct (m !! id) as [t|] eqn:Hl.
  - intros Hp. rewrite TimerFacts.next_id_cyclic in Hp by assumption.
    assert (Hr : 0 <= (id + 1) mod (max_int + 1) <= max_int).
    { pose proof (Z.mod_pos_bound (id + 1) (max_int + 1)). lia. }
    destruct (IH _ Hr Hp) as (k & -> & Hbefore).
    exists (S k). split.
    + rewrite Z.add_mod_idemp_l by lia. f_equal. lia.
    + intros [|j] Hj.
      * rewrite Z.add_0_r, Z.mod_small by lia. rewrite Hl. eauto.
      * specialize (Hbefore j ltac:(lia)).
        rewrite Z.add_mod_idemp_l in Hbefore by lia.
        replace (id + Z.of_nat (S j)) with (id + 1 + Z.of_nat j) by lia. exact Hbefore.
  - intros [= <-]. exists 0%nat. split.
    + rewrite Z.add_0_r, Z.mod_small by lia. reflexivity.
    + intros j Hj. lia.
Qed.

(** X10.  The ids are handed out in cyclic order: the id that
    [getNewTimerId] returns is the first free one met from the id after the
    last one handed out, going up and from [max_int] back to 0; every id
    passed over on the way is in use. *)
Theorem new_id_is_the_next_free_one tm id tm' :
  0 <= max_int ->
  -1 <= m_current_timer_id tm <= max_int ->
  getNewTimerId max_int tm = Some (id, tm') ->
  0 <= id ->
  exists k : nat,
    id = (m_current_timer_id tm + 1 + Z.of_nat k) mod (max_int + 1)
    /\ m_timers tm !! id = None
    /\ (forall j : nat,
          (j < k)%nat ->
          is_Some (m_timers tm !! ((m_current_timer_id tm + 1 + Z.of_nat j) mod (max_int + 1))))
    /\ tm' = set_current_timer_id id tm.
Proof.
  intros Hm Hcur. unfold getNewTimerId.
  destruct (_ >=? max_int); [intros [= <- <-]; lia|].
  destruct (probe _ _ _ _) as [id0|] eqn:Hp; [|discriminate].
  intros [= <- <-] Hid.
  assert (Hstart : next_id max_int (m_current_timer_id tm)
                   = (m_current_timer_id tm + 1) mod (max_int + 1)).
  { unfold next_id. destruct (Z.geb_spec (m_current_timer_id tm) max_int).
    - replace (m_current_timer_id tm + 1) with (1 * (max_int + 1)) by lia.
      rewrite Z.mod_mul by lia. reflexivity.
    - rewrite Z.mod_small by lia. reflexivity. }
  assert (Hr : 0 <= next_id max_int (m_current_timer_id tm) <= max_int).
  { rewrite Hstart. pose proof (Z.mod_pos_bound (m_current_timer_id tm + 1) (max_int + 1)). lia. }
  destruct (probe_first _ _ _ _ Hr Hp) as (k & E & Hbefore).
  exists k. rewrite Hstart in E, Hbefore.
  split; [rewrite E, Z.add_mod_idemp_l by lia; reflexivity|].
  split; [eapply TimerFacts.probe_free; exact Hp|].
  split; [|reflexivity].
  intros j Hj. specialize (Hbefore j Hj).
  rewrite Z.add_mod_idemp_l in Hbefore by lia. exact Hbefore.
Qed.

(** X11.  A timer added while the manager is stopped is queued twice by the
    [start] that follows: [_addFunc] queues an entry at [now + duration]
    although the manager is stopped, [start] keeps the queue it finds and adds
    an entry of its own, under the same id, for every timer that is not
    expired. *)
Theorem timer_added_while_stopped_is_queued_twice now now' sd ed st et rn du f tm tm1 :
  m_stop tm = true ->
  _addFunc max_int now sd ed st et rn du f tm = Done tm1 ->
  timer_expired Datetime_max now' (mkTimer sd ed st et du rn f) = false ->
  exists id p q,
    m_timers tm !! id = None
    /\ m_timers tm1 !! id = Some (mkTimer sd ed st et du rn f)
    /\ m_timers (start max_int Datetime_max now' tm1) !! id = Some (mkTimer sd ed st et du rn f)
    /\ m_queue (start max_int Datetime_max now' tm1)
       ≡ₚ mkIntervalS (now + du) id :: mkIntervalS p id :: q
    /\ length (m_queue (start max_int Datetime_max now' tm1))
       = S (length (m_queue tm) + size (m_timers (start max_int Datetime_max now' tm1))).
Proof.
  intros Hstop Hadd Hlive.
  destruct (TimerFacts._addFunc_registers max_int now sd ed st et rn du f tm tm1 Hadd)
    as (id & Hfree & Et & Eq & Es & _).
  assert (Hstop1 : m_stop tm1 = true) by congruence.
  destruct (start_stopped now' tm1 Hstop1) as (_ & Et' & Eq' & _).
  set (t := mkTimer sd ed st et du rn f) in *.
  assert (Hl1 : m_timers tm1 !! id = Some t) by (rewrite Et; apply lookup_insert_eq).
  assert (Hl2 : m_timers (start max_int Datetime_max now' tm1) !! id = Some t).
  { rewrite Et'. apply map_lookup_filter_Some. split; [exact Hl1 | exact Hlive]. }
  pose proof Hl2 as Hin. apply elem_of_map_to_list in Hin.
  apply (list_elem_of_fmap_2 (first_entry max_int now')) in Hin.
  apply elem_of_Permutation in Hin as (rest & Hrest).
  exists id, (initial_time_point max_int now' t), (m_queue tm ++ rest).
  split; [exact Hfree|]. split; [exact Hl1|]. split; [exact Hl2|]. split.
  - rewrite Eq', Hrest, Eq, queue_push_perm. unfold first_entry. cbn [fst snd app].
    apply perm_skip. symmetry. apply Permutation_middle.
  - rewrite Eq', length_app, length_fmap, length_map_to_list, Eq, queue_push_perm.
    reflexivity.
Qed.

End Facts.

(** *** At concrete inputs *)

Import TimerCase OpsCase.

Lemma add_registers_witness :
  exists id tm',
    _addFunc max_int day0 day0 day1 (hm 9 30) (hm 15 0) 1 (hm 1 0) 9%nat running_1430 = Done tm'
    /\ 0 <= id <= max_int /\ m_timers running_1430 !! id = None
    /\ m_current_timer_id tm' = id
    /\ m_timers tm' !! id = Some (mkTimer day0 day1 (hm 9 30) (hm 15 0) (hm 1 0) 1 9%nat)
    /\ (forall j, j <> id -> m_timers tm' !! j = m_timers running_1430 !! j)
    /\ size (m_timers tm') = S (size (m_timers running_1430))
    /\ m_queue tm' ≡ₚ mkIntervalS (day0 + hm 1 0) id :: m_queue running_1430
    /\ m_stop tm' = m_stop running_1430 /\ m_submitted tm' = m_submitted running_1430.
Proof.
  apply (add_registers_under_a_fresh_id max_int day0 day0 day1 (hm 9 30) (hm 15 0) 1 (hm 1 0)
           9%nat running_1430).
  - vm_compute. discriminate.
  - split; [vm_compute; split; discriminate|].
    intros id t Hl. cbn [running_1430 m_timers] in Hl.
    apply lookup_singleton_Some in Hl as [<- _]. vm_compute. split; discriminate.
  - vm_compute. reflexivity.
Defined.

Lemma every_call_returns_witness :
  exists tm,
    run_ops max_int Datetime_min Datetime_max calls TimerManager_new = Some tm
    /\ ids_in_range max_int tm.
Proof.
  apply (every_call_returns max_int Datetime_min Datetime_max calls).
  vm_compute. discriminate.
Defined.

Lemma detector_waits_witness :
  queue_sorted after_calls
  /\ (forall diff,
        snd (detect_step max_int Datetime_max day0 after_calls) = WaitFor diff ->
        0 < diff /\ Forall (fun s => day0 + diff <= m_time_point s) (m_queue after_calls))
  /\ (forall s q,
        m_queue after_calls = s :: q ->
        Forall (fun x => m_time_point s <= m_time_point x) q).
Proof.
  apply (detector_waits_only_when_nothing_is_due max_int Datetime_min Datetime_max calls
           after_calls day0).
  - vm_compute. discriminate.
  - vm_compute. reflexivity.
Defined.

Lemma timer_runs_witness :
  exists tm',
    run_ops max_int Datetime_min Datetime_max four_turns running_twice = Some tm'
    /\ (dispatches_of 0 tm' <= dispatches_of 0 running_twice + Z.to_nat 2)%nat.
Proof.
  apply (timer_runs_at_most_repeat_num_times max_int Datetime_min Datetime_max 0 minutely
           four_turns running_twice).
  - reflexivity.
  - vm_compute. split; [discriminate | reflexivity].
  - reflexivity.
Defined.



Lemma first_time_point_witness :
  let now := day0 + hm 10 15 in
  let p := now + m_duration hourly in
  let day := startOfDay p in
  let r := initial_time_point max_int now hourly in
  p <= r
  /\ (time_of_day p < m_start_time hourly -> r = day + m_start_time hourly)
  /\ (m_end_time hourly < time_of_day p -> r = day + m_start_time hourly + ticks_per_day)
  /\ (m_start_time hourly <= time_of_day p <= m_end_time hourly ->
      r < p + m_duration hourly
      /\ exists k, 0 <= k /\ r = day + m_start_time hourly + k * m_duration hourly).
Proof.
  apply (first_time_point_is_on_the_grid max_int (day0 + hm 10 15) hourly).
  - vm_compute. split; [discriminate | reflexivity].
  - vm_compute. split; reflexivity.
  - vm_compute. discriminate.
Defined.

(** Without the bound on the duration the first time point can lie before
    [now + duration]: for [every_7us] at noon the quotient of line 80 does not
    fit an [int], [x] is [INT_MIN + 1], and the entry is queued more than 16
    hours before [now]. *)
Remark first_time_point_when_the_quotient_overflows :
  ticks_per_day > max_int * m_duration every_7us
  /\ initial_time_point max_int (day0 + hm 12 0) every_7us
     = day0 + 1 + 7 * (- max_int)
  /\ initial_time_point max_int (day0 + hm 12 0) every_7us < day0 + hm 12 0 - hm 16 0.
Proof. vm_compute. repeat split. Qed.

Lemma one_shot_witness :
  exists id tm1,
    addDelayFunc max_int Datetime_min Datetime_max day0 (hm 0 1) 9%nat running_empty = Done tm1
    /\ m_timers running_empty !! id = None
    /\ m_timers tm1 !! id = Some (mkTimer Datetime_min Datetime_max 0 0 (hm 0 1) 1 9%nat)
    /\ (forall earlier, earlier < day0 + hm 0 1 ->
          detect_step max_int Datetime_max earlier tm1
          = (tm1, WaitFor (day0 + hm 0 1 - earlier)))
    /\ detect_step max_int Datetime_max (day0 + hm 0 2) tm1
       = (mkTimerManager [] false (m_timers running_empty) id
            (mkDispatch (day0 + hm 0 2) id 9%nat :: m_submitted running_empty),
          Finished id).
Proof.
  apply (one_shot_runs_once_and_is_removed max_int Datetime_min Datetime_max day0
           (day0 + hm 0 2) (hm 0 1) 9%nat running_empty).
  - reflexivity.
  - split; [vm_compute; split; discriminate|].
    intros id t Hl. cbn [running_empty m_timers] in Hl. rewrite lookup_empty in Hl.
    discriminate Hl.
  - reflexivity.
  - reflexivity.
  - reflexivity.
  - reflexivity.
  - vm_compute. discriminate.
Defined.

Lemma new_id_witness :
  exists k : nat,
    1 = (m_current_timer_id wrapped + 1 + Z.of_nat k) mod (max_int + 1)
    /\ m_timers wrapped !! 1 = None
    /\ (forall j : nat,
          (j < k)%nat ->
          is_Some (m_timers wrapped
                     !! ((m_current_timer_id wrapped + 1 + Z.of_nat j) mod (max_int + 1))))
    /\ set_current_timer_id 1 wrapped = set_current_timer_id 1 wrapped.
Proof.
  apply (new_id_is_the_next_free_one max_int wrapped 1 (set_current_timer_id 1 wrapped)).
  - vm_compute. discriminate.
  - vm_compute. split; discriminate.
  - vm_compute. reflexivity.
  - vm_compute. discriminate.
Defined.

Lemma queued_twice_witness :
  exists id p q,
    m_timers (TimerManager_new (Func := nat)) !! id = None
    /\ m_timers added_while_stopped !! id = Some minutely
    /\ m_timers (start max_int Datetime_max (day0 + hm 9 0) added_while_stopped) !! id
       = Some minutely
    /\ m_queue (start max_int Datetime_max (day0 + hm 9 0) added_while_stopped)
       ≡ₚ mkIntervalS (day0 + hm 8 0 + hm 0 1) id :: mkIntervalS p id :: q
    /\ length (m_queue (start max_int Datetime_max (day0 + hm 9 0) added_while_stopped))
       = S (length (m_queue (TimerManager_new (Func := nat)))
            + size (m_timers (start max_int Datetime_max (day0 + hm 9 0) added_while_stopped))).
Proof.
  apply (timer_added_while_stopped_is_queued_twice max_int Datetime_max (day0 + hm 8 0)
           (day0 + hm 9 0) day0 Datetime_max (hm 9 30) (hm 15 0) 2 (hm 0 1) 7%nat
           TimerManager_new added_while_stopped).
  - reflexivity.
  - vm_compute. reflexivity.
  - reflexivity.
Defined.

End TimerOpsFacts.

(** ** More facts about the trading system *)

Module SysOpsFacts.
Import Sys SysOps.

Section Facts.

Context {W : Type} `{Collaborators W}.

Implicit Types (s : System W) (today : KRecord.t) (from : Part) (d : Direction).

Ltac split_ifs :=
  repeat (match goal with
          | |- context [if ?b then _ else _] => destruct b eqn:?
          | |- context [match ?e with (_, _) => _ end] => destruct e eqn:?
          end; cbn beta iota zeta).

Ltac unfold_ops :=
  unfold _buyDelay, _sellDelay, _sellShortDelay, _buyShortDelay,
    _buyNow, _sellNow, _buyShortNow, _sellShortNow,
    _submitBuyRequest, _submitSellRequest, _submitSellShortRequest, _submitBuyShortRequest,
    _buyNotifyAll, _sellNotifyAll.

(** *** A relation that every part of a bar keeps *)

Section Bar.

Variable R : System W -> System W -> Prop.
Hypothesis R_refl : forall s, R s s.
Hypothesis R_trans : forall s1 s2 s3, R s1 s2 -> R s2 s3 -> R s1 s3.
Hypothesis R_ev : forall b s, R s (set_pre_ev_valid b s).
Hypothesis R_cn : forall b s, R s (set_pre_cn_valid b s).
Hypothesis R_tp : forall p s, R s (set_lastTakeProfit p s).
Hypothesis R_tick : forall s, R s (tick s).
Hypothesis R_delayed : forall d today s, R s (fst (execute_delayed d today s)).
Hypothesis R_buy : forall today from s, R s (fst (_buy today from s)).
Hypothesis R_sell : forall today from s, R s (fst (_sell today from s)).

Lemma sell_if_held_rel today from s : R s (fst (sell_if_held today from s)).
Proof. unfold sell_if_held. destruct (tm_have _); [apply R_sell | apply R_refl]. Qed.

Lemma position_phase_rel today result s : R s (fst (position_phase today result s)).
Proof.
  unfold position_phase.
  destruct (negb _); [|apply R_refl].
  destruct (PrimFloat.leb _ _).
  { pose proof (R_sell today PART_STOPLOSS s). destruct (_sell _ _ _). assumption. }
  destruct (PrimFloat.leb _ _).
  { pose proof (R_sell today PART_PROFITGOAL s). destruct (_sell _ _ _). assumption. }
  destruct (negb _); [|apply R_refl].
  destruct (PrimFloat.ltb _ _).
  - destruct (PrimFloat.leb _ _); [|apply R_refl].
    pose proof (R_sell today PART_TAKEPROFIT s). destruct (_sell _ _ _). assumption.
  - destruct (PrimFloat.leb _ _); [|apply R_tp].
    match goal with
    | |- context [_sell today PART_TAKEPROFIT ?s1] =>
        pose proof (R_sell today PART_TAKEPROFIT s1) as Hs;
        destruct (_sell today PART_TAKEPROFIT s1)
    end.
    eapply R_trans; [apply R_tp | exact Hs].
Qed.

Lemma decision_phases_rel today result s : R s (fst (decision_phases today result s)).
Proof.
  unfold decision_phases. cbn zeta.
  destruct (negb (_environmentIsValid _ _)).
  { pose proof (sell_if_held_rel today PART_ENVIRONMENT s) as Hs.
    destruct (sell_if_held _ _ _). eapply R_trans; [exact Hs | apply R_ev]. }
  destruct (negb (m_pre_ev_valid s) && _).
  { pose proof (R_buy today PART_ENVIRONMENT s) as Hs.
    destruct (_buy _ _ _). eapply R_trans; [exact Hs | apply R_ev]. }
  eapply R_trans; [apply R_ev|].
  destruct (negb (_conditionIsValid _ _)).
  { match goal with
    | |- context [sell_if_held today PART_CONDITION ?s1] =>
        pose proof (sell_if_held_rel today PART_CONDITION s1) as Hs;
        destruct (sell_if_held today PART_CONDITION s1)
    end.
    eapply R_trans; [exact Hs | apply R_cn]. }
  destruct (negb (m_pre_cn_valid _) && _).
  { match goal with
    | |- context [_buy today PART_CONDITION ?s1] =>
        pose proof (R_buy today PART_CONDITION s1) as Hs;
        destruct (_buy today PART_CONDITION s1)
    end.
    eapply R_trans; [exact Hs | apply R_cn]. }
  eapply R_trans; [apply R_cn|].
  destruct (sg_shouldBuy _ _).
  { match goal with
    | |- context [_buy today PART_SIGNAL ?s1] =>
        pose proof (R_buy today PART_SIGNAL s1) as Hs; destruct (_buy today PART_SIGNAL s1)
    end.
    exact Hs. }
  destruct (sg_shouldSell _ _).
  { match goal with
    | |- context [sell_if_held today PART_SIGNAL ?s1] =>
        pose proof (sell_if_held_rel today PART_SIGNAL s1) as Hs;
        destruct (sell_if_held today PART_SIGNAL s1)
    end.
    exact Hs. }
  apply position_phase_rel.
Qed.

Lemma _processRequest_rel today s : R s (fst (_processRequest today s)).
Proof.
  rewrite SysFacts._processRequest_dispatch.
  destruct (first_pending s); [apply R_delayed | apply R_refl].
Qed.

Lemma runMoment_rel today s : R s (fst (runMoment today s)).
Proof.
  rewrite SysFacts.runMoment_tick. eapply R_trans; [apply R_tick|].
  unfold _runMoment. destruct (gate_closed _ _); [apply R_refl|].
  pose proof (_processRequest_rel today (tick s)) as Hp.
  destruct (_processRequest today (tick s)) as [s1 result]. cbn [fst] in Hp.
  eapply R_trans; [exact Hp | apply decision_phases_rel].
Qed.

End Bar.

(** *** Only executed orders are recorded *)

Lemma appends_executed_refl s : appends_executed s s.
Proof. exists []. rewrite app_nil_r. split; [reflexivity | constructor]. Qed.

Lemma appends_executed_trans s1 s2 s3 :
  appends_executed s1 s2 -> appends_executed s2 s3 -> appends_executed s1 s3.
Proof.
  intros (l1 & E1 & F1) (l2 & E2 & F2). exists (l1 ++ l2).
  rewrite E2, E1, <- app_assoc. split; [reflexivity | apply Forall_app; split; assumption].
Qed.

Lemma appends_executed_same s s' : m_trade_list s' = m_trade_list s -> appends_executed s s'.
Proof. intros E. exists []. rewrite E, app_nil_r. split; [reflexivity | constructor]. Qed.

Lemma appends_executed_one s s' r :
  executed r -> m_trade_list s' = m_trade_list s ++ [r] -> appends_executed s s'.
Proof. intros Hr E. exists [r]. split; [exact E | constructor; [exact Hr | constructor]]. Qed.

Ltac executed_by_test :=
  match goal with
  | Hb : negb (bool_decide (_ = TradeRecord.business ?r)) = false |- executed ?r =>
      apply negb_false_iff, bool_decide_eq_true in Hb; unfold executed; rewrite <- Hb; auto
  end.

Ltac solve_appends :=
  cbn;
  first [ apply appends_executed_same; reflexivity
        | eapply appends_executed_one; [|reflexivity]; executed_by_test ].

Lemma execute_delayed_appends d today s : appends_executed s (fst (execute_delayed d today s)).
Proof. destruct d; cbn [execute_delayed]; unfold_ops; split_ifs; solve_appends. Qed.

Lemma _buy_appends today from s : appends_executed s (fst (_buy today from s)).
Proof. unfold _buy. unfold_ops. split_ifs; solve_appends. Qed.

Lemma _sell_appends today from s : appends_executed s (fst (_sell today from s)).
Proof. unfold _sell. unfold_ops. split_ifs; solve_appends. Qed.

Lemma _buyShort_appends today from s : appends_executed s (fst (_buyShort today from s)).
Proof. unfold _buyShort. unfold_ops. split_ifs; solve_appends. Qed.

Lemma _sellShort_appends today from s : appends_executed s (fst (_sellShort today from s)).
Proof. unfold _sellShort. unfold_ops. split_ifs; solve_appends. Qed.

Lemma runMoment_appends today s : appends_executed s (fst (runMoment today s)).
Proof.
  apply runMoment_rel;
    auto using appends_executed_refl, execute_delayed_appends, _buy_appends, _sell_appends.
  - apply appends_executed_trans.
  - intros; apply appends_executed_same; reflexivity.
  - intros; apply appends_executed_same; reflexivity.
  - intros; apply appends_executed_same; reflexivity.
  - intros; apply appends_executed_same; reflexivity.
Qed.

Lemma run_bars_appends kdata s : appends_executed s (fst (run_bars kdata s)).
Proof.
  revert s. induction kdata as [|k rest IH]; intros s; cbn [run_bars].
  - apply appends_executed_refl.
  - destruct (tm_started _ _); [|apply IH].
    pose proof (runMoment_appends k s) as H1.
    destruct (runMoment k s) as [s1 tr]. cbn [fst] in H1.
    specialize (IH s1). destruct (run_bars rest s1) as [s2 trs]. cbn [fst] in *.
    eapply appends_executed_trans; eassumption.
Qed.

(** *** The retry counters stay within [max_delay_count + 1] *)

Lemma keeps_counts_refl s : keeps_counts s s.
Proof. split; auto. Qed.

Lemma keeps_counts_trans s1 s2 s3 :
  keeps_counts s1 s2 -> keeps_counts s2 s3 -> keeps_counts s1 s3.
Proof.
  intros (P1 & C1) (P2 & C2). split; [congruence|].
  intros Hm Hc. apply C2; [rewrite P1; exact Hm|]. apply C1; assumption.
Qed.

Lemma keeps_counts_core s s' : same_core s' s -> keeps_counts s s'.
Proof.
  intros (P & _ & B). split; [exact P|].
  intros _ Hc d. rewrite B, P. apply Hc.
Qed.

Ltac test_facts :=
  repeat match goal with
         | E : (_ && _) = false |- _ => apply andb_false_iff in E; destruct E
         | E : (_ >? _) = false |- _ => rewrite Z.gtb_ltb in E; apply Z.ltb_ge in E
         | E : (_ >? _) = true |- _ => apply Z.gtb_lt in E
         end.

Ltac solve_counts :=
  split; [split_ifs; reflexivity|];
  let Hm := fresh "Hm" in let Hc := fresh "Hc" in let d := fresh "d" in
  intros Hm Hc d;
  pose proof (Hc LongBuy) as HB; pose proof (Hc LongSell) as HS;
  pose proof (Hc ShortSell) as HSS; pose proof (Hc ShortBuy) as HBS;
  cbn [buffer] in HB, HS, HSS, HBS;
  destruct d; split_ifs; cbn; test_facts;
  try (intros; discriminate);
  try assumption;
  intros _;
  repeat match goal with
         | Hx : ?a = true -> _, E : ?a = true |- _ => specialize (Hx E)
         end;
  try lia; try congruence.

Lemma execute_delayed_counts d today s : keeps_counts s (fst (execute_delayed d today s)).
Proof. destruct d; cbn [execute_delayed]; unfold keeps_counts; unfold_ops; solve_counts. Qed.

Lemma _buy_counts today from s : keeps_counts s (fst (_buy today from s)).
Proof. unfold keeps_counts, _buy. unfold_ops. solve_counts. Qed.

Lemma _sell_counts today from s : keeps_counts s (fst (_sell today from s)).
Proof. unfold keeps_counts, _sell. unfold_ops. solve_counts. Qed.

Lemma _buyShort_counts today from s : keeps_counts s (fst (_buyShort today from s)).
Proof. unfold keeps_counts, _buyShort. unfold_ops. solve_counts. Qed.

Lemma _sellShort_counts today from s : keeps_counts s (fst (_sellShort today from s)).
Proof. unfold keeps_counts, _sellShort. unfold_ops. solve_counts. Qed.

Lemma _sellForce_counts today num from s s' tr :
  _sellForce today num from s = Some (s', tr) -> keeps_counts s s'.
Proof.
  unfold _sellForce. destruct (negb _); [discriminate|].
  intros [= E]. revert E. unfold_ops.
  split_ifs; intros [= <- <-]; unfold keeps_counts; solve_counts.
Qed.

Lemma runMoment_counts today s : keeps_counts s (fst (runMoment today s)).
Proof.
  apply runMoment_rel;
    auto using keeps_counts_refl, execute_delayed_counts, _buy_counts, _sell_counts.
  - apply keeps_counts_trans.
  - intros; apply keeps_counts_core;
      split; [reflexivity | split; [reflexivity | intros []; reflexivity]].
  - intros; apply keeps_counts_core;
      split; [reflexivity | split; [reflexivity | intros []; reflexivity]].
  - intros; apply keeps_counts_core;
      split; [reflexivity | split; [reflexivity | intros []; reflexivity]].
  - intros; apply keeps_counts_core, SysFacts.tick_same_core.
Qed.

Lemma apply_step_counts st s :
  0 <= max_delay_count (m_params s) -> counts_bounded s ->
  m_params (apply_step st s) = m_params s /\ counts_bounded (apply_step st s).
Proof.
  intros Hm Hc.
  assert (Hk : forall s', keeps_counts s s' -> m_params s' = m_params s /\ counts_bounded s').
  { intros s' (P & C). split; [exact P | apply C; assumption]. }
  destruct st as [today|today from|today from|today from|today from|today num from| |a b|w];
    cbn [apply_step].
  - apply Hk, runMoment_counts.
  - apply Hk, _buy_counts.
  - apply Hk, _sell_counts.
  - apply Hk, _buyShort_counts.
  - apply Hk, _sellShort_counts.
  - destruct (_sellForce today num from s) as [[s' tr]|] eqn:E; [|auto].
    apply Hk. eapply _sellForce_counts. exact E.
  - split; [reflexivity|]. intros []; discriminate.
  - split; [reflexivity|]. intros []; discriminate.
  - split; [reflexivity|]. intros d.
    destruct d;
      [exact (Hc LongBuy) | exact (Hc LongSell) | exact (Hc ShortSell) | exact (Hc ShortBuy)].
Qed.

Lemma apply_steps_counts sts s :
  0 <= max_delay_count (m_params s) -> counts_bounded s ->
  m_params (apply_steps sts s) = m_params s /\ counts_bounded (apply_steps sts s).
Proof.
  revert s. induction sts as [|st sts IH]; intros s Hm Hc; [auto|].
  cbn [apply_steps fold_left].
  destruct (apply_step_counts st s Hm Hc) as (P & C).
  destruct (IH (apply_step st s) ltac:(rewrite P; exact Hm) C) as (P' & C').
  split; [unfold apply_steps in P'; congruence | exact C'].
Qed.

(** *** What a bar returns *)

Ltac solve_returned :=
  cbn;
  first [ left; split; reflexivity
        | right; split; [reflexivity|];
          match goal with
          | Hb : negb (bool_decide (_ = TradeRecord.business ?r)) = false |- executed ?r =>
              apply negb_false_iff, bool_decide_eq_true in Hb; unfold executed;
              rewrite <- Hb; auto
          end ].

Lemma _buy_returned today from s :
  traded_and_returned s (fst (_buy today from s)) (snd (_buy today from s)).
Proof. unfold traded_and_returned, _buy. unfold_ops. split_ifs; solve_returned. Qed.

Lemma _sell_returned today from s :
  traded_and_returned s (fst (_sell today from s)) (snd (_sell today from s)).
Proof. unfold traded_and_returned, _sell. unfold_ops. split_ifs; solve_returned. Qed.

Lemma execute_delayed_returned d today s :
  d <> ShortBuy ->
  traded_and_returned s (fst (execute_delayed d today s)) (snd (execute_delayed d today s)).
Proof.
  intros Hd. destruct d; try contradiction; cbn [execute_delayed];
    unfold traded_and_returned; unfold_ops; split_ifs; solve_returned.
Qed.

Lemma _buyShortDelay_outcome today s :
  snd (_buyShortDelay today s) = TradeRecord.null
  /\ (m_trade_list (fst (_buyShortDelay today s)) = m_trade_list s
      \/ exists r, TradeRecord.business r = BUSINESS_BUY_SHORT
                   /\ m_trade_list (fst (_buyShortDelay today s)) = m_trade_list s ++ [r]).
Proof.
  split; [apply SysFacts._buyShortDelay_returns_null|].
  unfold _buyShortDelay, _buyNotifyAll. split_ifs; cbn; auto.
  all: right;
    match goal with
    | Hb : negb (bool_decide (_ = TradeRecord.business ?r)) = false |- _ =>
        exists r; apply negb_false_iff, bool_decide_eq_true in Hb; auto
    end.
Qed.

Lemma pick_executed result tr : executed tr -> pick result tr = tr.
Proof.
  intros He. unfold pick, TradeRecord.isNull.
  rewrite bool_decide_eq_false_2; [reflexivity|].
  unfold executed in He. intros E. rewrite E in He.
  destruct He as [?|[?|[?|?]]]; discriminate.
Qed.

Lemma phase_returned_of result s0 s s' s'' tr :
  m_trade_list s = m_trade_list s0 ->
  traded_and_returned s s' tr ->
  m_trade_list s'' = m_trade_list s' ->
  phase_returned result s0 s'' (pick result tr).
Proof.
  intros E0 [[E ->]|[E He]] E1.
  - left. split; [congruence | reflexivity].
  - right. rewrite pick_executed by assumption. split; [congruence | exact He].
Qed.

Lemma sell_if_held_returned today from s :
  traded_and_returned s (fst (sell_if_held today from s)) (snd (sell_if_held today from s)).
Proof.
  unfold sell_if_held. destruct (tm_have _); [apply _sell_returned|]. left. split; reflexivity.
Qed.

Ltac returned_of lem Heq :=
  match type of Heq with
  | ?f ?today ?from ?s = (?s', ?tr) =>
      let E := fresh "E" in
      pose proof (lem today from s) as E; rewrite Heq in E; cbn [fst snd] in E
  end.

Lemma position_phase_returned today result s :
  phase_returned result s (fst (position_phase today result s))
    (snd (position_phase today result s)).
Proof.
  unfold position_phase.
  destruct (negb _); cbn [fst snd]; [|left; split; reflexivity].
  destruct (PrimFloat.leb _ _).
  { destruct (_sell today PART_STOPLOSS s) as [s' tr] eqn:Heq. returned_of _sell_returned Heq.
    cbn [fst snd]. eapply phase_returned_of; eauto. }
  destruct (PrimFloat.leb _ _).
  { destruct (_sell today PART_PROFITGOAL s) as [s' tr] eqn:Heq. returned_of _sell_returned Heq.
    cbn [fst snd]. eapply phase_returned_of; eauto. }
  destruct (negb _); [|left; split; reflexivity].
  destruct (PrimFloat.ltb _ _).
  - destruct (PrimFloat.leb _ _); [|left; split; reflexivity].
    destruct (_sell today PART_TAKEPROFIT s) as [s' tr] eqn:Heq. returned_of _sell_returned Heq.
    cbn [fst snd]. eapply phase_returned_of; eauto.
  - destruct (PrimFloat.leb _ _); [|left; split; reflexivity].
    destruct (_sell today PART_TAKEPROFIT _) as [s' tr] eqn:Heq. returned_of _sell_returned Heq.
    cbn [fst snd]. eapply phase_returned_of; [|exact E|reflexivity]. reflexivity.
Qed.

Lemma decision_phases_returned today result s :
  phase_returned result s (fst (decision_phases today result s))
    (snd (decision_phases today result s)).
Proof.
  unfold decision_phases. cbn zeta.
  destruct (negb (_environmentIsValid _ _)).
  { destruct (sell_if_held today PART_ENVIRONMENT s) as [s' tr] eqn:Heq.
    returned_of sell_if_held_returned Heq. cbn [fst snd].
    eapply phase_returned_of; [|exact E|]; reflexivity. }
  destruct (negb (m_pre_ev_valid s) && _).
  { destruct (_buy today PART_ENVIRONMENT s) as [s' tr] eqn:Heq.
    returned_of _buy_returned Heq. cbn [fst snd].
    eapply phase_returned_of; [|exact E|]; reflexivity. }
  destruct (negb (_conditionIsValid _ _)).
  { destruct (sell_if_held today PART_CONDITION _) as [s' tr] eqn:Heq.
    returned_of sell_if_held_returned Heq. cbn [fst snd].
    eapply phase_returned_of; [|exact E|]; reflexivity. }
  destruct (negb (m_pre_cn_valid _) && _).
  { destruct (_buy today PART_CONDITION _) as [s' tr] eqn:Heq.
    returned_of _buy_returned Heq. cbn [fst snd].
    eapply phase_returned_of; [|exact E|]; reflexivity. }
  destruct (sg_shouldBuy _ _).
  { destruct (_buy today PART_SIGNAL _) as [s' tr] eqn:Heq.
    returned_of _buy_returned Heq. cbn [fst snd].
    eapply phase_returned_of; [|exact E|]; reflexivity. }
  destruct (sg_shouldSell _ _).
  { destruct (sell_if_held today PART_SIGNAL _) as [s' tr] eqn:Heq.
    returned_of sell_if_held_returned Heq. cbn [fst snd].
    eapply phase_returned_of; [|exact E|]; reflexivity. }
  match goal with
  | |- context [position_phase today result ?s1] =>
      pose proof (position_phase_returned today result s1) as Hp
  end.
  exact Hp.
Qed.

Lemma _processRequest_outcome today s :
  bar_outcome s (fst (_processRequest today s)) (snd (_processRequest today s)).
Proof.
  rewrite SysFacts._processRequest_dispatch.
  destruct (first_pending s) as [d|]; [|left; split; reflexivity].
  assert (Hd : d = ShortBuy \/ d <> ShortBuy) by (destruct d; auto; right; discriminate).
  destruct Hd as [->|Hd].
  - cbn [execute_delayed]. destruct (_buyShortDelay_outcome today s) as (Hn & [E|Hr]).
    + left. split; assumption.
    + right. right. split; assumption.
  - destruct (execute_delayed_returned d today s Hd) as [Hl|Hr]; [left|right; left]; assumption.
Qed.

Lemma _runMoment_outcome today s :
  requests_need_delay s ->
  bar_outcome s (fst (_runMoment today s)) (snd (_runMoment today s)).
Proof.
  intros Hinv. unfold _runMoment.
  destruct (gate_closed today s) eqn:Hgate; [left; split; reflexivity|].
  destruct (delay (m_params s)) eqn:Hdelay.
  - pose proof (SysFacts._processRequest_params today s) as Hp.
    pose proof (_processRequest_outcome today s) as Ho.
    destruct (_processRequest today s) as [s1 result]. cbn [fst snd] in *.
    destruct (SysFacts.decision_phases_effect today result s1) as (_ & Hd & _).
    destruct Hd as (T & R); [congruence|].
    rewrite R. unfold bar_outcome. rewrite T. exact Ho.
  - assert (Hnone : first_pending s = None)
      by (apply SysFacts.first_pending_None, Hinv, Hdelay).
    rewrite SysFacts._processRequest_dispatch, Hnone.
    destruct (decision_phases_returned today TradeRecord.null s) as [Hl|Hr];
      [left|right; left]; assumption.
Qed.

(** *** The quantity of a forced sale *)




(** *** Delayed decisions *)






(** *** The properties *)

(** X12.  The trade list only grows, and only by records of executed orders
    (business BUY, SELL, BUY_SHORT or SELL_SHORT): a bar, a whole run of
    bars and the four decisions keep the trades that were there and never
    record an order that the trade manager turned down. *)
Theorem only_executed_orders_are_recorded today from kdata s :
  appends_executed s (fst (runMoment today s))
  /\ appends_executed s (fst (run_bars kdata s))
  /\ appends_executed s (fst (_buy today from s))
  /\ appends_executed s (fst (_sell today from s))
  /\ appends_executed s (fst (_buyShort today from s))
  /\ appends_executed s (fst (_sellShort today from s)).
Proof.
  split; [apply runMoment_appends|]. split; [apply run_bars_appends|].
  split; [apply _buy_appends|]. split; [apply _sell_appends|].
  split; [apply _buyShort_appends | apply _sellShort_appends].
Qed.

(** X13.  With [max_delay_count >= 0], the counter of a pending request is
    always between 1 and [max_delay_count + 1], in each of the four
    directions: bars, decisions, forced sales, [clearDelayRequest] and [reset]
    keep that bound, and a new system has it.  The parameters are not
    changed by any of them. *)
Theorem retry_counters_stay_bounded sts :
  (forall s,
      0 <= max_delay_count (m_params s) ->
      counts_bounded s ->
      counts_bounded (apply_steps sts s) /\ m_params (apply_steps sts s) = m_params s)
  /\ (forall w p,
        0 <= max_delay_count p ->
        counts_bounded (apply_steps sts (setParams p (System_new w)))).
Proof.
  split.
  - intros s Hm Hc. destruct (apply_steps_counts sts s Hm Hc) as (P & C). split; assumption.
  - intros w p Hm. apply apply_steps_counts; [exact Hm|]. intros []; discriminate.
Qed.

(** X14.  What [runMoment] returns is the trade of the bar: in a state
    where requests are pending only while decisions are delayed, either the
    bar appends nothing and returns the empty record, or it appends one
    executed order and returns its record, or it appends one short-buy and
    returns the empty record. *)
Theorem runMoment_returns_the_trade_it_appends today s :
  requests_need_delay s ->
  bar_outcome s (fst (runMoment today s)) (snd (runMoment today s)).
Proof.
  intros Hinv. rewrite SysFacts.runMoment_tick.
  exact (_runMoment_outcome today (tick s) Hinv).
Qed.



(** *** A run *)

Section Run.

Context {Q : Type} `{Backtest W Q}.





End Run.

End Facts.

(** *** At concrete inputs *)

Import Toy OpsCase.

Lemma retry_counters_witness :
  counts_bounded (apply_steps day buy_pending)
  /\ m_params (apply_steps day buy_pending) = m_params buy_pending
  /\ counts_bounded (apply_steps day (setParams initParam (System_new flat_world))).
Proof.
  destruct (retry_counters_stay_bounded day) as (Hkept & Hnew).
  destruct (Hkept buy_pending) as (C & P).
  - vm_compute. discriminate.
  - intros d. destruct d; vm_compute; intros Hv; first [discriminate Hv | split; discriminate].
  - split; [exact C|]. split; [exact P|].
    apply Hnew. vm_compute. discriminate.
Defined.

Lemma runMoment_returns_witness :
  bar_outcome buy_pending (fst (runMoment bar buy_pending)) (snd (runMoment bar buy_pending)).
Proof.
  apply (runMoment_returns_the_trade_it_appends bar buy_pending).
  intros Hoff. discriminate Hoff.
Defined.



(** The record of a forced sale that the trade manager turned down is
    appended all the same: the trade list then holds an empty record. *)
Remark forced_sale_records_a_refusal :
  exists s',
    _sellForce bar 50%float PART_PORTFOLIO refused_now = Some (s', TradeRecord.null)
    /\ m_trade_list s' = [TradeRecord.null]
    /\ ~ executed TradeRecord.null.
Proof.
  eexists. split; [vm_compute; reflexivity|]. split; [reflexivity|].
  unfold executed. cbn. intros [?|[?|[?|?]]]; discriminate.
Qed.


End SysOpsFacts.
